(** * SatChecker: the ephemeris routes of [api/core/routes.py]

    A shallow embedding of the request handlers of [api/core/routes.py] and of
    the ORM rows of [api/core/database/models.py].  Handlers run in a small
    exception-and-log monad: a Python exception (Flask's [abort] raises one)
    stops the handler unless a [try] catches it, and every call that leaves
    [routes.py] is written to a chronological call log, so that "was the
    repository asked before the request was refused?" is a property of the
    log.

    Julian dates are Python floats in the source.  In the handlers they are
    exact rationals ([Q]): a handler only compares them, hands them on and
    counts them.  The time grid generator, whose arithmetic rounds, is also
    given in binary64 ([Binary64]), and what is stated about the values of
    its grid is stated there. *)

From Stdlib Require Import ZArith QArith Qround Qabs List String Ascii Bool Lia Lqa.
From Stdlib Require PrimFloat SpecFloat FloatOps.
From stdpp Require Import base option list gmap strings pretty.

Import ListNotations.
Local Open Scope string_scope.
Local Open Scope list_scope.

(** ** Python values and exceptions *)

(** An instant, expressed in days as a Julian date. *)
Definition datetime : Type := Q.

(** The values a request parameter dictionary holds: a missing parameter
    ([None]), a raw query-string value, a number, or the observer location
    built from latitude, longitude and elevation. *)
Inductive pyval : Type :=
| VNone
| VStr (s : string)
| VFloat (x : Q)
| VLocation (latitude longitude elevation : Q).

Definition is_None (v : pyval) : bool :=
  match v with VNone => true | _ => false end.

(** Exceptions.  [HTTPException] is what Flask's [abort(code, description)]
    raises; it derives from [Exception], so an [except Exception] clause
    catches it like any other.  The last five are the error kinds of the
    ephemeris engine. *)
Inductive exn : Type :=
| HTTPException (code : Z) (description : option string)
| AttributeError (what : string)
| KeyError (key : string)
| IndexError
| TypeError
| ValueError
| DataError
| InvalidRangeError
| InvalidIdentifierError
| NoElementSetFoundError
| MalformedElementSetError (reason : string)
| PropagationError.

Inductive result (A : Type) : Type :=
| Ok (a : A)
| Exc (e : exn).
Arguments Ok {A} a.
Arguments Exc {A} e.

Definition is_Ok {A} (r : result A) : bool :=
  match r with Ok _ => true | Exc _ => false end.

(** ** Rows of [database/models.py] *)

Module Satellite.
Record t : Type := mk {
  id : Z;
  sat_number : string;
  sat_name : string;
  constellation : string;
  date_added : option datetime;
  rcs_size : option string;
  launch_date : option datetime;
  decay_date : option datetime;
  object_id : option string;
  object_type : option string
}.
End Satellite.

Module TLE.
Record t : Type := mk {
  id : Z;
  sat_id : Z;
  date_collected : datetime;
  tle_line1 : string;
  tle_line2 : string;
  is_supplemental : bool;
  data_source : string;
  epoch : datetime;
  tle_satellite : option Satellite.t
}.
End TLE.

(** What [parse_tle] hands back to the [tle] routes: the routes read exactly
    these five attributes. *)
Module UserTLE.
Record t : Type := mk {
  tle_line1 : string;
  tle_line2 : string;
  date_collected : datetime;
  name : pyval;
  catalog : string
}.
End UserTLE.

(** ** Output schema *)

Definition vec3 : Type := (Q * Q * Q)%type.

(** The per-sample output of propagation and frame transformation. *)
Record SampleGeometry : Type := {
  ALTITUDE_DEG : Q;
  AZIMUTH_DEG : Q;
  RIGHT_ASCENSION_DEG : Q;
  DECLINATION_DEG : Q;
  DRA_COSDEC_DEG_PER_SEC : Q;
  DDEC_DEG_PER_SEC : Q;
  RANGE_KM : Q;
  RANGE_RATE_KM_PER_SEC : Q;
  PHASE_ANGLE_DEG : Q;
  ILLUMINATED : bool;
  OBSERVER_GCRS_KM : vec3;
  SATELLITE_GCRS_KM : vec3
}.

Record EphemerisRecord : Type := {
  NAME : pyval;
  CATALOG_ID : pyval;
  DATA_SOURCE : pyval;
  TLE_DATE : datetime;
  JULIAN_DATE : Q;
  GEOMETRY : SampleGeometry
}.

(** What a view function returns: the ephemeris batch, a [jsonify]-ed list of
    flat dictionaries (the lookup tools), or Python's [None]. *)
Inductive response : Type :=
| Ephemeris (records : list EphemerisRecord)
| Jsonify (rows : list (list (string * string)))
| ReturnNone.

(** ** Calls that leave [routes.py] *)

Record Request : Type := { args : gmap string string }.

(** The ten positional arguments of [propagate_and_create_json_results]. *)
Record propagate_args : Type := {
  pa_location : pyval;
  pa_jd : list Q;
  pa_tle_line1 : string;
  pa_tle_line2 : string;
  pa_date_collected : datetime;
  pa_name : pyval;
  pa_min_altitude : pyval;
  pa_max_altitude : pyval;
  pa_catalog_id : pyval;
  pa_data_source : pyval
}.

Inductive event : Type :=
| EvExtractParameters (request : Request) (keys : list string)
| EvValidateParameters (parameters : gmap string pyval) (required : list string)
| EvJdArange (a b dr : Q)
| EvGetTle (identifier : pyval) (use_catalog_number : bool)
           (data_source : pyval) (date : datetime)
| EvParseTle (tle : pyval)
| EvPropagate (a : propagate_args)
| EvGetIdsForName (satellite_name : string)
| EvGetNamesForId (satellite_id : string)
| EvGetTles (satellite_id id_type : string) (start_date end_date : option datetime)
| EvLogInfo (msg : string)
| EvLogError (e : exn)
| EvPrint (name : string) (date_added_utc : datetime).

Definition trace : Type := list event.

(** An element-set lookup or a propagation. *)
Definition is_engine_event (ev : event) : bool :=
  match ev with
  | EvGetTle _ _ _ _ | EvParseTle _ | EvPropagate _ => true
  | _ => false
  end.

Definition is_propagate_event (ev : event) : bool :=
  match ev with EvPropagate _ => true | _ => false end.

(** What a route can still log once the time grid is there. *)
Definition is_late_event (ev : event) : bool :=
  match ev with
  | EvGetTle _ _ _ _ | EvParseTle _ | EvPropagate _ | EvLogInfo _ => true
  | _ => false
  end.

(** The functions and constants [routes.py] imports from modules that are
    not part of these sources ([core.utils], [core.database.tle_access],
    [core.database.satellite_access], [error_messages], astropy's [Time],
    and Python's own [float], [str.upper] and [strftime]). *)
Record collaborators : Type := {
  extract_parameters : Request -> list string -> result (gmap string pyval);
  validate_parameters : gmap string pyval -> list string -> result (gmap string pyval);
  jd_arange : Q -> Q -> Q -> result (list Q);
  get_tle : pyval -> bool -> pyval -> datetime -> result (TLE.t * Satellite.t);
  parse_tle : pyval -> result UserTLE.t;
  propagate_and_create_json_results : propagate_args -> result response;
  get_ids_for_satelltite_name : string -> result (list (string * option datetime));
  get_names_for_satellite_id : string -> result (list (string * option datetime));
  get_tles : string -> string -> option datetime -> option datetime -> result (list TLE.t);
  float_of_string : string -> option Q;
  Time_jd : pyval -> result Q;
  to_datetime : Q -> result datetime;
  upper : string -> string;
  strftime : datetime -> string;
  INVALID_JD : string;
  NO_TLE_FOUND : string
}.

(** ** The handler monad *)

Definition M (A : Type) : Type := trace -> result A * trace.

Definition ret {A} (a : A) : M A := fun tr => (Ok a, tr).

Definition raise {A} (e : exn) : M A := fun tr => (Exc e, tr).

Definition bind {A B} (m : M A) (k : A -> M B) : M B :=
  fun tr =>
    match m tr with
    | (Ok a, tr') => k a tr'
    | (Exc e, tr') => (Exc e, tr')
    end.

Declare Scope handler_scope.
Delimit Scope handler_scope with handler.
Notation "x <- c ;; k" := (bind c (fun x => k))
  (at level 100, c at next level, right associativity) : handler_scope.
Notation "c ;;; k" := (bind c (fun _ => k))
  (at level 100, right associativity) : handler_scope.
Local Open Scope handler_scope.

(** Flask's [abort]. *)
Definition abort {A} (code : Z) (description : option string) : M A :=
  raise (HTTPException code description).

Definition emit (ev : event) : M unit := fun tr => (Ok tt, tr ++ [ev]).

(** A call to a collaborator: logged, then its result or its exception. *)
Definition call {A} (ev : event) (r : result A) : M A :=
  fun tr => (r, tr ++ [ev]).

(** [try: body  except Exception as e: handler(e)]. *)
Definition try_except {A} (body : M A) (handler : exn -> M A) : M A :=
  fun tr =>
    match body tr with
    | (Ok a, tr') => (Ok a, tr')
    | (Exc e, tr') => handler e tr'
    end.

(** A handler starts with an empty call log. *)
Definition run {A} (m : M A) : result A * trace := m [].

Fixpoint mapM {A B} (f : A -> M B) (l : list A) : M (list B) :=
  match l with
  | [] => ret []
  | x :: l' => y <- f x ;; ys <- mapM f l' ;; ret (y :: ys)
  end.

(** [parameters[key]]. *)
Definition getitem (parameters : gmap string pyval) (key : string) : M pyval :=
  match parameters !! key with
  | Some v => ret v
  | None => raise (KeyError key)
  end.

(** [jd[0]]. *)
Definition first_item {A} (l : list A) : M A :=
  match l with
  | x :: _ => ret x
  | [] => raise IndexError
  end.

(** The literal [0.00138889] of the [jdstep] routes ("default to 2 min"). *)
Definition default_stepjd : Q := 138889 # 100000000.

(** [d.strftime(...)] on a column that may hold [None]. *)
Definition strftime_of (fmt : datetime -> string) (d : option datetime) : M string :=
  match d with
  | Some d => ret (fmt d)
  | None => raise (AttributeError "strftime")
  end.

(** ** The routes *)

Section Routes.

Context (env : collaborators).

(** Python's [float(v)]. *)
Definition float (v : pyval) : M Q :=
  match v with
  | VFloat x => ret x
  | VStr s =>
      match float_of_string env s with
      | Some x => ret x
      | None => raise ValueError
      end
  | VNone | VLocation _ _ _ => raise TypeError
  end.

Definition call_extract_parameters (request : Request) (keys : list string)
  : M (gmap string pyval) :=
  call (EvExtractParameters request keys) (extract_parameters env request keys).

Definition call_validate_parameters (parameters : gmap string pyval)
    (required : list string) : M (gmap string pyval) :=
  call (EvValidateParameters parameters required)
       (validate_parameters env parameters required).

Definition call_jd_arange (a b dr : Q) : M (list Q) :=
  call (EvJdArange a b dr) (jd_arange env a b dr).

Definition call_get_tle (identifier : pyval) (use_catalog_number : bool)
    (data_source : pyval) (date : datetime) : M (TLE.t * Satellite.t) :=
  call (EvGetTle identifier use_catalog_number data_source date)
       (get_tle env identifier use_catalog_number data_source date).

Definition call_parse_tle (tle : pyval) : M UserTLE.t :=
  call (EvParseTle tle) (parse_tle env tle).

Definition call_propagate (a : propagate_args) : M response :=
  call (EvPropagate a) (propagate_and_create_json_results env a).

(** [try: jd = Time(parameters["julian_date"], format="jd", scale="ut1")
     except Exception: abort(500, error_messages.INVALID_JD)]. *)
Definition julian_date_of (parameters : gmap string pyval) : M Q :=
  try_except
    (v <- getitem parameters "julian_date" ;;
     fun tr => (Time_jd env v, tr))
    (fun _ => abort 500 (Some (INVALID_JD env))).

(** [jd.to_datetime()], an argument of a call: evaluated before the call
    is made, and it raises for a Julian date that Python's [datetime] cannot
    hold. *)
Definition to_datetime_of (jd : Q) : M datetime :=
  fun tr => (to_datetime env jd, tr).

(** [jds = 0.00138889 if parameters["stepjd"] is None
          else float(parameters["stepjd"])]. *)
Definition stepjd_of (parameters : gmap string pyval) : M Q :=
  stepjd <- getitem parameters "stepjd" ;;
  if is_None stepjd then ret default_stepjd
  else (stepjd <- getitem parameters "stepjd" ;; float stepjd).

Definition get_ephemeris_by_name (request : Request) : M response :=
  parameters <- call_extract_parameters request
    ["name"; "latitude"; "longitude"; "elevation"; "julian_date";
     "min_altitude"; "max_altitude"; "data_source"] ;;
  parameters <- call_validate_parameters parameters
    ["name"; "latitude"; "longitude"; "elevation"; "julian_date"] ;;
  jd <- julian_date_of parameters ;;
  name <- getitem parameters "name" ;;
  data_source <- getitem parameters "data_source" ;;
  date <- to_datetime_of jd ;;
  tle <- call_get_tle name false data_source date ;;
  location <- getitem parameters "location" ;;
  name <- getitem parameters "name" ;;
  min_altitude <- getitem parameters "min_altitude" ;;
  max_altitude <- getitem parameters "max_altitude" ;;
  data_source <- getitem parameters "data_source" ;;
  call_propagate
    {| pa_location := location;
       pa_jd := [jd];
       pa_tle_line1 := TLE.tle_line1 (fst tle);
       pa_tle_line2 := TLE.tle_line2 (fst tle);
       pa_date_collected := TLE.date_collected (fst tle);
       pa_name := name;
       pa_min_altitude := min_altitude;
       pa_max_altitude := max_altitude;
       pa_catalog_id := VStr (Satellite.sat_number (snd tle));
       pa_data_source := data_source |}.

Definition get_ephemeris_by_name_jdstep (request : Request) : M response :=
  parameters <- call_extract_parameters request
    ["name"; "latitude"; "longitude"; "elevation"; "startjd"; "stopjd";
     "stepjd"; "min_altitude"; "max_altitude"; "data_source"] ;;
  parameters <- call_validate_parameters parameters
    ["name"; "latitude"; "longitude"; "elevation"; "startjd"; "stopjd"] ;;
  startjd <- getitem parameters "startjd" ;;
  jd0 <- float startjd ;;
  stopjd <- getitem parameters "stopjd" ;;
  jd1 <- float stopjd ;;
  jds <- stepjd_of parameters ;;
  jd <- call_jd_arange jd0 jd1 jds ;;
  if (Z.of_nat (length jd) >? 1000)%Z then abort 400 None
  else
    name <- getitem parameters "name" ;;
    data_source <- getitem parameters "data_source" ;;
    jd_0 <- first_item jd ;;
    date <- to_datetime_of jd_0 ;;
    tle <- call_get_tle name false data_source date ;;
    location <- getitem parameters "location" ;;
    name <- getitem parameters "name" ;;
    min_altitude <- getitem parameters "min_altitude" ;;
    max_altitude <- getitem parameters "max_altitude" ;;
    data_source <- getitem parameters "data_source" ;;
    call_propagate
      {| pa_location := location;
         pa_jd := jd;
         pa_tle_line1 := TLE.tle_line1 (fst tle);
         pa_tle_line2 := TLE.tle_line2 (fst tle);
         pa_date_collected := TLE.date_collected (fst tle);
         pa_name := name;
         pa_min_altitude := min_altitude;
         pa_max_altitude := max_altitude;
         pa_catalog_id := VStr (Satellite.sat_number (snd tle));
         pa_data_source := data_source |}.

Definition get_ephemeris_by_catalog_number (request : Request) : M response :=
  parameters <- call_extract_parameters request
    ["catalog"; "latitude"; "longitude"; "elevation"; "julian_date";
     "min_altitude"; "max_altitude"; "data_source"] ;;
  parameters <- call_validate_parameters parameters
    ["catalog"; "latitude"; "longitude"; "elevation"; "julian_date"] ;;
  jd <- julian_date_of parameters ;;
  catalog <- getitem parameters "catalog" ;;
  data_source <- getitem parameters "data_source" ;;
  date <- to_datetime_of jd ;;
  tle <- call_get_tle catalog true data_source date ;;
  location <- getitem parameters "location" ;;
  min_altitude <- getitem parameters "min_altitude" ;;
  max_altitude <- getitem parameters "max_altitude" ;;
  data_source <- getitem parameters "data_source" ;;
  call_propagate
    {| pa_location := location;
       pa_jd := [jd];
       pa_tle_line1 := TLE.tle_line1 (fst tle);
       pa_tle_line2 := TLE.tle_line2 (fst tle);
       pa_date_collected := TLE.date_collected (fst tle);
       pa_name := VStr (Satellite.sat_name (snd tle));
       pa_min_altitude := min_altitude;
       pa_max_altitude := max_altitude;
       pa_catalog_id := VStr (Satellite.sat_number (snd tle));
       pa_data_source := data_source |}.

Definition get_ephemeris_by_catalog_number_jdstep (request : Request) : M response :=
  parameters <- call_extract_parameters request
    ["catalog"; "latitude"; "longitude"; "elevation"; "startjd"; "stopjd";
     "stepjd"; "min_altitude"; "max_altitude"; "data_source"] ;;
  parameters <- call_validate_parameters parameters
    ["catalog"; "latitude"; "longitude"; "elevation"; "startjd"; "stopjd"] ;;
  startjd <- getitem parameters "startjd" ;;
  jd0 <- float startjd ;;
  stopjd <- getitem parameters "stopjd" ;;
  jd1 <- float stopjd ;;
  jds <- stepjd_of parameters ;;
  jd <- call_jd_arange jd0 jd1 jds ;;
  if (Z.of_nat (length jd) >? 1000)%Z then
    (emit (EvLogInfo "Too many results requested") ;;; abort 400 None)
  else
    catalog <- getitem parameters "catalog" ;;
    data_source <- getitem parameters "data_source" ;;
    jd_0 <- first_item jd ;;
    date <- to_datetime_of jd_0 ;;
    tle <- call_get_tle catalog true data_source date ;;
    location <- getitem parameters "location" ;;
    min_altitude <- getitem parameters "min_altitude" ;;
    max_altitude <- getitem parameters "max_altitude" ;;
    data_source <- getitem parameters "data_source" ;;
    call_propagate
      {| pa_location := location;
         pa_jd := jd;
         pa_tle_line1 := TLE.tle_line1 (fst tle);
         pa_tle_line2 := TLE.tle_line2 (fst tle);
         pa_date_collected := TLE.date_collected (fst tle);
         pa_name := VStr (Satellite.sat_name (snd tle));
         pa_min_altitude := min_altitude;
         pa_max_altitude := max_altitude;
         pa_catalog_id := VStr (Satellite.sat_number (snd tle));
         pa_data_source := data_source |}.

Definition get_ephemeris_by_tle (request : Request) : M response :=
  parameters <- call_extract_parameters request
    ["tle"; "latitude"; "longitude"; "elevation"; "julian_date";
     "min_altitude"; "max_altitude"] ;;
  parameters <- call_validate_parameters parameters
    ["tle"; "latitude"; "longitude"; "elevation"; "julian_date"] ;;
  jd <- julian_date_of parameters ;;
  text <- getitem parameters "tle" ;;
  tle <- call_parse_tle text ;;
  location <- getitem parameters "location" ;;
  min_altitude <- getitem parameters "min_altitude" ;;
  max_altitude <- getitem parameters "max_altitude" ;;
  call_propagate
    {| pa_location := location;
       pa_jd := [jd];
       pa_tle_line1 := UserTLE.tle_line1 tle;
       pa_tle_line2 := UserTLE.tle_line2 tle;
       pa_date_collected := UserTLE.date_collected tle;
       pa_name := UserTLE.name tle;
       pa_min_altitude := min_altitude;
       pa_max_altitude := max_altitude;
       pa_catalog_id := VStr (UserTLE.catalog tle);
       pa_data_source := VStr "user" |}.

Definition get_ephemeris_by_tle_jdstep (request : Request) : M response :=
  parameters <- call_extract_parameters request
    ["tle"; "latitude"; "longitude"; "elevation"; "startjd"; "stopjd";
     "stepjd"; "min_altitude"; "max_altitude"] ;;
  parameters <- call_validate_parameters parameters
    ["tle"; "latitude"; "longitude"; "elevation"; "startjd"; "stopjd"] ;;
  startjd <- getitem parameters "startjd" ;;
  jd0 <- float startjd ;;
  stopjd <- getitem parameters "stopjd" ;;
  jd1 <- float stopjd ;;
  jds <- stepjd_of parameters ;;
  jd <- call_jd_arange jd0 jd1 jds ;;
  if (Z.of_nat (length jd) >? 1000)%Z then
    (emit (EvLogInfo "Too many results requested") ;;; abort 400 None)
  else
    text <- getitem parameters "tle" ;;
    tle <- call_parse_tle text ;;
    location <- getitem parameters "location" ;;
    min_altitude <- getitem parameters "min_altitude" ;;
    max_altitude <- getitem parameters "max_altitude" ;;
    call_propagate
      {| pa_location := location;
         pa_jd := jd;
         pa_tle_line1 := UserTLE.tle_line1 tle;
         pa_tle_line2 := UserTLE.tle_line2 tle;
         pa_date_collected := UserTLE.date_collected tle;
         pa_name := UserTLE.name tle;
         pa_min_altitude := min_altitude;
         pa_max_altitude := max_altitude;
         pa_catalog_id := VStr (UserTLE.catalog tle);
         pa_data_source := VStr "user" |}.

(** *** The lookup tools *)

Definition get_norad_ids_from_name (request : Request) : M response :=
  match args request !! "name" with
  | None => raise (AttributeError "upper")
  | Some name =>
      let satellite_name := upper env name in
      if is_None (VStr satellite_name) then abort 400 None
      else
        try_except
          (norad_ids_and_dates <-
             call (EvGetIdsForName satellite_name)
                  (get_ids_for_satelltite_name env satellite_name) ;;
           norad_ids_and_dates <-
             mapM (fun id_date : string * option datetime =>
                     date_added <- strftime_of (strftime env) (snd id_date) ;;
                     ret [("name", satellite_name);
                          ("norad_id", fst id_date);
                          ("date_added", date_added)])
                  norad_ids_and_dates ;;
           ret (Jsonify norad_ids_and_dates))
          (fun e => emit (EvLogError e) ;;; ret ReturnNone)
  end.

Definition get_names_from_norad_id (request : Request) : M response :=
  match args request !! "id" with
  | None => abort 400 None
  | Some satellite_id =>
      try_except
        (satellite_names_and_dates <-
           call (EvGetNamesForId satellite_id)
                (get_names_for_satellite_id env satellite_id) ;;
         names_and_dates <-
           mapM (fun name_date : string * option datetime =>
                   date_added <- strftime_of (strftime env) (snd name_date) ;;
                   ret [("name", fst name_date);
                        ("norad_id", satellite_id);
                        ("date_added", date_added)])
                satellite_names_and_dates ;;
         mapM (fun name_date : string * option datetime =>
                 match snd name_date with
                 | Some date_added => emit (EvPrint (fst name_date) date_added)
                 | None => raise (AttributeError "astimezone")
                 end)
              satellite_names_and_dates ;;;
         ret (Jsonify names_and_dates))
        (fun e => emit (EvLogError e) ;;; ret ReturnNone)
  end.

(** [Time(d, format="jd", scale="ut1").to_datetime().replace(tzinfo=utc)
     if d else None]: [None] and the empty string are falsy. *)
Definition optional_date (d : option string) : M (option datetime) :=
  match d with
  | None | Some "" => ret None
  | Some s => fun tr =>
      match Time_jd env (VStr s) with
      | Ok jd =>
          match to_datetime env jd with
          | Ok date => (Ok (Some date), tr)
          | Exc e => (Exc e, tr)
          end
      | Exc e => (Exc e, tr)
      end
  end.

Definition get_tle_data (request : Request) : M response :=
  let satellite_id := args request !! "id" in
  let id_type := args request !! "id_type" in
  let start_date := args request !! "start_date_jd" in
  let end_date := args request !! "end_date_jd" in
  match satellite_id with
  | None => abort 400 None
  | Some satellite_id =>
      match id_type with
      | Some id_type =>
          if negb (String.eqb id_type "catalog") && negb (String.eqb id_type "name")
          then abort 400 None
          else
            start_date <- optional_date start_date ;;
            end_date <- optional_date end_date ;;
            try_except
              (tle_data <-
                 call (EvGetTles satellite_id id_type start_date end_date)
                      (get_tles env satellite_id id_type start_date end_date) ;;
               tle_data <-
                 mapM (fun tle : TLE.t =>
                         match TLE.tle_satellite tle with
                         | None => raise (AttributeError "sat_name")
                         | Some sat =>
                             ret [("satellite_name", Satellite.sat_name sat);
                                  ("satellite_id", Satellite.sat_number sat);
                                  ("tle_line1", TLE.tle_line1 tle);
                                  ("tle_line2", TLE.tle_line2 tle);
                                  ("epoch", strftime env (TLE.epoch tle));
                                  ("date_collected",
                                    strftime env (TLE.date_collected tle))]
                         end)
                      tle_data ;;
               ret (Jsonify tle_data))
              (fun e =>
                 match e with
                 | DataError => abort 500 (Some (NO_TLE_FOUND env))
                 | _ => emit (EvLogError e) ;;; ret ReturnNone
                 end)
      | None => abort 400 None
      end
  end.

End Routes.

(** ** Components outside [routes.py], modelled from the specification *)

Definition Qlt_bool (x y : Q) : bool := negb (Qle_bool y x).

Module Utils.

(** Modelled from the spec: the loop of [jd_arange] ([core/utils.py] is not
    among the sources).  §4.1: "the ordered sequence start, start+step,
    start+2*step, ... truncated to the last value <= stop".  [k] is the
    index of the next sample; [fuel] bounds the number of iterations. *)
Fixpoint grid_from (start stop step : Q) (fuel : nat) (k : Z) : list Q :=
  match fuel with
  | O => []
  | S fuel' =>
      let t := (start + inject_Z k * step)%Q in
      if Qle_bool t stop then t :: grid_from start stop step fuel' (k + 1)%Z
      else []
  end.

(** Modelled from the spec: [jd_arange] of [core/utils.py], which is not
    among the sources.  §4.1: fails with [InvalidRangeError] when
    [step <= 0] or [stop < start]; otherwise the grid starts at [start] and
    goes on in steps of [step] while the sample is at most [stop].  The
    fuel is one more than the loop can use, so the loop always ends on its
    own test. *)
Definition jd_arange (start stop step : Q) : result (list Q) :=
  if Qle_bool step 0 || Qlt_bool stop start then Exc InvalidRangeError
  else
    Ok (start ::
        grid_from start stop step
          (S (Z.to_nat (Qfloor ((stop - start) / step)))) 1).

(** Modelled from the spec: the parameter extraction of the boundary layer
    ([extract_parameters] of [core/utils.py], not among the sources): every
    asked key is present in the dictionary, with [None] for a parameter the
    request does not carry. *)
Definition extract_parameters (request : Request) (keys : list string)
  : result (gmap string pyval) :=
  Ok (foldr (fun key (parameters : gmap string pyval) =>
               <[key := match args request !! key with
                        | Some v => VStr v
                        | None => VNone
                        end]> parameters)
            ∅ keys).

Definition is_missing (parameters : gmap string pyval) (key : string) : bool :=
  match parameters !! key with
  | Some VNone | None => true
  | Some _ => false
  end.

(** Modelled from the spec: the validation of the boundary layer
    ([validate_parameters] of [core/utils.py], not among the sources).
    §6: "required presence of latitude/longitude/elevation/time for every
    ephemeris request"; a missing required parameter is a 400.  The
    observer position is stored under ["location"], the key the routes
    read. *)
Definition validate_parameters (to_float : string -> option Q)
    (parameters : gmap string pyval) (required : list string)
  : result (gmap string pyval) :=
  if existsb (is_missing parameters) required then Exc (HTTPException 400 None)
  else
    match parameters !! "latitude", parameters !! "longitude",
          parameters !! "elevation" with
    | Some (VStr lat), Some (VStr lon), Some (VStr elev) =>
        match to_float lat, to_float lon, to_float elev with
        | Some lat, Some lon, Some elev =>
            Ok (<["location" := VLocation lat lon elev]> parameters)
        | _, _, _ => Exc (HTTPException 400 None)
        end
    | _, _, _ => Exc (HTTPException 400 None)
    end.

End Utils.

(** *** The time grid in binary64 *)

Module Binary64.
Import PrimFloat.
Local Open Scope float_scope.

(** The sample of index [k]: Python's [start + k * step], each operation
    rounded to binary64. *)
Definition sample (start step k : float) : float := start + k * step.

(** [k + 1] on the loop counter. *)
Definition next (k : float) : float := k + 1.


(** The range check of §4.1, as Python evaluates it on floats. *)
Definition out_of_range (start stop step : float) : bool :=
  (step <=? 0) || (stop <? start).

(** Modelled from the spec: the loop of [jd_arange] ([core/utils.py] is not
    among the sources) on binary64 floats.  §4.1: "the ordered sequence
    start, start+step, start+2*step, ... truncated to the last value <=
    stop".  [k] is the index of the next sample.  The loop ends on its own
    test only; [None] says that [fuel] iterations were not enough. *)
Fixpoint grid_from (start stop step : float) (fuel : nat) (k : float)
  : option (list float) :=
  match fuel with
  | O => None
  | S fuel' =>
      let t := sample start step k in
      if t <=? stop
      then option_map (cons t) (grid_from start stop step fuel' (next k))
      else Some []
  end.

(** Modelled from the spec: [jd_arange] of [core/utils.py], which is not
    among the sources, on the floats that [routes.py] hands to it
    ([float(parameters["startjd"])] and so on).  §4.1: fails with
    [InvalidRangeError] when [step <= 0] or [stop < start]; otherwise the
    grid starts at [start] and goes on while the sample is at most
    [stop]. *)
Definition jd_arange (fuel : nat) (start stop step : float)
  : option (result (list float)) :=
  if out_of_range start stop step then Some (Exc InvalidRangeError)
  else option_map (fun grid => Ok (start :: grid))
                  (grid_from start stop step fuel 1).








End Binary64.

(** *** Plain text helpers *)

Definition newline : ascii := "010"%char.

(** Python's [str.split(sep)] on a list of characters. *)
Fixpoint split_on (sep : ascii) (l : list ascii) : list (list ascii) :=
  match l with
  | [] => [[]]
  | c :: l' =>
      if Ascii.eqb c sep then [] :: split_on sep l'
      else
        match split_on sep l' with
        | cur :: rest => (c :: cur) :: rest
        | [] => [[c]]
        end
  end.

Definition digit_of_ascii (c : ascii) : option Z :=
  let n := nat_of_ascii c in
  if (48 <=? n)%nat && (n <=? 57)%nat then Some (Z.of_nat (n - 48)) else None.

Fixpoint digits_value (acc : Z) (l : list ascii) : option Z :=
  match l with
  | [] => Some acc
  | c :: l' =>
      match digit_of_ascii c with
      | Some d => digits_value (10 * acc + d)%Z l'
      | None => None
      end
  end.

(** Python's [float] on a plain decimal numeral: an optional sign, digits,
    and an optional fraction.  It stands for [float] where a handler is run
    on a concrete request. *)
Definition decimal_of_string (s : string) : option Q :=
  let chars := list_ascii_of_string s in
  let '(negative, chars) :=
    match chars with
    | c :: rest => if Ascii.eqb c "-" then (true, rest) else (false, chars)
    | [] => (false, chars)
    end in
  let unsigned :=
    match split_on "." chars with
    | [whole] =>
        match whole, digits_value 0 whole with
        | _ :: _, Some n => Some (inject_Z n)
        | _, _ => None
        end
    | [whole; fraction] =>
        match whole, digits_value 0 (whole ++ fraction) with
        | _ :: _, Some n =>
            Some (Qmake n (Z.to_pos (10 ^ Z.of_nat (length fraction))))
        | _, _ => None
        end
    | _ => None
    end in
  match unsigned with
  | Some q => Some (if negative then (- q)%Q else q)
  | None => None
  end.

Definition ascii_upper (c : ascii) : ascii :=
  let n := nat_of_ascii c in
  if (97 <=? n)%nat && (n <=? 122)%nat then ascii_of_nat (n - 32) else c.

(** Python's [str.upper] on ASCII text. *)
Definition str_upper (s : string) : string :=
  string_of_list_ascii (map ascii_upper (list_ascii_of_string s)).

Module TleAccess.

(** *** Element-set resolution (§4.2) *)

Definition candidate : Type := (TLE.t * Satellite.t)%type.

(** Modelled from the spec: step 1 of the selection policy of §4.2 (the
    query of [get_tle], [core/database/tle_access.py], is not among the
    sources): "exact catalog match, or case-normalized name match". *)
Definition identifies (identifier : string) (use_catalog_number : bool)
    (c : candidate) : bool :=
  if use_catalog_number
  then String.eqb (Satellite.sat_number (snd c)) identifier
  else String.eqb (str_upper (Satellite.sat_name (snd c))) (str_upper identifier).

(** Modelled from the spec: step 2 of §4.2, "if source_preference is given,
    keep only candidates from that source". *)
Definition from_source (data_source : pyval) (c : candidate) : bool :=
  match data_source with
  | VNone => true
  | VStr source => String.eqb (TLE.data_source (fst c)) source
  | VFloat _ | VLocation _ _ _ => false
  end.

(** Modelled from the spec: the sentinel of §4.2, "use intrinsic epoch"
    (the routes document it as a Julian date of 0). *)
Definition use_intrinsic_epoch (date : datetime) : bool := Qeq_bool date 0.

(** Modelled from the spec: step 3 of §4.2 as a cost to minimise: the
    absolute distance between the epoch and the target time, or, for the
    sentinel, recency of collection. *)
Definition cost (date : datetime) (c : candidate) : Q :=
  if use_intrinsic_epoch date then (- TLE.date_collected (fst c))%Q
  else Qabs (TLE.epoch (fst c) - date).

(** Modelled from the spec: steps 3 and 4 of §4.2: [c] replaces the best
    candidate so far when it is strictly nearer, or exactly as near and
    primary where the best so far is supplemental. *)
Definition preferred (date : datetime) (c best : candidate) : bool :=
  Qlt_bool (cost date c) (cost date best)
  || (Qeq_bool (cost date c) (cost date best)
      && TLE.is_supplemental (fst best)
      && negb (TLE.is_supplemental (fst c))).

Fixpoint select (date : datetime) (best : candidate) (rest : list candidate)
  : candidate :=
  match rest with
  | [] => best
  | c :: rest' => select date (if preferred date c best then c else best) rest'
  end.

Definition candidates (repository : list candidate) (identifier : string)
    (use_catalog_number : bool) (data_source : pyval) : list candidate :=
  filter (fun c => from_source data_source c)
         (filter (fun c => identifies identifier use_catalog_number c) repository).

(** Modelled from the spec: [get_tle] of [core/database/tle_access.py],
    which is not among the sources, as the resolver of §4.2 over a snapshot
    of the repository. *)
Definition get_tle (repository : list candidate) (identifier : pyval)
    (use_catalog_number : bool) (data_source : pyval) (date : datetime)
  : result candidate :=
  match identifier with
  | VStr identifier =>
      match candidates repository identifier use_catalog_number data_source with
      | [] => Exc NoElementSetFoundError
      | c :: rest => Ok (select date c rest)
      end
  | VNone | VFloat _ | VLocation _ _ _ => Exc InvalidIdentifierError
  end.

(** *** Element-set parsing (§4.3) *)

Definition checksum_value (c : ascii) : Z :=
  match digit_of_ascii c with
  | Some d => d
  | None => if Ascii.eqb c "-" then 1%Z else 0%Z
  end.

(** Modelled from the spec: the checksum of §4.3, "mod-10 sum of digits
    with - counted as 1", over the columns before the check digit. *)
Definition checksum (columns : list ascii) : Z :=
  (foldr (fun c acc => checksum_value c + acc) 0 columns mod 10)%Z.

Definition checksum_ok (line : list ascii) : bool :=
  match line !! 68%nat with
  | Some c =>
      match digit_of_ascii c with
      | Some d => Z.eqb d (checksum (take 68 line))
      | None => false
      end
  | None => false
  end.

(** Columns 3 to 7 of an element line. *)
Definition catalog_number (line : list ascii) : list ascii :=
  take 5 (drop 2 line).

Definition malformed {A} (reason : string) : result A :=
  Exc (MalformedElementSetError reason).

(** Modelled from the spec: the checks of §4.3 on the two element lines:
    fixed columns, "line 1 begins with 1, line 2 with 2, same catalog
    number in both, valid checksum digit in each line's final column". *)
Definition parse_lines (now : datetime) (name : pyval) (line1 line2 : list ascii)
  : result UserTLE.t :=
  if negb (Nat.eqb (length line1) 69 && Nat.eqb (length line2) 69)
  then malformed "an element line is not 69 columns wide"
  else if negb (bool_decide (head line1 = Some "1"%char)
                && bool_decide (head line2 = Some "2"%char))
  then malformed "wrong line number"
  else if negb (bool_decide (catalog_number line1 = catalog_number line2))
  then malformed "the two lines name different catalog numbers"
  else if negb (checksum_ok line1 && checksum_ok line2)
  then malformed "checksum mismatch"
  else
    Ok {| UserTLE.tle_line1 := string_of_list_ascii line1;
          UserTLE.tle_line2 := string_of_list_ascii line2;
          UserTLE.date_collected := now;
          UserTLE.name := name;
          UserTLE.catalog := string_of_list_ascii (catalog_number line1) |}.

(** Modelled from the spec: [parse_tle] of [core/database/tle_access.py],
    which is not among the sources.  §4.3: the text is two newline-joined
    fixed-column lines; the requests of [tests/test_integration.py] put the
    object's name on a line of its own before them, which the routes read
    back as [tle.name].  [now] is the collection time given to an element
    set the user supplies. *)
Definition parse_tle (now : datetime) (tle : pyval) : result UserTLE.t :=
  match tle with
  | VStr text =>
      match split_on newline (list_ascii_of_string text) with
      | [line1; line2] => parse_lines now VNone line1 line2
      | [name; line1; line2] =>
          parse_lines now (VStr (string_of_list_ascii name)) line1 line2
      | _ => malformed "expected two element lines"
      end
  | VNone | VFloat _ | VLocation _ _ _ => malformed "no element text"
  end.

(** *** Result assembly (§4.6) *)

Fixpoint for_each {A B} (f : A -> result B) (l : list A) : result (list B) :=
  match l with
  | [] => Ok []
  | x :: l' =>
      match f x with
      | Exc e => Exc e
      | Ok y =>
          match for_each f l' with
          | Exc e => Exc e
          | Ok ys => Ok (y :: ys)
          end
      end
  end.

(** Modelled from the spec: [propagate_and_create_json_results] of
    [core/database/tle_access.py], which is not among the sources, as the
    Result Assembler of §4.6: the object metadata is merged with the output
    of propagation and transformation at each sample, in grid order, and
    one failing sample fails the batch.  [engine] is the propagator and
    frame transformer of §4.4 and §4.5. *)
Definition propagate_and_create_json_results
    (engine : pyval -> string -> string -> Q -> result SampleGeometry)
    (a : propagate_args) : result response :=
  match
    for_each
      (fun jd =>
         match engine (pa_location a) (pa_tle_line1 a) (pa_tle_line2 a) jd with
         | Exc e => Exc e
         | Ok geometry =>
             Ok {| NAME := pa_name a;
                   CATALOG_ID := pa_catalog_id a;
                   DATA_SOURCE := pa_data_source a;
                   TLE_DATE := pa_date_collected a;
                   JULIAN_DATE := jd;
                   GEOMETRY := geometry |}
         end)
      (pa_jd a)
  with
  | Exc e => Exc e
  | Ok records => Ok (Ephemeris records)
  end.

End TleAccess.

(** A snapshot of the relational store: the catalogued objects and the rows
    of the element-set/object join.  A session holds a snapshot, or the
    exception every query raises. *)
Record snapshot : Type := {
  satellites : list Satellite.t;
  element_sets : list TleAccess.candidate
}.

Module SatelliteAccess.

(** Modelled from the spec: [get_ids_for_satelltite_name] of
    [core/database/satellite_access.py], not among the sources; §6,
    [find_objects_by_name(name)] gives (catalog_id, first_seen) pairs. *)
Definition get_ids_for_satelltite_name (session : result snapshot)
    (satellite_name : string) : result (list (string * option datetime)) :=
  match session with
  | Exc e => Exc e
  | Ok db =>
      Ok (map (fun s => (Satellite.sat_number s, Satellite.date_added s))
              (filter (fun s => String.eqb (Satellite.sat_name s) satellite_name)
                      (satellites db)))
  end.

(** Modelled from the spec: [get_names_for_satellite_id] of
    [core/database/satellite_access.py], not among the sources; §6,
    [find_names_by_catalog(catalog_id)] gives (name, first_seen) pairs. *)
Definition get_names_for_satellite_id (session : result snapshot)
    (satellite_id : string) : result (list (string * option datetime)) :=
  match session with
  | Exc e => Exc e
  | Ok db =>
      Ok (map (fun s => (Satellite.sat_name s, Satellite.date_added s))
              (filter (fun s => String.eqb (Satellite.sat_number s) satellite_id)
                      (satellites db)))
  end.

Definition in_range (start_date end_date : option datetime) (tle : TLE.t) : bool :=
  match start_date with
  | Some d => Qle_bool d (TLE.epoch tle)
  | None => true
  end
  && match end_date with
     | Some d => Qle_bool (TLE.epoch tle) d
     | None => true
     end.

(** Modelled from the spec: [get_tles] of
    [core/database/satellite_access.py], not among the sources; §6,
    [find_element_sets_in_range(identifier, identifier_kind, start?, end?)]. *)
Definition get_tles (session : result snapshot) (satellite_id id_type : string)
    (start_date end_date : option datetime) : result (list TLE.t) :=
  match session with
  | Exc e => Exc e
  | Ok db =>
      Ok (filter (in_range start_date end_date)
            (map fst
               (filter (TleAccess.identifies satellite_id (String.eqb id_type "catalog"))
                       (element_sets db))))
  end.

End SatelliteAccess.

(** The Julian dates of 0001-01-01 and of 10000-01-01, midnight: Python's
    [datetime] holds the years 1 to 9999 only, and [Time.to_datetime()]
    raises [ValueError] outside of them. *)
Definition first_datetime_jd : Q := 3442851 # 2.

Definition end_datetime_jd : Q := 10746969 # 2.

(** The routes wired to the components above: the clock reading [now], a
    database session, and the propagation engine are what is left open. *)
Definition wired (now : datetime) (session : result snapshot)
    (engine : pyval -> string -> string -> Q -> result SampleGeometry)
  : collaborators :=
  {| extract_parameters := Utils.extract_parameters;
     validate_parameters := Utils.validate_parameters decimal_of_string;
     jd_arange := Utils.jd_arange;
     get_tle := fun identifier use_catalog_number data_source date =>
       match session with
       | Exc e => Exc e
       | Ok db =>
           TleAccess.get_tle (element_sets db) identifier use_catalog_number
                             data_source date
       end;
     parse_tle := TleAccess.parse_tle now;
     propagate_and_create_json_results :=
       TleAccess.propagate_and_create_json_results engine;
     get_ids_for_satelltite_name := SatelliteAccess.get_ids_for_satelltite_name session;
     get_names_for_satellite_id := SatelliteAccess.get_names_for_satellite_id session;
     get_tles := SatelliteAccess.get_tles session;
     float_of_string := decimal_of_string;
     Time_jd := fun v =>
       match v with
       | VFloat x => Ok x
       | VStr s =>
           match decimal_of_string s with
           | Some x => Ok x
           | None => Exc ValueError
           end
       | VNone | VLocation _ _ _ => Exc ValueError
       end;
     to_datetime := fun jd =>
       if Qle_bool first_datetime_jd jd && Qlt_bool jd end_datetime_jd
       then Ok jd else Exc ValueError;
     upper := str_upper;
     strftime := fun d => pretty (Qfloor d);
     INVALID_JD := "Invalid Julian Date";
     NO_TLE_FOUND := "No TLE found" |}.

(** *** A small installation, to run the handlers on *)

Definition iss : Satellite.t :=
  Satellite.mk 1 "25544" "ISS (ZARYA)" "" (Some (2460000 # 1)) None None None None None.

Definition iss_line1 : string :=
  "1 25544U 98067A   23248.54842295  .00012769  00000+0  22936-3 0  9997".

Definition iss_line2 : string :=
  "2 25544  51.6416 290.4299 0005730  30.7454 132.9751 15.50238117414255".

(** Two element sets of the same object, one primary and one supplemental,
    whose epochs lie half a day before and half a day after JD 2460193. *)
Definition iss_primary : TLE.t :=
  TLE.mk 1 1 (2460194 # 1) iss_line1 iss_line2 false "spacetrack"
         (4920385 # 2) (Some iss).

Definition iss_supplemental : TLE.t :=
  TLE.mk 2 1 (2460194 # 1) iss_line1 iss_line2 true "celestrak"
         (4920387 # 2) (Some iss).

Definition demo_snapshot : snapshot :=
  {| satellites := [iss];
     element_sets := [(iss_supplemental, iss); (iss_primary, iss)] |}.

Definition demo_geometry : SampleGeometry :=
  {| ALTITUDE_DEG := 0; AZIMUTH_DEG := 0; RIGHT_ASCENSION_DEG := 0;
     DECLINATION_DEG := 0; DRA_COSDEC_DEG_PER_SEC := 0; DDEC_DEG_PER_SEC := 0;
     RANGE_KM := 0; RANGE_RATE_KM_PER_SEC := 0; PHASE_ANGLE_DEG := 0;
     ILLUMINATED := true; OBSERVER_GCRS_KM := (0, 0, 0)%Q;
     SATELLITE_GCRS_KM := (0, 0, 0)%Q |}.

Definition demo_engine (location : pyval) (line1 line2 : string) (jd : Q)
  : result SampleGeometry :=
  Ok demo_geometry.

Definition demo_env : collaborators :=
  wired (2460200 # 1) (Ok demo_snapshot) demo_engine.

(** The same installation with the database out of reach. *)
Definition offline_env : collaborators :=
  wired (2460200 # 1) (Exc DataError) demo_engine.

Definition query (l : list (string * string)) : Request :=
  {| args := list_to_map l |}.

(** ** Reading the call log *)

(** The batch routes. *)
Definition jdstep_routes (env : collaborators) : list (Request -> M response) :=
  [get_ephemeris_by_name_jdstep env;
   get_ephemeris_by_catalog_number_jdstep env;
   get_ephemeris_by_tle_jdstep env].

(** The single-instant routes. *)
Definition instant_routes (env : collaborators) : list (Request -> M response) :=
  [get_ephemeris_by_name env;
   get_ephemeris_by_catalog_number env;
   get_ephemeris_by_tle env].

(** [parameters] is the dictionary the request was validated to. *)
Definition validated (env : collaborators) (tr : trace)
    (parameters : gmap string pyval) : Prop :=
  exists p0 required,
    In (EvValidateParameters p0 required) tr
    /\ validate_parameters env p0 required = Ok parameters.


(** [jd] is the time grid the handler generated: what a [jd_arange] call of
    its log returned. *)
Definition generated_grid (env : collaborators) (tr : trace) (jd : list Q) : Prop :=
  exists a b dr, In (EvJdArange a b dr) tr /\ jd_arange env a b dr = Ok jd.

(** No element set was looked up or parsed, and nothing was propagated. *)
Definition no_engine_call (tr : trace) : Prop :=
  forall ev, In ev tr -> is_engine_event ev = false.

Definition engine_called (tr : trace) : Prop :=
  exists ev, In ev tr /\ is_engine_event ev = true.

(** What the three batch routes do up to the generation of the time grid,
    with the rest of the handler as [k].  Each batch route is an instance
    ([*_jdstep_prologue] below). *)
Definition jdstep_prologue (env : collaborators) (request : Request)
    (keys required : list string)
    (k : gmap string pyval -> list Q -> M response) : M response :=
  (parameters <- call_extract_parameters env request keys ;;
   parameters <- call_validate_parameters env parameters required ;;
   startjd <- getitem parameters "startjd" ;;
   jd0 <- float env startjd ;;
   stopjd <- getitem parameters "stopjd" ;;
   jd1 <- float env stopjd ;;
   jds <- stepjd_of env parameters ;;
   jd <- call_jd_arange env jd0 jd1 jds ;;
   k parameters jd)%handler.

(** A computation that writes nothing to the call log. *)
Definition silent {A} (m : M A) : Prop := forall tr, snd (m tr) = tr.

(** How a batch request ends once its time grid has been asked for.  The
    log is the prologue followed by [tail]; a failing generator fails the
    request, too many samples are refused, and otherwise the handler goes on
    to the engine unless a parameter access fails first, the grid is empty,
    or its first sample is no [datetime]. *)
Definition after_grid (env : collaborators) (jd0 jd1 jds : Q)
    (prologue : trace) (r : result response) (tr : trace) : Prop :=
  exists tail,
    tr = prologue ++ tail
    /\ (forall ev, In ev tail -> is_late_event ev = true)
    /\ match jd_arange env jd0 jd1 jds with
       | Exc e => r = Exc e /\ tail = []
       | Ok jd =>
           if (Z.of_nat (length jd) >? 1000)%Z
           then r = Exc (HTTPException 400 None) /\ no_engine_call tail
           else engine_called tail
                \/ (exists key, r = Exc (KeyError key))
                \/ (jd = [] /\ r = Exc IndexError)
                \/ (exists jd_0 e,
                      head jd = Some jd_0
                      /\ to_datetime env jd_0 = Exc e
                      /\ r = Exc e)
       end.

(** The two ways a batch request can go: it stops before any time grid is
    asked for, or it gets as far as [jd_arange]. *)
Definition batch_shape (env : collaborators) (request : Request)
    (r : result response) (tr : trace) : Prop :=
  (is_Ok r = false
   /\ (forall a b dr, ~ In (EvJdArange a b dr) tr)
   /\ no_engine_call tr)
  \/ exists keys required p0 p jd0 jd1 jds,
       extract_parameters env request keys = Ok p0
       /\ validate_parameters env p0 required = Ok p
       /\ (p !! "stepjd" = Some VNone -> jds = default_stepjd)
       /\ after_grid env jd0 jd1 jds
            [EvExtractParameters request keys;
             EvValidateParameters p0 required;
             EvJdArange jd0 jd1 jds] r tr.

(** *** Requests to run *)

Definition observer : list (string * string) :=
  [("latitude", "32"); ("longitude", "-110"); ("elevation", "150")].

(** A batch request for 1001 samples, and one for exactly 1000. *)
Definition request_1001 : Request :=
  query ([("name", "ISS (ZARYA)"); ("startjd", "2460193"); ("stopjd", "2460194");
          ("stepjd", "0.001")] ++ observer).

Definition request_1000 : Request :=
  query ([("name", "ISS (ZARYA)"); ("startjd", "2460193");
          ("stopjd", "2460193.999"); ("stepjd", "0.001")] ++ observer).

(** A batch request whose stop lies before its start. *)
Definition request_backwards : Request :=
  query ([("name", "ISS (ZARYA)"); ("startjd", "2460194"); ("stopjd", "2460193");
          ("stepjd", "0.1")] ++ observer).


Definition grid_of (r : result (list Q)) : list Q :=
  match r with Ok jd => jd | Exc _ => [] end.

Definition dict_of (r : result (gmap string pyval)) : gmap string pyval :=
  match r with Ok parameters => parameters | Exc _ => ∅ end.

Definition batch_keys : list string :=
  ["name"; "latitude"; "longitude"; "elevation"; "startjd"; "stopjd";
   "stepjd"; "min_altitude"; "max_altitude"; "data_source"].

Definition batch_required : list string :=
  ["name"; "latitude"; "longitude"; "elevation"; "startjd"; "stopjd"].

(** The routes that take the element set from the request. *)
Definition tle_routes (env : collaborators) : list (Request -> M response) :=
  [get_ephemeris_by_tle env; get_ephemeris_by_tle_jdstep env].

(** How an ephemeris request ends: it fails without having propagated
    anything, or it calls [propagate_and_create_json_results] once, with
    arguments that satisfy [P], and returns what the call returns. *)
Definition propagation_shape (env : collaborators) (P : propagate_args -> Prop)
    (r : result response) (tr : trace) : Prop :=
  (is_Ok r = false /\ forall a, ~ In (EvPropagate a) tr)
  \/ exists a,
       P a
       /\ (forall a', In (EvPropagate a') tr -> a' = a)
       /\ In (EvPropagate a) tr
       /\ r = propagate_and_create_json_results env a.

(** The grid handed to the engine is the single requested instant. *)
Definition single_instant (env : collaborators) (tr : trace)
    (a : propagate_args) : Prop :=
  exists p v jd,
    validated env tr p
    /\ p !! "julian_date" = Some v
    /\ Time_jd env v = Ok jd
    /\ pa_jd a = [jd].

Definition user_supplied (a : propagate_args) : Prop :=
  pa_data_source a = VStr "user".

Definition response_of (r : result response) : response :=
  match r with Ok resp => resp | Exc _ => ReturnNone end.

Definition iss_text : string :=
  "ISS (ZARYA)" ++ String newline (iss_line1 ++ String newline iss_line2).

Definition request_instant : Request :=
  query ([("name", "ISS (ZARYA)"); ("julian_date", "2460193.104167")] ++ observer).

Definition request_tle : Request :=
  query ([("tle", iss_text); ("julian_date", "2460193.104167")] ++ observer).

(** The exception a finished call raised, if any. *)
Definition raised {A} (r : result A) : option exn :=
  match r with Ok _ => None | Exc e => Some e end.

(** The exception the logged call raised; log lines and prints raise none. *)
Definition failure_of (env : collaborators) (ev : event) : option exn :=
  match ev with
  | EvExtractParameters request keys => raised (extract_parameters env request keys)
  | EvValidateParameters parameters required =>
      raised (validate_parameters env parameters required)
  | EvJdArange a b dr => raised (jd_arange env a b dr)
  | EvGetTle identifier use_catalog_number data_source date =>
      raised (get_tle env identifier use_catalog_number data_source date)
  | EvParseTle tle => raised (parse_tle env tle)
  | EvPropagate a => raised (propagate_and_create_json_results env a)
  | EvGetIdsForName satellite_name =>
      raised (get_ids_for_satelltite_name env satellite_name)
  | EvGetNamesForId satellite_id => raised (get_names_for_satellite_id env satellite_id)
  | EvGetTles satellite_id id_type start_date end_date =>
      raised (get_tles env satellite_id id_type start_date end_date)
  | EvLogInfo _ | EvLogError _ | EvPrint _ _ => None
  end.

Definition ephemeris_routes (env : collaborators) : list (Request -> M response) :=
  instant_routes env ++ jdstep_routes env.

(** Whenever a logged call raised, the handler ended with that exception. *)
Definition failures_propagate (env : collaborators) (r : result response)
    (tr : trace) : Prop :=
  forall ev e, In ev tr -> failure_of env ev = Some e -> r = Exc e.

Definition request_ids : Request := query [("name", "iss (zarya)")].

Definition request_nothing : Request := query [].

(** The positions, in an element text the parser accepts, of the check
    digits of its two element lines: the last of the 69 columns of each. *)
Definition checksum_positions (text : string) : list nat :=
  match split_on newline (list_ascii_of_string text) with
  | [line1; line2] => [68; 69 + 1 + 68]%nat
  | [name; line1; line2] =>
      [length name + 1 + 68; length name + 1 + 69 + 1 + 68]%nat
  | _ => []
  end.

(** The text with the character at position [i] replaced by [c]. *)
Definition mutate (i : nat) (c : ascii) (text : string) : string :=
  string_of_list_ascii (<[i := c]> (list_ascii_of_string text)).

(** The element text of the ISS on two lines, as §4.3 has it. *)
Definition iss_two_lines : string :=
  iss_line1 ++ String newline iss_line2.

(** ** The routes as tables *)

(** The routes that resolve the element set in the repository, each with
    the flag it hands to [get_tle] and the parameter it takes the identifier
    from. *)
Definition repository_routes (env : collaborators)
  : list (bool * string * (Request -> M response)) :=
  [(false, "name", get_ephemeris_by_name env);
   (false, "name", get_ephemeris_by_name_jdstep env);
   (true, "catalog", get_ephemeris_by_catalog_number env);
   (true, "catalog", get_ephemeris_by_catalog_number_jdstep env)].

(** A query of the repository. *)
Definition is_repository_event (ev : event) : bool :=
  match ev with
  | EvGetTle _ _ _ _ | EvGetIdsForName _ | EvGetNamesForId _
  | EvGetTles _ _ _ _ => true
  | _ => false
  end.

(** Where the arguments of a repository lookup come from: the flag of the
    route, and the identifier and data source of the validated
    parameters. *)
Definition lookup_from_parameters (env : collaborators) (flag : bool)
    (key : string) (tr : trace) : Prop :=
  forall identifier use_catalog_number data_source date,
    In (EvGetTle identifier use_catalog_number data_source date) tr ->
    use_catalog_number = flag
    /\ exists p,
         validated env tr p
         /\ p !! key = Some identifier
         /\ p !! "data_source" = Some data_source.

(** What the engine is asked to propagate is what the resolver returned for
    the [datetime] of the first sample of the grid, with the observer, the altitude limits and
    the data source of the validated parameters. *)
Definition propagates_resolved (env : collaborators) (flag : bool)
    (tr : trace) : Prop :=
  forall a, In (EvPropagate a) tr ->
    exists identifier data_source date c p,
      In (EvGetTle identifier flag data_source date) tr
      /\ get_tle env identifier flag data_source date = Ok c
      /\ (exists jd_0,
            head (pa_jd a) = Some jd_0 /\ to_datetime env jd_0 = Ok date)
      /\ pa_tle_line1 a = TLE.tle_line1 (fst c)
      /\ pa_tle_line2 a = TLE.tle_line2 (fst c)
      /\ pa_date_collected a = TLE.date_collected (fst c)
      /\ pa_catalog_id a = VStr (Satellite.sat_number (snd c))
      /\ pa_name a = (if flag then VStr (Satellite.sat_name (snd c)) else identifier)
      /\ pa_data_source a = data_source
      /\ validated env tr p
      /\ p !! "location" = Some (pa_location a)
      /\ p !! "min_altitude" = Some (pa_min_altitude a)
      /\ p !! "max_altitude" = Some (pa_max_altitude a).

(** A response is what the engine returned, and asking the engine is the
    last thing the handler did. *)
Definition answered_by_engine (env : collaborators) (r : result response)
    (tr : trace) : Prop :=
  forall resp, r = Ok resp ->
    exists a,
      last tr = Some (EvPropagate a)
      /\ propagate_and_create_json_results env a = Ok resp.

(** The element text was never parsed. *)
Definition no_parse (tr : trace) : Prop :=
  forall text, ~ In (EvParseTle text) tr.

(** The repository was never asked. *)
Definition no_repository_call (tr : trace) : Prop :=
  forall ev, In ev tr -> is_repository_event ev = false.

Definition repository_anatomy (env : collaborators) (flag : bool) (key : string)
    (r : result response) (tr : trace) : Prop :=
  lookup_from_parameters env flag key tr
  /\ propagates_resolved env flag tr
  /\ no_parse tr
  /\ answered_by_engine env r tr.

(** In a batch route the element set is resolved for the [datetime] of the
    first sample of the generated grid, and the grid handed to the engine is the generated
    one. *)
Definition batch_grid_facts (env : collaborators) (tr : trace) : Prop :=
  (forall identifier use_catalog_number data_source date,
     In (EvGetTle identifier use_catalog_number data_source date) tr ->
     exists jd jd_0,
       generated_grid env tr jd
       /\ head jd = Some jd_0
       /\ to_datetime env jd_0 = Ok date)
  /\ (forall a, In (EvPropagate a) tr -> generated_grid env tr (pa_jd a)).

(** What the engine is asked to propagate on a route that takes the
    element text from the request: what the parser made of the [tle]
    parameter, under the data source "user". *)
Definition propagates_parsed (env : collaborators) (tr : trace) : Prop :=
  forall a, In (EvPropagate a) tr ->
    exists text u p,
      In (EvParseTle text) tr
      /\ parse_tle env text = Ok u
      /\ validated env tr p
      /\ p !! "tle" = Some text
      /\ pa_tle_line1 a = UserTLE.tle_line1 u
      /\ pa_tle_line2 a = UserTLE.tle_line2 u
      /\ pa_date_collected a = UserTLE.date_collected u
      /\ pa_name a = UserTLE.name u
      /\ pa_catalog_id a = VStr (UserTLE.catalog u)
      /\ p !! "location" = Some (pa_location a)
      /\ p !! "min_altitude" = Some (pa_min_altitude a)
      /\ p !! "max_altitude" = Some (pa_max_altitude a).

Definition tle_anatomy (env : collaborators) (r : result response)
    (tr : trace) : Prop :=
  propagates_parsed env tr
  /\ no_repository_call tr
  /\ answered_by_engine env r tr.

(** An installation whose time grid generator returns no sample at all. *)
Definition empty_grid_env : collaborators :=
  {| extract_parameters := extract_parameters demo_env;
     validate_parameters := validate_parameters demo_env;
     jd_arange := fun _ _ _ => Ok [];
     get_tle := get_tle demo_env;
     parse_tle := parse_tle demo_env;
     propagate_and_create_json_results := propagate_and_create_json_results demo_env;
     get_ids_for_satelltite_name := get_ids_for_satelltite_name demo_env;
     get_names_for_satellite_id := get_names_for_satellite_id demo_env;
     get_tles := get_tles demo_env;
     float_of_string := float_of_string demo_env;
     Time_jd := Time_jd demo_env;
     to_datetime := to_datetime demo_env;
     upper := upper demo_env;
     strftime := strftime demo_env;
     INVALID_JD := INVALID_JD demo_env;
     NO_TLE_FOUND := NO_TLE_FOUND demo_env |}.

(** A batch request of three samples. *)
Definition request_batch : Request :=
  query ([("name", "ISS (ZARYA)"); ("startjd", "2460193"); ("stopjd", "2460193.2");
          ("stepjd", "0.1"); ("data_source", "spacetrack")] ++ observer).

Definition args_of (a : result response * trace) : propagate_args :=
  match last (snd a) with
  | Some (EvPropagate a) => a
  | _ => {| pa_location := VNone; pa_jd := []; pa_tle_line1 := "";
            pa_tle_line2 := ""; pa_date_collected := 0%Q; pa_name := VNone;
            pa_min_altitude := VNone; pa_max_altitude := VNone;
            pa_catalog_id := VNone; pa_data_source := VNone |}
  end.

Definition request_catalog : Request :=
  query ([("catalog", "25544"); ("julian_date", "2460193")] ++ observer).


(** The single-instant routes with the parameters they extract and
    require. *)
Definition instant_table (env : collaborators)
  : list (list string * list string * (Request -> M response)) :=
  [(["name"; "latitude"; "longitude"; "elevation"; "julian_date";
     "min_altitude"; "max_altitude"; "data_source"],
    ["name"; "latitude"; "longitude"; "elevation"; "julian_date"],
    get_ephemeris_by_name env);
   (["catalog"; "latitude"; "longitude"; "elevation"; "julian_date";
     "min_altitude"; "max_altitude"; "data_source"],
    ["catalog"; "latitude"; "longitude"; "elevation"; "julian_date"],
    get_ephemeris_by_catalog_number env);
   (["tle"; "latitude"; "longitude"; "elevation"; "julian_date";
     "min_altitude"; "max_altitude"],
    ["tle"; "latitude"; "longitude"; "elevation"; "julian_date"],
    get_ephemeris_by_tle env)].

(** The batch routes with the parameters they extract and require. *)
Definition batch_table (env : collaborators)
  : list (list string * list string * (Request -> M response)) :=
  [(["name"; "latitude"; "longitude"; "elevation"; "startjd"; "stopjd";
     "stepjd"; "min_altitude"; "max_altitude"; "data_source"],
    ["name"; "latitude"; "longitude"; "elevation"; "startjd"; "stopjd"],
    get_ephemeris_by_name_jdstep env);
   (["catalog"; "latitude"; "longitude"; "elevation"; "startjd"; "stopjd";
     "stepjd"; "min_altitude"; "max_altitude"; "data_source"],
    ["catalog"; "latitude"; "longitude"; "elevation"; "startjd"; "stopjd"],
    get_ephemeris_by_catalog_number_jdstep env);
   (["tle"; "latitude"; "longitude"; "elevation"; "startjd"; "stopjd";
     "stepjd"; "min_altitude"; "max_altitude"],
    ["tle"; "latitude"; "longitude"; "elevation"; "startjd"; "stopjd"],
    get_ephemeris_by_tle_jdstep env)].

(** The value of [float(v)], or the exception it raises. *)
Definition to_number (env : collaborators) (v : pyval) : result Q :=
  fst (float env v []).

(** The value of the step expression of a batch route. *)
Definition step_number (env : collaborators) (v : pyval) : result Q :=
  if is_None v then Ok default_stepjd else to_number env v.

Definition request_bad_date : Request :=
  query ([("name", "ISS (ZARYA)"); ("julian_date", "noon")] ++ observer).

Definition request_bad_stop : Request :=
  query ([("name", "ISS (ZARYA)"); ("startjd", "2460193"); ("stopjd", "later")]
         ++ observer).

(** A computation that only ever adds to the call log. *)
Definition appends {A} (m : M A) : Prop :=
  forall tr, exists tail, snd (m tr) = tr ++ tail.


(** A date parameter of [get_tle_data] as the handler reads it: the empty
    string counts as absent. *)
Definition date_argument (d : option string) : option string :=
  match d with
  | Some "" | None => None
  | Some s => Some s
  end.

(** One row of the answer of [get_norad_ids_from_name]. *)
Definition id_row (env : collaborators) (satellite_name : string)
    (id_date : string * option datetime) : list (string * string) :=
  [("name", satellite_name);
   ("norad_id", fst id_date);
   ("date_added", strftime env (default 0%Q (snd id_date)))].

(** One row of the answer of [get_names_from_norad_id]. *)
Definition name_row (env : collaborators) (satellite_id : string)
    (name_date : string * option datetime) : list (string * string) :=
  [("name", fst name_date);
   ("norad_id", satellite_id);
   ("date_added", strftime env (default 0%Q (snd name_date)))].

(** The line [get_names_from_norad_id] prints for a row. *)
Definition printed (name_date : string * option datetime) : event :=
  EvPrint (fst name_date) (default 0%Q (snd name_date)).

(** The row has a date. *)
Definition dated (row : string * option datetime) : bool :=
  match snd row with Some _ => true | None => false end.

Definition request_names : Request := query [("id", "25544")].

Definition request_tle_data : Request :=
  query [("id", "25544"); ("id_type", "catalog"); ("start_date", "2460425")].

Definition request_tle_data_bad_date : Request :=
  query [("id", "25544"); ("id_type", "catalog"); ("start_date_jd", "yesterday")].

(** What [get_tle_data] makes of a date parameter: no date, the
    [datetime] of the instant [Time] reads, or the exception that [Time] or
    its [to_datetime] raises. *)
Definition date_value (env : collaborators) (d : option string)
  : result (option datetime) :=
  match date_argument d with
  | None => Ok None
  | Some s =>
      match Time_jd env (VStr s) with
      | Ok jd =>
          match to_datetime env jd with
          | Ok date => Ok (Some date)
          | Exc e => Exc e
          end
      | Exc e => Exc e
      end
  end.

(** The row is joined to its catalogued object. *)
Definition has_satellite (tle : TLE.t) : bool :=
  match TLE.tle_satellite tle with Some _ => true | None => false end.

Definition no_satellite : Satellite.t :=
  Satellite.mk 0 "" "" "" None None None None None None.

(** One row of the answer of [get_tle_data]. *)
Definition tle_row (env : collaborators) (tle : TLE.t) : list (string * string) :=
  [("satellite_name", Satellite.sat_name (default no_satellite (TLE.tle_satellite tle)));
   ("satellite_id", Satellite.sat_number (default no_satellite (TLE.tle_satellite tle)));
   ("tle_line1", TLE.tle_line1 tle);
   ("tle_line2", TLE.tle_line2 tle);
   ("epoch", strftime env (TLE.epoch tle));
   ("date_collected", strftime env (TLE.date_collected tle))].

(** The kinds of identifier [get_tle_data] accepts. *)
Definition known_id_type (id_type : option string) : bool :=
  match id_type with
  | Some id_type => String.eqb id_type "catalog" || String.eqb id_type "name"
  | None => false
  end.

(** What [get_tle_data] does, case by case. *)
Definition tle_data_outcome (env : collaborators) (request : Request)
  : result response * trace :=
  match args request !! "id" with
  | None => (Exc (HTTPException 400 None), [])
  | Some satellite_id =>
      if negb (known_id_type (args request !! "id_type"))
      then (Exc (HTTPException 400 None), [])
      else
        match date_value env (args request !! "start_date_jd") with
        | Exc e => (Exc e, [])
        | Ok start_date =>
            match date_value env (args request !! "end_date_jd") with
            | Exc e => (Exc e, [])
            | Ok end_date =>
                let id_type := default "" (args request !! "id_type") in
                let asked := EvGetTles satellite_id id_type start_date end_date in
                match get_tles env satellite_id id_type start_date end_date with
                | Exc DataError =>
                    (Exc (HTTPException 500 (Some (NO_TLE_FOUND env))), [asked])
                | Exc e => (Ok ReturnNone, [asked; EvLogError e])
                | Ok rows =>
                    if forallb has_satellite rows
                    then (Ok (Jsonify (map (tle_row env) rows)), [asked])
                    else (Ok ReturnNone,
                          [asked; EvLogError (AttributeError "sat_name")])
                end
            end
        end
  end.

Definition request_tle_data_blank : Request :=
  query [("id", "25544"); ("id_type", "catalog"); ("start_date_jd", "")].

(** A batch request for 1000 samples that start at Julian date 0, before
    the first year a [datetime] can hold. *)
Definition request_year_zero : Request :=
  query ([("name", "ISS (ZARYA)"); ("startjd", "0"); ("stopjd", "0.999");
          ("stepjd", "0.001")] ++ observer).

(** The line the catalog and the element-text batch routes write to the
    log when they refuse a request. *)
Definition refusal_line : string := "Too many results requested".

(** The info log holds at most the refusal line, written last, by a request
    that is refused with a 400 for a grid of more than 1000 samples. *)
Definition logs_refusal_only (env : collaborators) (r : result response)
    (tr : trace) : Prop :=
  forall msg, In (EvLogInfo msg) tr ->
    msg = refusal_line
    /\ r = Exc (HTTPException 400 None)
    /\ last tr = Some (EvLogInfo msg)
    /\ exists jd, generated_grid env tr jd /\ (1000 < length jd)%nat.

(** * Properties *)

(** ** The handler monad *)

Lemma bind_ok {A B} (m : M A) (k : A -> M B) tr a tr' :
  m tr = (Ok a, tr') -> bind m k tr = k a tr'.
Proof. intros H. unfold bind. rewrite H. reflexivity. Qed.

Lemma bind_exc {A B} (m : M A) (k : A -> M B) tr e tr' :
  m tr = (Exc e, tr') -> bind m k tr = (Exc e, tr').
Proof. intros H. unfold bind. rewrite H. reflexivity. Qed.

Lemma dict_of_ok (r : result (gmap string pyval)) :
  is_Ok r = true -> r = Ok (dict_of r).
Proof. destruct r; [reflexivity | discriminate]. Qed.

Lemma grid_of_ok (r : result (list Q)) :
  is_Ok r = true -> r = Ok (grid_of r).
Proof. destruct r; [reflexivity | discriminate]. Qed.

(** ** The time grid (§4.1) *)

Section TimeGrid.

Local Open Scope Q_scope.

Context (start stop step : Q).
Hypothesis step_positive : 0 < step.
Hypothesis range_ordered : start <= stop.

(** The sample of index [k] is within the range exactly when [k] is at
    most the floor of the quotient. *)
Lemma sample_in_range (k : Z) :
  start + inject_Z k * step <= stop <->
  (k <= Qfloor ((stop - start) / step))%Z.
Proof.
  split; intros H.
  - assert (Hq : inject_Z k <= (stop - start) / step).
    { apply Qle_shift_div_l; [exact step_positive | lra]. }
    apply Qfloor_resp_le in Hq. rewrite Qfloor_Z in Hq. exact Hq.
  - assert (Hq : inject_Z k <= (stop - start) / step).
    { eapply Qle_trans; [ | apply Qfloor_le ]. rewrite <- Zle_Qle. exact H. }
    assert (Hm : inject_Z k * step <= (stop - start) / step * step).
    { apply Qmult_le_compat_r; [exact Hq | lra]. }
    assert (Hd : (stop - start) / step * step == stop - start).
    { field. intros Hz. lra. }
    rewrite Hd in Hm. lra.
Qed.

Lemma floor_nonneg : (0 <= Qfloor ((stop - start) / step))%Z.
Proof. apply sample_in_range. change (inject_Z 0) with 0. lra. Qed.

Lemma grid_from_length (fuel : nat) (k : Z) :
  (Qfloor ((stop - start) / step) + 1 - k <= Z.of_nat fuel)%Z ->
  length (Utils.grid_from start stop step fuel k)
  = Z.to_nat (Qfloor ((stop - start) / step) + 1 - k).
Proof.
  revert k. induction fuel as [|fuel IH]; intros k Hfuel.
  - cbn [Utils.grid_from length]. lia.
  - cbn [Utils.grid_from].
    destruct (Qle_bool (start + inject_Z k * step) stop) eqn:Htest.
    + apply Qle_bool_iff, sample_in_range in Htest.
      cbn [length]. rewrite IH by lia. lia.
    + assert (Hk : ~ (k <= Qfloor ((stop - start) / step))%Z).
      { intros Hk. apply sample_in_range, Qle_bool_iff in Hk. congruence. }
      cbn [length]. lia.
Qed.

Lemma grid_from_lookup (fuel : nat) (k : Z) (i : nat) (x : Q) :
  Utils.grid_from start stop step fuel k !! i = Some x ->
  x = start + inject_Z (k + Z.of_nat i) * step
  /\ x <= stop.
Proof.
  revert k i. induction fuel as [|fuel IH]; intros k i Hx.
  - discriminate.
  - cbn [Utils.grid_from] in Hx.
    destruct (Qle_bool (start + inject_Z k * step) stop) eqn:Htest;
      [ | discriminate ].
    destruct i as [|i].
    + injection Hx as <-. split.
      * replace (k + Z.of_nat 0)%Z with k by lia. reflexivity.
      * apply Qle_bool_iff. exact Htest.
    + apply IH in Hx. destruct Hx as [-> Hle]. split.
      * replace (k + Z.of_nat (S i))%Z with (k + 1 + Z.of_nat i)%Z by lia.
        reflexivity.
      * exact Hle.
Qed.

End TimeGrid.

(** In exact arithmetic the grid has floor((stop-start)/step)+1 samples,
    the sample of index [i] is start + i*step, and consecutive samples
    differ by exactly [step]. *)
Lemma jd_arange_exact (start stop step : Q) :
  (0 < step)%Q -> (start <= stop)%Q ->
  exists grid : list Q,
    Utils.jd_arange start stop step = Ok grid
    /\ Z.of_nat (length grid) = (Qfloor ((stop - start) / step) + 1)%Z
    /\ (forall (i : nat) (x : Q), grid !! i = Some x ->
          (x == start + inject_Z (Z.of_nat i) * step)%Q /\ (x <= stop)%Q)
    /\ (stop < start + inject_Z (Z.of_nat (length grid)) * step)%Q
    /\ (forall (i : nat) (x y : Q), grid !! i = Some x -> grid !! S i = Some y ->
          (y - x == step)%Q).
Proof.
  intros Hstep Hrange.
  pose proof (floor_nonneg start stop step Hstep Hrange) as Hfloor.
  set (grid := start :: Utils.grid_from start stop step
                 (S (Z.to_nat (Qfloor ((stop - start) / step)))) 1).
  assert (Hrun : Utils.jd_arange start stop step = Ok grid).
  { unfold Utils.jd_arange, Qlt_bool.
    destruct (Qle_bool step 0) eqn:Hs.
    { apply Qle_bool_iff in Hs. lra. }
    destruct (Qle_bool start stop) eqn:Hr; [reflexivity | ].
    apply Qle_bool_iff in Hrange. congruence. }
  assert (Hlen : Z.of_nat (length grid) = (Qfloor ((stop - start) / step) + 1)%Z).
  { unfold grid. cbn [length].
    rewrite (grid_from_length start stop step Hstep) by lia. lia. }
  assert (Hlookup : forall (i : nat) (x : Q), grid !! i = Some x ->
            (x == start + inject_Z (Z.of_nat i) * step)%Q /\ (x <= stop)%Q).
  { intros [|i] x Hx.
    - injection Hx as <-. split; [ | exact Hrange ].
      change (inject_Z (Z.of_nat 0)) with 0%Q. ring.
    - apply grid_from_lookup in Hx. destruct Hx as [-> Hle].
      split; [ | exact Hle ].
      replace (Z.of_nat (S i)) with (1 + Z.of_nat i)%Z by lia. reflexivity. }
  exists grid. split; [exact Hrun | ]. split; [exact Hlen | ].
  split; [exact Hlookup | ]. split.
  - rewrite Hlen. apply Qnot_le_lt. intros Hle.
    apply (sample_in_range start stop step Hstep) in Hle. lia.
  - intros i x y Hx Hy.
    apply Hlookup in Hx. apply Hlookup in Hy.
    destruct Hx as [Hx _], Hy as [Hy _]. rewrite Hx, Hy.
    rewrite Nat2Z.inj_succ. unfold Z.succ. rewrite inject_Z_plus.
    change (inject_Z 1) with 1%Q. ring.
Qed.

(** ** The time grid in binary64 *)






(** ** Silent steps *)

Lemma silent_ret {A} (a : A) : silent (ret a).
Proof. intros tr. reflexivity. Qed.

Lemma silent_raise {A} (e : exn) : silent (@raise A e).
Proof. intros tr. reflexivity. Qed.

Lemma silent_bind {A B} (m : M A) (k : A -> M B) :
  silent m -> (forall a, silent (k a)) -> silent (bind m k).
Proof.
  intros Hm Hk tr. unfold bind. specialize (Hm tr).
  destruct (m tr) as [[a|e] tr']; cbn [snd] in *; subst.
  - apply Hk.
  - reflexivity.
Qed.

Lemma silent_getitem parameters key : silent (getitem parameters key).
Proof. unfold getitem. destruct (parameters !! key); [apply silent_ret | apply silent_raise]. Qed.

Lemma silent_first_item {A} (l : list A) : silent (first_item l).
Proof. destruct l; [apply silent_raise | apply silent_ret]. Qed.

Lemma silent_float env v : silent (float env v).
Proof.
  destruct v as [ | s | x | ? ? ? ]; cbn [float]; try apply silent_raise; try apply silent_ret.
  destruct (float_of_string env s); [apply silent_ret | apply silent_raise].
Qed.

Lemma silent_stepjd_of env parameters : silent (stepjd_of env parameters).
Proof.
  unfold stepjd_of. apply silent_bind; [apply silent_getitem | ].
  intros v. destruct (is_None v); [apply silent_ret | ].
  apply silent_bind; [apply silent_getitem | apply silent_float].
Qed.

Lemma silent_julian_date_of env parameters : silent (julian_date_of env parameters).
Proof.
  intros tr. unfold julian_date_of, try_except, bind.
  pose proof (silent_getitem parameters "julian_date" tr) as Hg.
  destruct (getitem parameters "julian_date" tr) as [[v|e] tr']; cbn [snd] in Hg; subst.
  - destruct (Time_jd env v); reflexivity.
  - reflexivity.
Qed.

Lemma silent_to_datetime_of env jd : silent (to_datetime_of env jd).
Proof. intros tr. reflexivity. Qed.

Lemma silent_inv {A} (m : M A) tr x tr' :
  silent m -> m tr = (x, tr') -> tr' = tr.
Proof. intros Hs Hm. specialize (Hs tr). rewrite Hm in Hs. exact Hs. Qed.

Lemma call_inv {A} ev (r : result A) tr x tr' :
  call ev r tr = (x, tr') -> x = r /\ tr' = tr ++ [ev].
Proof. unfold call. intros H. injection H as <- <-. split; reflexivity. Qed.

Create HintDb silent.
#[export] Hint Resolve silent_ret silent_raise silent_getitem silent_first_item
  silent_float silent_stepjd_of silent_julian_date_of silent_to_datetime_of
  : silent.

(** One step of a handler: the first computation of a [bind] either returns,
    and the handler goes on, or raises, and the handler stops there. *)
Ltac bind_step H :=
  match type of H with
  | bind ?m ?k ?tr = _ =>
      let E := fresh "E" in
      let a := fresh "a" in
      let e := fresh "e" in
      let tr' := fresh "tr" in
      destruct (m tr) as [[a|e] tr'] eqn:E;
      [ rewrite (bind_ok m k tr a tr' E) in H
      | rewrite (bind_exc m k tr e tr' E) in H ]
  end.

(** What a finished step did to the log. *)
Ltac log_step E :=
  first
    [ apply call_inv in E; destruct E as [E ?]; subst
    | apply silent_inv in E; [subst | solve [auto with silent]] ].

(** ** The batch routes *)

Lemma stepjd_of_omitted env (parameters : gmap string pyval) tr :
  parameters !! "stepjd" = Some VNone ->
  stepjd_of env parameters tr = (Ok default_stepjd, tr).
Proof.
  intros H. unfold stepjd_of, bind, getitem. rewrite H. reflexivity.
Qed.

Ltac stopped H :=
  left; injection H as <- <-; cbn [app];
  split; [reflexivity | split;
    [ intros ? ? ? Hin; cbn [In] in Hin; intuition discriminate
    | intros ev Hin; cbn [In] in Hin; intuition (subst; reflexivity) ] ].

Lemma jdstep_prologue_shape env request keys required k r tr :
  jdstep_prologue env request keys required k [] = (r, tr) ->
  (is_Ok r = false
   /\ (forall a b dr, ~ In (EvJdArange a b dr) tr)
   /\ no_engine_call tr)
  \/ exists p0 p jd0 jd1 jds,
       extract_parameters env request keys = Ok p0
       /\ validate_parameters env p0 required = Ok p
       /\ (p !! "stepjd" = Some VNone -> jds = default_stepjd)
       /\ match jd_arange env jd0 jd1 jds with
          | Exc e =>
              r = Exc e
              /\ tr = [EvExtractParameters request keys;
                       EvValidateParameters p0 required;
                       EvJdArange jd0 jd1 jds]
          | Ok jd =>
              (r, tr) = k p jd [EvExtractParameters request keys;
                                EvValidateParameters p0 required;
                                EvJdArange jd0 jd1 jds]
          end.
Proof.
  unfold jdstep_prologue, call_extract_parameters, call_validate_parameters,
    call_jd_arange.
  intros H.
  bind_step H; log_step E; [ | stopped H ].
  bind_step H; log_step E0; [ | stopped H ].
  bind_step H; log_step E1; [ | stopped H ].
  bind_step H; log_step E1; [ | stopped H ].
  bind_step H; log_step E1; [ | stopped H ].
  bind_step H; log_step E1; [ | stopped H ].
  bind_step H; [ | log_step E1; stopped H ].
  assert (Hdefault : a0 !! "stepjd" = Some VNone -> a5 = default_stepjd).
  { intros Hs. rewrite (stepjd_of_omitted env a0 _ Hs) in E1. congruence. }
  log_step E1.
  right. exists a, a0, a2, a4, a5.
  split; [congruence | ]. split; [congruence | ]. split; [exact Hdefault | ].
  cbn [app] in H.
  bind_step H; log_step E1.
  - rewrite <- E1. cbn [app] in H. symmetry. exact H.
  - rewrite <- E1. injection H as <- <-. split; reflexivity.
Qed.


Lemma getitem_exc (parameters : gmap string pyval) key tr e tr' :
  getitem parameters key tr = (Exc e, tr') -> e = KeyError key /\ tr' = tr.
Proof.
  unfold getitem, ret, raise. destruct (parameters !! key); intros H;
    [discriminate | injection H as <- <-].
  split; reflexivity.
Qed.

Lemma first_item_exc {A} (l : list A) tr e tr' :
  first_item l tr = (Exc e, tr') -> e = IndexError /\ l = [] /\ tr' = tr.
Proof.
  unfold first_item, ret, raise. destruct l; intros H;
    [injection H as <- <- | discriminate].
  repeat split.
Qed.

Lemma first_item_ok {A} (l : list A) tr x tr' :
  first_item l tr = (Ok x, tr') -> tr' = tr /\ head l = Some x.
Proof.
  unfold first_item, ret, raise. destruct l; intros H;
    [discriminate | injection H as <- <-].
  split; reflexivity.
Qed.

Lemma to_datetime_of_inv env jd tr x tr' :
  to_datetime_of env jd tr = (x, tr') -> tr' = tr /\ to_datetime env jd = x.
Proof. unfold to_datetime_of. intros H. injection H as <- <-. split; reflexivity. Qed.

Ltac no_grid_event :=
  let Hin := fresh "Hin" in
  intros ? Hin; cbn [In] in Hin; intuition (subst; reflexivity).

Ltac quiet_tail :=
  let Hin := fresh "Hin" in
  intros ? Hin; cbn [In] in Hin; intuition (subst; reflexivity).

Ltac key_error H E :=
  apply getitem_exc in E; destruct E as [-> ->];
  injection H as <- <-; eexists; split; [reflexivity | ];
  split; [no_grid_event | right; left; eexists; reflexivity ].

Ltac engine_seen H :=
  injection H as <- <-; cbn [app]; eexists; split; [reflexivity | ];
  split; [no_grid_event | left; eexists; split; [left; reflexivity | reflexivity] ].

Ltac empty_grid H E :=
  apply first_item_exc in E; destruct E as (-> & -> & ->);
  injection H as <- <-; exists []; split; [reflexivity | ];
  split; [no_grid_event | right; right; left; split; reflexivity ].

Ltac first_sample H E Hhead :=
  bind_step H;
  [ apply first_item_ok in E; destruct E as [-> Hhead] | empty_grid H E ].

Ltac bad_date H E Hhead :=
  apply to_datetime_of_inv in E; destruct E as [-> E];
  injection H as <- <-; exists []; split; [reflexivity | ];
  split; [no_grid_event
         | right; right; right; eexists _, _;
           split; [exact Hhead | split; [exact E | reflexivity] ] ].

Ltac too_many H :=
  unfold emit, abort, raise, bind in H; cbn [app] in H; injection H as -> ->;
  eexists; split; [reflexivity | ];
  split; [no_grid_event | split; [reflexivity | quiet_tail] ].

Ltac grid_failed H :=
  destruct H as [-> ->]; exists []; split; [reflexivity | ];
  split; [no_grid_event | split; reflexivity ].

Ltac enter_batch H p0 p jd0 jd1 jds :=
  apply jdstep_prologue_shape in H;
  destruct H as [H | (p0 & p & jd0 & jd1 & jds & ? & ? & ? & H)];
  [ left; exact H | right ];
  do 2 eexists; exists p0, p, jd0, jd1, jds;
  do 3 (split; [eassumption | ]);
  unfold after_grid.

Lemma batch_shape_name env request r tr :
  run (get_ephemeris_by_name_jdstep env request) = (r, tr) ->
  batch_shape env request r tr.
Proof.
  intros H. unfold run, get_ephemeris_by_name_jdstep in H.
  enter_batch H p0 p jd0 jd1 jds.
  destruct (jd_arange env jd0 jd1 jds) as [jd|e] eqn:Hgrid; [ | grid_failed H ].
  destruct (Z.of_nat (length jd) >? 1000)%Z eqn:Hmany; [ too_many H | ].
  symmetry in H.
  bind_step H; [ log_step E | key_error H E ].
  bind_step H; [ log_step E | key_error H E ].
  first_sample H E Hhead.
  bind_step H; [ log_step E | bad_date H E Hhead ].
  unfold call_get_tle in H.
  bind_step H; log_step E; [ | engine_seen H ].
  bind_step H; [ log_step E0 | log_step E0; engine_seen H ].
  bind_step H; [ log_step E0 | log_step E0; engine_seen H ].
  bind_step H; [ log_step E0 | log_step E0; engine_seen H ].
  bind_step H; [ log_step E0 | log_step E0; engine_seen H ].
  bind_step H; [ log_step E0 | log_step E0; engine_seen H ].
  unfold call_propagate, call in H. engine_seen H.
Qed.

Lemma batch_shape_catalog env request r tr :
  run (get_ephemeris_by_catalog_number_jdstep env request) = (r, tr) ->
  batch_shape env request r tr.
Proof.
  intros H. unfold run, get_ephemeris_by_catalog_number_jdstep in H.
  enter_batch H p0 p jd0 jd1 jds.
  destruct (jd_arange env jd0 jd1 jds) as [jd|e] eqn:Hgrid; [ | grid_failed H ].
  destruct (Z.of_nat (length jd) >? 1000)%Z eqn:Hmany; [ too_many H | ].
  symmetry in H.
  bind_step H; [ log_step E | key_error H E ].
  bind_step H; [ log_step E | key_error H E ].
  first_sample H E Hhead.
  bind_step H; [ log_step E | bad_date H E Hhead ].
  unfold call_get_tle in H.
  bind_step H; log_step E; [ | engine_seen H ].
  bind_step H; [ log_step E0 | log_step E0; engine_seen H ].
  bind_step H; [ log_step E0 | log_step E0; engine_seen H ].
  bind_step H; [ log_step E0 | log_step E0; engine_seen H ].
  bind_step H; [ log_step E0 | log_step E0; engine_seen H ].
  unfold call_propagate, call in H. engine_seen H.
Qed.

Lemma batch_shape_tle env request r tr :
  run (get_ephemeris_by_tle_jdstep env request) = (r, tr) ->
  batch_shape env request r tr.
Proof.
  intros H. unfold run, get_ephemeris_by_tle_jdstep in H.
  enter_batch H p0 p jd0 jd1 jds.
  destruct (jd_arange env jd0 jd1 jds) as [jd|e] eqn:Hgrid; [ | grid_failed H ].
  destruct (Z.of_nat (length jd) >? 1000)%Z eqn:Hmany; [ too_many H | ].
  symmetry in H.
  bind_step H; [ log_step E | key_error H E ].
  unfold call_parse_tle in H.
  bind_step H; log_step E; [ | engine_seen H ].
  bind_step H; [ log_step E0 | log_step E0; engine_seen H ].
  bind_step H; [ log_step E0 | log_step E0; engine_seen H ].
  bind_step H; [ log_step E0 | log_step E0; engine_seen H ].
  unfold call_propagate, call in H. engine_seen H.
Qed.

Lemma batch_shape_routes env h request r tr :
  In h (jdstep_routes env) ->
  run (h request) = (r, tr) ->
  batch_shape env request r tr.
Proof.
  intros [<- | [<- | [<- | []]]].
  - apply batch_shape_name.
  - apply batch_shape_catalog.
  - apply batch_shape_tle.
Qed.

(** The grid of a batch request is the one its only [jd_arange] call
    produced. *)
Lemma after_grid_unique env jd0 jd1 jds keys required request p0 r tr a b dr :
  after_grid env jd0 jd1 jds
    [EvExtractParameters request keys; EvValidateParameters p0 required;
     EvJdArange jd0 jd1 jds] r tr ->
  In (EvJdArange a b dr) tr ->
  a = jd0 /\ b = jd1 /\ dr = jds.
Proof.
  intros (tail & -> & Hlate & _) Hin.
  cbn [app In] in Hin.
  destruct Hin as [Hin | [Hin | [Hin | Hin]]]; try discriminate.
  - injection Hin as <- <- <-. repeat split.
  - apply Hlate in Hin. discriminate.
Qed.

Lemma no_engine_call_app tr1 tr2 :
  no_engine_call tr1 -> no_engine_call tr2 -> no_engine_call (tr1 ++ tr2).
Proof.
  intros H1 H2 ev Hin. apply in_app_or in Hin. destruct Hin; auto.
Qed.

(** C1.  For every batch (start/stop/step) ephemeris route and request: when
    the generated time grid has more than 1000 samples the request is
    refused with a 400 and the log holds no element-set lookup, no parsing
    and no propagation; when it has exactly 1000 samples the handler is not
    stopped by this check: it goes on to the engine, unless it fails on the
    way there, on a parameter access or on the conversion of the first
    sample to a [datetime] (the argument [jd[0].to_datetime()] of the
    lookup). *)
Theorem too_many_samples_rejected env h request (jd : list Q) :
  In h (jdstep_routes env) ->
  generated_grid env (snd (run (h request))) jd ->
  ((1000 < length jd)%nat ->
     fst (run (h request)) = Exc (HTTPException 400 None)
     /\ no_engine_call (snd (run (h request))))
  /\ (length jd = 1000%nat ->
        engine_called (snd (run (h request)))
        \/ (exists key, fst (run (h request)) = Exc (KeyError key))
        \/ (exists jd_0 e,
              head jd = Some jd_0
              /\ to_datetime env jd_0 = Exc e
              /\ fst (run (h request)) = Exc e)).
Proof.
  intros Hh (a & b & dr & Hin & Hgrid).
  destruct (run (h request)) as [r tr] eqn:Hrun. cbn [fst snd] in *.
  apply (batch_shape_routes env h request r tr Hh) in Hrun.
  destruct Hrun as [(_ & Hnone & _) | Hrun]; [ exfalso; eapply Hnone; exact Hin | ].
  destruct Hrun as (keys & required & p0 & p & jd0 & jd1 & jds & _ & _ & _ & Hafter).
  destruct (after_grid_unique _ _ _ _ _ _ _ _ _ _ _ _ _ Hafter Hin) as (-> & -> & ->).
  destruct Hafter as (tail & -> & Hlate & Hend).
  rewrite Hgrid in Hend.
  split.
  - intros Hlen.
    assert (Hmany : (Z.of_nat (length jd) >? 1000)%Z = true) by lia.
    rewrite Hmany in Hend. destruct Hend as [-> Hquiet].
    split; [reflexivity | ].
    apply no_engine_call_app; [ | exact Hquiet ].
    intros ev Hev. cbn [In] in Hev. intuition (subst; reflexivity).
  - intros Hlen.
    assert (Hmany : (Z.of_nat (length jd) >? 1000)%Z = false) by lia.
    rewrite Hmany in Hend.
    destruct Hend as [(ev & Hev & Hengine) | [Hkey | [[-> _] | Hdate]]].
    + left. exists ev. split; [ | exact Hengine ].
      apply in_or_app. right. exact Hev.
    + right. left. exact Hkey.
    + discriminate.
    + right. right. exact Hdate.
Qed.

Lemma too_many_samples_rejected_witness :
  In (get_ephemeris_by_name_jdstep demo_env) (jdstep_routes demo_env)
  /\ generated_grid demo_env
       (snd (run (get_ephemeris_by_name_jdstep demo_env request_1001)))
       (grid_of (Utils.jd_arange 2460193 2460194 (1 # 1000)))
  /\ (1000 < length (grid_of (Utils.jd_arange 2460193 2460194 (1 # 1000))))%nat
  /\ fst (run (get_ephemeris_by_name_jdstep demo_env request_1001))
     = Exc (HTTPException 400 None)
  /\ no_engine_call (snd (run (get_ephemeris_by_name_jdstep demo_env request_1001)))
  /\ generated_grid demo_env
       (snd (run (get_ephemeris_by_name_jdstep demo_env request_1000)))
       (grid_of (Utils.jd_arange 2460193 (2460193999 # 1000) (1 # 1000)))
  /\ length (grid_of (Utils.jd_arange 2460193 (2460193999 # 1000) (1 # 1000)))
     = 1000%nat
  /\ (engine_called (snd (run (get_ephemeris_by_name_jdstep demo_env request_1000)))
      \/ (exists key,
            fst (run (get_ephemeris_by_name_jdstep demo_env request_1000))
            = Exc (KeyError key))
      \/ (exists jd_0 e,
            head (grid_of (Utils.jd_arange 2460193 (2460193999 # 1000) (1 # 1000)))
            = Some jd_0
            /\ to_datetime demo_env jd_0 = Exc e
            /\ fst (run (get_ephemeris_by_name_jdstep demo_env request_1000))
               = Exc e)).
Proof.
  assert (Hh : In (get_ephemeris_by_name_jdstep demo_env) (jdstep_routes demo_env))
    by (left; reflexivity).
  assert (Hgrid' : generated_grid demo_env
            (snd (run (get_ephemeris_by_name_jdstep demo_env request_1000)))
            (grid_of (Utils.jd_arange 2460193 (2460193999 # 1000) (1 # 1000)))).
  { exists 2460193%Q, (2460193999 # 1000)%Q, (1 # 1000)%Q. split.
    - vm_compute. right. right. left. reflexivity.
    - apply (grid_of_ok (Utils.jd_arange 2460193 (2460193999 # 1000) (1 # 1000))).
      vm_compute. reflexivity. }
  assert (Hlen' : length (grid_of (Utils.jd_arange 2460193 (2460193999 # 1000) (1 # 1000)))
                  = 1000%nat).
  { vm_compute. reflexivity. }
  assert (Hgrid : generated_grid demo_env
            (snd (run (get_ephemeris_by_name_jdstep demo_env request_1001)))
            (grid_of (Utils.jd_arange 2460193 2460194 (1 # 1000)))).
  { exists 2460193%Q, 2460194%Q, (1 # 1000)%Q. split.
    - vm_compute. right. right. left. reflexivity.
    - apply (grid_of_ok (Utils.jd_arange 2460193 2460194 (1 # 1000))).
      vm_compute. reflexivity. }
  assert (Hlen : (1000 < length (grid_of (Utils.jd_arange 2460193 2460194 (1 # 1000))))%nat).
  { apply Nat.ltb_lt. vm_compute. reflexivity. }
  split; [exact Hh | ]. split; [exact Hgrid | ]. split; [exact Hlen | ].
  destruct (proj1 (too_many_samples_rejected demo_env _ request_1001 _ Hh Hgrid) Hlen)
    as [Hrefused Hquiet].
  split; [exact Hrefused | ]. split; [exact Hquiet | ].
  split; [exact Hgrid' | ]. split; [exact Hlen' | ].
  exact (proj2 (too_many_samples_rejected demo_env _ request_1000 _ Hh Hgrid') Hlen').
Defined.

(** C6.  The time grid generator fails with [InvalidRangeError] whenever
    [step <= 0] or [stop < start]; and a batch route that asks it for a grid
    with such bounds ends with that error, without any element-set lookup,
    parsing or propagation: no propagation result is returned. *)
Theorem invalid_range_rejected (start stop step : Q) :
  (step <= 0)%Q \/ (stop < start)%Q ->
  Utils.jd_arange start stop step = Exc InvalidRangeError
  /\ forall env h request,
       (forall a b dr, jd_arange env a b dr = Utils.jd_arange a b dr) ->
       In h (jdstep_routes env) ->
       In (EvJdArange start stop step) (snd (run (h request))) ->
       fst (run (h request)) = Exc InvalidRangeError
       /\ no_engine_call (snd (run (h request))).
Proof.
  intros Hbad.
  assert (Hfail : Utils.jd_arange start stop step = Exc InvalidRangeError).
  { unfold Utils.jd_arange, Qlt_bool. destruct Hbad as [Hstep | Hrange].
    - apply Qle_bool_iff in Hstep. rewrite Hstep. reflexivity.
    - destruct (Qle_bool start stop) eqn:Hle.
      + apply Qle_bool_iff in Hle. lra.
      + rewrite orb_true_r. reflexivity. }
  split; [exact Hfail | ].
  intros env h request Henv Hh Hin.
  destruct (run (h request)) as [r tr] eqn:Hrun. cbn [fst snd] in *.
  apply (batch_shape_routes env h request r tr Hh) in Hrun.
  destruct Hrun as [(_ & Hnone & _) | Hrun]; [ exfalso; eapply Hnone; exact Hin | ].
  destruct Hrun as (keys & required & p0 & p & jd0 & jd1 & jds & _ & _ & _ & Hafter).
  destruct (after_grid_unique _ _ _ _ _ _ _ _ _ _ _ _ _ Hafter Hin) as (-> & -> & ->).
  destruct Hafter as (tail & -> & _ & Hend).
  rewrite Henv, Hfail in Hend. destruct Hend as [-> ->].
  split; [reflexivity | ].
  intros ev Hev. cbn [app In] in Hev. intuition (subst; reflexivity).
Qed.

Lemma invalid_range_rejected_witness :
  ((1 # 10 <= 0)%Q \/ (2460193 < 2460194)%Q)
  /\ Utils.jd_arange 2460194 2460193 (1 # 10) = Exc InvalidRangeError
  /\ fst (run (get_ephemeris_by_name_jdstep demo_env request_backwards))
     = Exc InvalidRangeError
  /\ no_engine_call (snd (run (get_ephemeris_by_name_jdstep demo_env request_backwards))).
Proof.
  assert (Hbad : (1 # 10 <= 0)%Q \/ (2460193 < 2460194)%Q) by (right; reflexivity).
  split; [exact Hbad | ].
  destruct (invalid_range_rejected 2460194 2460193 (1 # 10) Hbad) as [Hfail Hroutes].
  split; [exact Hfail | ].
  apply (Hroutes demo_env).
  - intros a b dr. reflexivity.
  - left. reflexivity.
  - vm_compute. right. right. left. reflexivity.
Defined.

(** ** The default step *)









(** ** The single-instant routes and the routes on user-supplied elements *)

Lemma response_of_ok (r : result response) :
  is_Ok r = true -> r = Ok (response_of r).
Proof. destruct r; [reflexivity | discriminate]. Qed.

Lemma julian_date_of_ok env (p : gmap string pyval) tr jd tr' :
  julian_date_of env p tr = (Ok jd, tr') ->
  tr' = tr /\ exists v, p !! "julian_date" = Some v /\ Time_jd env v = Ok jd.
Proof.
  unfold julian_date_of, try_except, bind, getitem, abort, raise, ret.
  destruct (p !! "julian_date") as [v|]; [ | discriminate ].
  destruct (Time_jd env v) as [x|e] eqn:Ht; [ | discriminate ].
  intros H. injection H as <- <-. split; [reflexivity | ].
  exists v. split; [reflexivity | exact Ht].
Qed.

(** A step of a handler together with its effect on the log. *)
Ltac bind_log H :=
  match type of H with
  | bind ?m ?k ?tr = _ =>
      let E := fresh "E" in
      let a := fresh "a" in
      let e := fresh "e" in
      let tr' := fresh "tr" in
      destruct (m tr) as [[a|e] tr'] eqn:E;
      [ rewrite (bind_ok m k tr a tr' E) in H
      | rewrite (bind_exc m k tr e tr' E) in H ];
      log_step E; cbn [app] in H
  end.

Ltac not_propagated H :=
  left; injection H as <- <-;
  split; [reflexivity | intros ? Hin; cbn [In] in Hin; intuition discriminate].

Ltac unfold_calls H :=
  unfold run, call_extract_parameters, call_validate_parameters, call_jd_arange,
    call_get_tle, call_parse_tle, call_propagate in H.

Ltac propagated_once :=
  split; [ intros ? Hin; cbn [In] in Hin;
           repeat (destruct Hin as [Hin | Hin]; try discriminate);
           [ injection Hin as <-; reflexivity | destruct Hin ]
         | split; [ cbn [In]; tauto | reflexivity ] ].

Ltac validated_by E :=
  unfold validated; eexists _, _;
  split; [ right; left; reflexivity | symmetry; exact E ].



Lemma instant_shape_tle env request r tr :
  run (get_ephemeris_by_tle env request) = (r, tr) ->
  propagation_shape env (fun a => single_instant env tr a /\ user_supplied a) r tr.
Proof.
  intros H. unfold get_ephemeris_by_tle in H. unfold_calls H.
  do 2 (bind_log H; [ | not_propagated H ]).
  bind_step H; [ | log_step E1; not_propagated H ].
  apply julian_date_of_ok in E1. destruct E1 as (-> & v & Hv & Hjd).
  do 5 (bind_log H; [ | not_propagated H ]).
  apply call_inv in H. destruct H as [-> ->]. cbn [app].
  right. eexists. split; [ | propagated_once ].
  split; [ | reflexivity ].
  exists a0, v, a1. split; [validated_by E0 | ]. repeat split; assumption.
Qed.

Lemma batch_shape_tle_source env request r tr :
  run (get_ephemeris_by_tle_jdstep env request) = (r, tr) ->
  propagation_shape env user_supplied r tr.
Proof.
  intros H. unfold get_ephemeris_by_tle_jdstep in H. unfold_calls H.
  do 8 (bind_log H; [ | not_propagated H ]).
  destruct (Z.of_nat (length a6) >? 1000)%Z.
  { unfold emit, abort, raise, bind in H. not_propagated H. }
  do 5 (bind_log H; [ | not_propagated H ]).
  apply call_inv in H. destruct H as [-> ->]. cbn [app].
  right. eexists. split; [ | propagated_once ].
  reflexivity.
Qed.

(** ** Result assembly (§4.6) *)

Lemma for_each_ok {A B} (f : A -> result B) (l : list A) (ys : list B) :
  TleAccess.for_each f l = Ok ys ->
  length ys = length l
  /\ forall (i : nat) (y : B), ys !! i = Some y ->
       exists x, l !! i = Some x /\ f x = Ok y.
Proof.
  revert ys. induction l as [|x l IH]; intros ys H; cbn [TleAccess.for_each] in H.
  - injection H as <-. split; [reflexivity | intros i y Hy; destruct i; discriminate].
  - destruct (f x) as [y0|e] eqn:Hx; [ | discriminate ].
    destruct (TleAccess.for_each f l) as [ys0|e] eqn:Hl; [ | discriminate ].
    injection H as <-. destruct (IH ys0 eq_refl) as [Hlen Hnth].
    split; [cbn [length]; congruence | ].
    intros [|i] y Hy.
    + injection Hy as <-. exists x. split; [reflexivity | exact Hx].
    + apply Hnth. exact Hy.
Qed.

(** Every record of an assembled batch carries the metadata the assembler
    was given and the Julian date of its sample. *)
Lemma assembled_records engine a resp :
  TleAccess.propagate_and_create_json_results engine a = Ok resp ->
  exists records,
    resp = Ephemeris records
    /\ length records = length (pa_jd a)
    /\ forall (i : nat) record, records !! i = Some record ->
         pa_jd a !! i = Some (JULIAN_DATE record)
         /\ DATA_SOURCE record = pa_data_source a
         /\ NAME record = pa_name a
         /\ CATALOG_ID record = pa_catalog_id a
         /\ TLE_DATE record = pa_date_collected a.
Proof.
  unfold TleAccess.propagate_and_create_json_results.
  match goal with
  | |- context [TleAccess.for_each ?f ?l] =>
      destruct (TleAccess.for_each f l) as [records|e] eqn:Hall
  end; [ | discriminate ].
  intros H. injection H as <-. exists records.
  apply for_each_ok in Hall. destruct Hall as [Hlen Hnth].
  split; [reflexivity | split; [exact Hlen | ] ].
  intros i record Hrecord. apply Hnth in Hrecord.
  destruct Hrecord as (jd & Hjd & Hengine).
  destruct (engine (pa_location a) (pa_tle_line1 a) (pa_tle_line2 a) jd);
    [ | discriminate ].
  injection Hengine as <-. cbn. repeat split. exact Hjd.
Qed.






Lemma tle_shape_routes env h request r tr :
  In h (tle_routes env) ->
  run (h request) = (r, tr) ->
  propagation_shape env user_supplied r tr.
Proof.
  intros [<- | [<- | []]] H.
  - apply instant_shape_tle in H.
    destruct H as [H | (a & [_ Ha] & H)]; [left; exact H | right].
    exists a. split; [exact Ha | exact H].
  - apply batch_shape_tle_source with (request := request). exact H.
Qed.

(** C10.  For every ephemeris request on user-supplied element text (the
    [tle] and [tle-jdstep] routes): the data source handed to the assembler
    is the constant "user", whatever the request holds, and every record of
    the assembled response carries it. *)
Theorem user_tle_data_source env engine h request :
  (forall a, propagate_and_create_json_results env a
             = TleAccess.propagate_and_create_json_results engine a) ->
  In h (tle_routes env) ->
  (forall a, In (EvPropagate a) (snd (run (h request))) ->
             pa_data_source a = VStr "user")
  /\ (forall resp, fst (run (h request)) = Ok resp ->
        exists records,
          resp = Ephemeris records
          /\ forall record, In record records -> DATA_SOURCE record = VStr "user").
Proof.
  intros Henv Hh.
  destruct (run (h request)) as [r tr] eqn:Hrun. cbn [fst snd].
  apply (tle_shape_routes env h request r tr Hh) in Hrun.
  split.
  - intros a Ha.
    destruct Hrun as [[_ Hnone] | (a0 & Huser & Honly & _ & _)];
      [ exfalso; eapply Hnone; exact Ha | ].
    apply Honly in Ha. subst a0. exact Huser.
  - intros resp Hresp.
    destruct Hrun as [[Hfail _] | (a & Huser & _ & _ & ->)].
    { rewrite Hresp in Hfail. discriminate. }
    rewrite Henv in Hresp. apply assembled_records in Hresp.
    destruct Hresp as (records & -> & _ & Hnth).
    exists records. split; [reflexivity | ].
    intros record Hin. apply list_elem_of_In, list_elem_of_lookup_1 in Hin.
    destruct Hin as [i Hi]. apply Hnth in Hi.
    destruct Hi as (_ & Hsource & _). rewrite Hsource. exact Huser.
Qed.

Lemma user_tle_data_source_witness :
  (forall a, propagate_and_create_json_results demo_env a
             = TleAccess.propagate_and_create_json_results demo_engine a)
  /\ In (get_ephemeris_by_tle demo_env) (tle_routes demo_env)
  /\ fst (run (get_ephemeris_by_tle demo_env request_tle))
     = Ok (response_of (fst (run (get_ephemeris_by_tle demo_env request_tle))))
  /\ exists records,
       response_of (fst (run (get_ephemeris_by_tle demo_env request_tle)))
       = Ephemeris records
       /\ forall record, In record records -> DATA_SOURCE record = VStr "user".
Proof.
  assert (Henv : forall a, propagate_and_create_json_results demo_env a
             = TleAccess.propagate_and_create_json_results demo_engine a)
    by (intros a; reflexivity).
  assert (Hh : In (get_ephemeris_by_tle demo_env) (tle_routes demo_env))
    by (left; reflexivity).
  assert (Hok : fst (run (get_ephemeris_by_tle demo_env request_tle))
     = Ok (response_of (fst (run (get_ephemeris_by_tle demo_env request_tle))))).
  { apply response_of_ok. vm_compute. reflexivity. }
  split; [exact Henv | ]. split; [exact Hh | ]. split; [exact Hok | ].
  exact (proj2 (user_tle_data_source demo_env demo_engine _ request_tle Henv Hh)
           _ Hok).
Defined.

(** ** Failures *)

Ltac check_event Hfail :=
  cbn [failure_of] in Hfail; unfold raised in Hfail;
  first
    [ discriminate Hfail
    | match type of Hfail with
      | context [match ?c with _ => _ end] =>
          destruct c eqn:?; [discriminate Hfail | injection Hfail as <-; congruence]
      end ].

Ltac check_log :=
  let Hin := fresh "Hin" in
  let Hfail := fresh "Hfail" in
  intros ? ? Hin Hfail; cbn [In] in Hin;
  repeat (destruct Hin as [<- | Hin]; [ check_event Hfail | ]);
  destruct Hin.

Ltac stops H := injection H as <- <-; check_log.

Ltac returns H := apply call_inv in H; destruct H as [-> ->]; cbn [app]; check_log.

Lemma failures_propagate_name env request r tr :
  run (get_ephemeris_by_name env request) = (r, tr) -> failures_propagate env r tr.
Proof.
  intros H. unfold get_ephemeris_by_name in H. unfold_calls H.
  do 12 (bind_log H; [ | stops H ]).
  returns H.
Qed.

Lemma failures_propagate_name_jdstep env request r tr :
  run (get_ephemeris_by_name_jdstep env request) = (r, tr) -> failures_propagate env r tr.
Proof.
  intros H. unfold get_ephemeris_by_name_jdstep in H. unfold_calls H.
  do 8 (bind_log H; [ | stops H ]).
  match type of H with
  | context [(?c >? 1000)%Z] => destruct (c >? 1000)%Z
  end.
  { unfold emit, abort, raise, bind in H. stops H. }
  do 10 (bind_log H; [ | stops H ]).
  returns H.
Qed.

Lemma failures_propagate_catalog env request r tr :
  run (get_ephemeris_by_catalog_number env request) = (r, tr) ->
  failures_propagate env r tr.
Proof.
  intros H. unfold get_ephemeris_by_catalog_number in H. unfold_calls H.
  do 11 (bind_log H; [ | stops H ]).
  returns H.
Qed.

Lemma failures_propagate_tle env request r tr :
  run (get_ephemeris_by_tle env request) = (r, tr) -> failures_propagate env r tr.
Proof.
  intros H. unfold get_ephemeris_by_tle in H. unfold_calls H.
  do 8 (bind_log H; [ | stops H ]).
  returns H.
Qed.

Lemma failures_propagate_catalog_jdstep env request r tr :
  run (get_ephemeris_by_catalog_number_jdstep env request) = (r, tr) ->
  failures_propagate env r tr.
Proof.
  intros H. unfold get_ephemeris_by_catalog_number_jdstep in H. unfold_calls H.
  do 8 (bind_log H; [ | stops H ]).
  match type of H with
  | context [(?c >? 1000)%Z] => destruct (c >? 1000)%Z
  end.
  { unfold emit, abort, raise, bind in H. stops H. }
  do 9 (bind_log H; [ | stops H ]).
  returns H.
Qed.

Lemma failures_propagate_tle_jdstep env request r tr :
  run (get_ephemeris_by_tle_jdstep env request) = (r, tr) ->
  failures_propagate env r tr.
Proof.
  intros H. unfold get_ephemeris_by_tle_jdstep in H. unfold_calls H.
  do 8 (bind_log H; [ | stops H ]).
  match type of H with
  | context [(?c >? 1000)%Z] => destruct (c >? 1000)%Z
  end.
  { unfold emit, abort, raise, bind in H. stops H. }
  do 5 (bind_log H; [ | stops H ]).
  returns H.
Qed.

Lemma failures_propagate_routes env h request r tr :
  In h (ephemeris_routes env) ->
  run (h request) = (r, tr) ->
  failures_propagate env r tr.
Proof.
  intros [<- | [<- | [<- | [<- | [<- | [<- | []]]]]]].
  - apply failures_propagate_name.
  - apply failures_propagate_catalog.
  - apply failures_propagate_tle.
  - apply failures_propagate_name_jdstep.
  - apply failures_propagate_catalog_jdstep.
  - apply failures_propagate_tle_jdstep.
Qed.

Lemma silent_optional_date env d : silent (optional_date env d).
Proof.
  intros tr. unfold optional_date.
  destruct d as [[|c s]|]; try reflexivity.
  destruct (Time_jd env (VStr (String c s))) as [jd|e]; [ | reflexivity ].
  destruct (to_datetime env jd); reflexivity.
Qed.

Lemma ids_lookup_failure env request name e :
  args request !! "name" = Some name ->
  get_ids_for_satelltite_name env (upper env name) = Exc e ->
  run (get_norad_ids_from_name env request)
  = (Ok ReturnNone, [EvGetIdsForName (upper env name); EvLogError e]).
Proof.
  intros Hname Hfail.
  unfold run, get_norad_ids_from_name, try_except, bind, call, emit, ret.
  rewrite Hname. cbn [is_None]. rewrite Hfail. reflexivity.
Qed.

Lemma names_lookup_failure env request satellite_id e :
  args request !! "id" = Some satellite_id ->
  get_names_for_satellite_id env satellite_id = Exc e ->
  run (get_names_from_norad_id env request)
  = (Ok ReturnNone, [EvGetNamesForId satellite_id; EvLogError e]).
Proof.
  intros Hid Hfail.
  unfold run, get_names_from_norad_id, try_except, bind, call, emit, ret.
  rewrite Hid, Hfail. reflexivity.
Qed.

Lemma tle_data_lookup_failure env request satellite_id id_type start_date end_date e :
  args request !! "id" = Some satellite_id ->
  args request !! "id_type" = Some id_type ->
  id_type = "catalog" \/ id_type = "name" ->
  fst (optional_date env (args request !! "start_date_jd") []) = Ok start_date ->
  fst (optional_date env (args request !! "end_date_jd") []) = Ok end_date ->
  get_tles env satellite_id id_type start_date end_date = Exc e ->
  run (get_tle_data env request)
  = match e with
    | DataError =>
        (Exc (HTTPException 500 (Some (NO_TLE_FOUND env))),
         [EvGetTles satellite_id id_type start_date end_date])
    | _ =>
        (Ok ReturnNone,
         [EvGetTles satellite_id id_type start_date end_date; EvLogError e])
    end.
Proof.
  intros Hid Htype Hkind Hstart Hend Hfail.
  unfold run, get_tle_data. rewrite Hid, Htype.
  assert (Hgate : negb (String.eqb id_type "catalog") && negb (String.eqb id_type "name")
                  = false).
  { destruct Hkind as [-> | ->]; reflexivity. }
  rewrite Hgate.
  pose proof (silent_optional_date env (args request !! "start_date_jd") []) as Hs1.
  destruct (optional_date env (args request !! "start_date_jd") [])
    as [r1 tr1] eqn:E1.
  cbn [fst snd] in Hstart, Hs1. subst r1 tr1.
  rewrite (bind_ok _ _ _ _ _ E1).
  pose proof (silent_optional_date env (args request !! "end_date_jd") []) as Hs2.
  destruct (optional_date env (args request !! "end_date_jd") [])
    as [r2 tr2] eqn:E2.
  cbn [fst snd] in Hend, Hs2. subst r2 tr2.
  rewrite (bind_ok _ _ _ _ _ E2).
  unfold try_except, bind, call, emit, abort, raise, ret. rewrite Hfail.
  destruct e; reflexivity.
Qed.

(** C5, as the code has it.  In the six ephemeris routes a failure is never
    swallowed: whenever a call the handler made raised, the handler ends
    with that very exception, so no response is returned in its place.  The
    three lookup tools do catch: a failing repository query is written to
    the error log and the tool returns [None]; only [get_tle_data] turns a
    [DataError] into a 500. *)
Theorem failures_raised_or_logged env request e :
  (forall h ev, In h (ephemeris_routes env) ->
     In ev (snd (run (h request))) -> failure_of env ev = Some e ->
     fst (run (h request)) = Exc e)
  /\ (forall name, args request !! "name" = Some name ->
        get_ids_for_satelltite_name env (upper env name) = Exc e ->
        run (get_norad_ids_from_name env request)
        = (Ok ReturnNone, [EvGetIdsForName (upper env name); EvLogError e]))
  /\ (forall satellite_id, args request !! "id" = Some satellite_id ->
        get_names_for_satellite_id env satellite_id = Exc e ->
        run (get_names_from_norad_id env request)
        = (Ok ReturnNone, [EvGetNamesForId satellite_id; EvLogError e]))
  /\ (forall satellite_id id_type start_date end_date,
        args request !! "id" = Some satellite_id ->
        args request !! "id_type" = Some id_type ->
        id_type = "catalog" \/ id_type = "name" ->
        fst (optional_date env (args request !! "start_date_jd") []) = Ok start_date ->
        fst (optional_date env (args request !! "end_date_jd") []) = Ok end_date ->
        get_tles env satellite_id id_type start_date end_date = Exc e ->
        run (get_tle_data env request)
        = match e with
          | DataError =>
              (Exc (HTTPException 500 (Some (NO_TLE_FOUND env))),
               [EvGetTles satellite_id id_type start_date end_date])
          | _ =>
              (Ok ReturnNone,
               [EvGetTles satellite_id id_type start_date end_date; EvLogError e])
          end).
Proof.
  split; [ | split; [ | split ] ].
  - intros h ev Hh Hin Hfail.
    destruct (run (h request)) as [r tr] eqn:Hrun. cbn [fst snd] in *.
    exact (failures_propagate_routes env h request r tr Hh Hrun ev e Hin Hfail).
  - intros name. apply ids_lookup_failure.
  - intros satellite_id. apply names_lookup_failure.
  - intros satellite_id id_type start_date end_date.
    apply tle_data_lookup_failure.
Qed.

Lemma failures_raised_or_logged_witness :
  In (get_ephemeris_by_name offline_env) (ephemeris_routes offline_env)
  /\ In (EvGetTle (VStr "ISS (ZARYA)") false VNone (2460193104167 # 1000000))
        (snd (run (get_ephemeris_by_name offline_env request_instant)))
  /\ failure_of offline_env
       (EvGetTle (VStr "ISS (ZARYA)") false VNone (2460193104167 # 1000000))
     = Some DataError
  /\ fst (run (get_ephemeris_by_name offline_env request_instant)) = Exc DataError
  /\ args request_ids !! "name" = Some "iss (zarya)"
  /\ get_ids_for_satelltite_name offline_env (upper offline_env "iss (zarya)")
     = Exc DataError
  /\ run (get_norad_ids_from_name offline_env request_ids)
     = (Ok ReturnNone,
        [EvGetIdsForName (upper offline_env "iss (zarya)"); EvLogError DataError]).
Proof.
  assert (Hh : In (get_ephemeris_by_name offline_env) (ephemeris_routes offline_env))
    by (left; reflexivity).
  assert (Hin : In (EvGetTle (VStr "ISS (ZARYA)") false VNone (2460193104167 # 1000000))
        (snd (run (get_ephemeris_by_name offline_env request_instant)))).
  { vm_compute. right. right. left. reflexivity. }
  assert (Hfail : failure_of offline_env
       (EvGetTle (VStr "ISS (ZARYA)") false VNone (2460193104167 # 1000000))
     = Some DataError) by reflexivity.
  assert (Hname : args request_ids !! "name" = Some "iss (zarya)")
    by (vm_compute; reflexivity).
  assert (Hquery : get_ids_for_satelltite_name offline_env
                     (upper offline_env "iss (zarya)") = Exc DataError)
    by reflexivity.
  destruct (failures_raised_or_logged offline_env request_instant DataError)
    as [Hroutes _].
  destruct (failures_raised_or_logged offline_env request_ids DataError)
    as (_ & Hids & _).
  split; [exact Hh | ]. split; [exact Hin | ]. split; [exact Hfail | ].
  split; [exact (Hroutes _ _ Hh Hin Hfail) | ].
  split; [exact Hname | ]. split; [exact Hquery | ].
  exact (Hids _ Hname Hquery).
Defined.

(** C5, refuted as stated: with the database out of reach the repository
    query of [get_norad_ids_from_name] raises, and the handler catches the
    exception and returns [None]. *)
Lemma lookup_failure_swallowed :
  get_ids_for_satelltite_name offline_env "ISS (ZARYA)" = Exc DataError
  /\ run (get_norad_ids_from_name offline_env request_ids)
     = (Ok ReturnNone, [EvGetIdsForName "ISS (ZARYA)"; EvLogError DataError]).
Proof. split; vm_compute; reflexivity. Qed.

(** ** The missing-name check of [get_norad_ids_from_name] *)

Lemma try_except_returns {A} (body : M A) (value : A) tr :
  exists a tr',
    try_except body (fun e => bind (emit (EvLogError e)) (fun _ => ret value)) tr
    = (Ok a, tr').
Proof.
  unfold try_except, bind, emit, ret.
  destruct (body tr) as [[a|e] tr']; eauto.
Qed.

(** C9.  When the request carries no [name], [get_norad_ids_from_name]
    raises on [None.upper()] before anything else happens: nothing is
    logged, the repository is not asked, and the result is that exception
    and not the 400 of the missing-parameter check.  That check can never
    fire: no request makes the handler end with a 400. *)
Theorem missing_name_check_unreachable env request :
  args request !! "name" = None ->
  run (get_norad_ids_from_name env request) = (Exc (AttributeError "upper"), [])
  /\ forall request' description,
       fst (run (get_norad_ids_from_name env request'))
       <> Exc (HTTPException 400 description).
Proof.
  intros Hname. split.
  - unfold run, get_norad_ids_from_name. rewrite Hname. reflexivity.
  - intros request' description.
    unfold run, get_norad_ids_from_name.
    destruct (args request' !! "name") as [name|]; [ | discriminate ].
    cbn [is_None].
    match goal with
    | |- context [try_except ?body _ []] =>
        destruct (try_except_returns body ReturnNone []) as (a & tr' & ->)
    end.
    discriminate.
Qed.

Lemma missing_name_check_unreachable_witness :
  args request_nothing !! "name" = None
  /\ run (get_norad_ids_from_name demo_env request_nothing)
     = (Exc (AttributeError "upper"), [])
  /\ forall request' description,
       fst (run (get_norad_ids_from_name demo_env request'))
       <> Exc (HTTPException 400 description).
Proof.
  assert (Hname : args request_nothing !! "name" = None) by (vm_compute; reflexivity).
  split; [exact Hname | ].
  exact (missing_name_check_unreachable demo_env request_nothing Hname).
Defined.

(** ** Element-set resolution (§4.2) *)

Section Resolver.

Local Open Scope Q_scope.

Context (date : datetime).

Lemma Qlt_bool_iff (x y : Q) : Qlt_bool x y = true <-> x < y.
Proof.
  unfold Qlt_bool. rewrite negb_true_iff.
  destruct (Qle_bool y x) eqn:Hle.
  - apply Qle_bool_iff in Hle. split; [discriminate | lra].
  - split; [ | reflexivity ]. intros _. apply Qnot_le_lt. intros H.
    apply Qle_bool_iff in H. congruence.
Qed.

Lemma preferred_true (c best : TleAccess.candidate) :
  TleAccess.preferred date c best = true ->
  TleAccess.cost date c < TleAccess.cost date best
  \/ (TleAccess.cost date c == TleAccess.cost date best
      /\ TLE.is_supplemental (fst best) = true
      /\ TLE.is_supplemental (fst c) = false).
Proof.
  unfold TleAccess.preferred. intros H.
  apply orb_true_iff in H. destruct H as [H | H].
  - left. apply Qlt_bool_iff. exact H.
  - right. apply andb_true_iff in H. destruct H as [H Hc].
    apply andb_true_iff in H. destruct H as [Heq Hbest].
    apply Qeq_bool_iff in Heq. apply negb_true_iff in Hc. auto.
Qed.

Lemma preferred_false (c best : TleAccess.candidate) :
  TleAccess.preferred date c best = false ->
  TleAccess.cost date best <= TleAccess.cost date c
  /\ (TleAccess.cost date c == TleAccess.cost date best ->
      TLE.is_supplemental (fst best) = true ->
      TLE.is_supplemental (fst c) = true).
Proof.
  unfold TleAccess.preferred. intros H.
  apply orb_false_iff in H. destruct H as [Hlt Htie]. split.
  - apply Qnot_lt_le. intros Hc. apply Qlt_bool_iff in Hc. congruence.
  - intros Heq Hbest. apply Qeq_bool_iff in Heq.
    rewrite Heq, Hbest in Htie. cbn in Htie.
    apply negb_false_iff in Htie. exact Htie.
Qed.

(** The selected candidate is one of the candidates, none is nearer, and
    it is supplemental only if every candidate just as near is. *)
Lemma select_spec (rest : list TleAccess.candidate) :
  forall best : TleAccess.candidate,
    In (TleAccess.select date best rest) (best :: rest)
    /\ (forall c, In c (best :: rest) ->
          TleAccess.cost date (TleAccess.select date best rest)
          <= TleAccess.cost date c)
    /\ (TLE.is_supplemental (fst (TleAccess.select date best rest)) = true ->
        forall c, In c (best :: rest) ->
          TleAccess.cost date c
          == TleAccess.cost date (TleAccess.select date best rest) ->
          TLE.is_supplemental (fst c) = true).
Proof.
  induction rest as [|c rest IH]; intros best; cbn [TleAccess.select].
  - split; [left; reflexivity | ]. split.
    + intros x [<- | []]. apply Qle_refl.
    + intros Hs x [<- | []] _. exact Hs.
  - destruct (TleAccess.preferred date c best) eqn:Hp.
    + destruct (IH c) as (Hin & Hmin & Hsupp).
      pose proof (Hmin c (or_introl eq_refl)) as Hr.
      apply preferred_true in Hp.
      split; [right; exact Hin | split ].
      * intros x [<- | Hx]; [ | exact (Hmin x Hx) ].
        destruct Hp as [Hp | (Hp & _)]; lra.
      * intros Hs x [<- | Hx] Heq; [ | exact (Hsupp Hs x Hx Heq) ].
        destruct Hp as [Hp | (_ & Hp & _)]; [lra | exact Hp].
    + destruct (IH best) as (Hin & Hmin & Hsupp).
      pose proof (Hmin best (or_introl eq_refl)) as Hr.
      apply preferred_false in Hp. destruct Hp as [Hle Htie].
      split; [ | split ].
      * destruct Hin as [Hin | Hin]; [left; exact Hin | right; right; exact Hin].
      * intros x [<- | [<- | Hx]].
        -- exact Hr.
        -- lra.
        -- apply Hmin. right. exact Hx.
      * intros Hs x [<- | [<- | Hx]] Heq.
        -- exact (Hsupp Hs best (or_introl eq_refl) Heq).
        -- apply Htie; [lra | ].
           apply (Hsupp Hs best (or_introl eq_refl)). lra.
        -- exact (Hsupp Hs x (or_intror Hx) Heq).
Qed.

End Resolver.

(** C3.  When two candidate element sets of the identified object have
    epochs at exactly the same absolute distance from the target time, one
    supplemental and one not, the resolver does not return the supplemental
    one: it returns a candidate, and if the two are the nearest it returns a
    primary element set at that distance; with just these two candidates it
    returns the primary one. *)
Theorem tie_break_prefers_primary
    (repository : list TleAccess.candidate) (identifier : string)
    (use_catalog_number : bool) (data_source : pyval) (date : datetime)
    (a b : TleAccess.candidate) :
  TleAccess.use_intrinsic_epoch date = false ->
  In a (TleAccess.candidates repository identifier use_catalog_number data_source) ->
  In b (TleAccess.candidates repository identifier use_catalog_number data_source) ->
  TLE.is_supplemental (fst a) = true ->
  TLE.is_supplemental (fst b) = false ->
  (Qabs (TLE.epoch (fst a) - date) == Qabs (TLE.epoch (fst b) - date))%Q ->
  exists r,
    TleAccess.get_tle repository (VStr identifier) use_catalog_number data_source date
    = Ok r
    /\ In r (TleAccess.candidates repository identifier use_catalog_number data_source)
    /\ r <> a
    /\ ((forall c,
           In c (TleAccess.candidates repository identifier use_catalog_number
                                      data_source) ->
           (Qabs (TLE.epoch (fst a) - date) <= Qabs (TLE.epoch (fst c) - date))%Q) ->
        TLE.is_supplemental (fst r) = false
        /\ (Qabs (TLE.epoch (fst r) - date) == Qabs (TLE.epoch (fst a) - date))%Q)
    /\ (TleAccess.candidates repository identifier use_catalog_number data_source
        = [a; b]
        \/ TleAccess.candidates repository identifier use_catalog_number data_source
           = [b; a] ->
        r = b).
Proof.
  intros Htarget Ha Hb Hsa Hsb Htie.
  assert (Hcost : forall c, TleAccess.cost date c = Qabs (TLE.epoch (fst c) - date)).
  { intros c. unfold TleAccess.cost. rewrite Htarget. reflexivity. }
  rewrite <- !Hcost in Htie.
  unfold TleAccess.get_tle.
  destruct (TleAccess.candidates repository identifier use_catalog_number data_source)
    as [|c0 rest] eqn:Hcands; [destruct Ha | ].
  destruct (select_spec date rest c0) as (Hin & Hmin & Hsupp).
  set (r := TleAccess.select date c0 rest) in *.
  assert (Hne : r <> a).
  { intros ->. specialize (Hsupp Hsa b Hb). 
    assert (Hq : (TleAccess.cost date b == TleAccess.cost date a)%Q)
      by (symmetry; exact Htie).
    specialize (Hsupp Hq). congruence. }
  exists r. split; [reflexivity | ]. split; [exact Hin | ]. split; [exact Hne | ].
  split.
  - intros Hnearest.
    assert (Hdist : (TleAccess.cost date r == TleAccess.cost date a)%Q).
    { apply Qle_antisym; [exact (Hmin a Ha) | ].
      rewrite !Hcost. apply Hnearest. exact Hin. }
    split; [ | rewrite <- !Hcost; exact Hdist ].
    destruct (TLE.is_supplemental (fst r)) eqn:Hsr; [ | reflexivity ].
    assert (Hq : (TleAccess.cost date b == TleAccess.cost date r)%Q).
    { rewrite Hdist. symmetry. exact Htie. }
    specialize (Hsupp eq_refl b Hb Hq). congruence.
  - intros [Hab | Hba].
    + injection Hab as -> ->. destruct Hin as [Hin | [Hin | []]]; congruence.
    + injection Hba as -> ->. destruct Hin as [Hin | [Hin | []]]; congruence.
Qed.

Lemma tie_break_prefers_primary_witness :
  TleAccess.use_intrinsic_epoch 2460193%Q = false
  /\ In (iss_supplemental, iss)
        (TleAccess.candidates (element_sets demo_snapshot) "iss (zarya)" false VNone)
  /\ In (iss_primary, iss)
        (TleAccess.candidates (element_sets demo_snapshot) "iss (zarya)" false VNone)
  /\ TLE.is_supplemental iss_supplemental = true
  /\ TLE.is_supplemental iss_primary = false
  /\ (Qabs (TLE.epoch iss_supplemental - 2460193)
      == Qabs (TLE.epoch iss_primary - 2460193))%Q
  /\ exists r,
       TleAccess.get_tle (element_sets demo_snapshot) (VStr "iss (zarya)") false
                         VNone 2460193%Q
       = Ok r
       /\ r = (iss_primary, iss).
Proof.
  assert (Htarget : TleAccess.use_intrinsic_epoch 2460193%Q = false) by reflexivity.
  assert (Hcands : TleAccess.candidates (element_sets demo_snapshot) "iss (zarya)"
                     false VNone
                   = [(iss_supplemental, iss); (iss_primary, iss)])
    by (vm_compute; reflexivity).
  assert (Ha : In (iss_supplemental, iss)
        (TleAccess.candidates (element_sets demo_snapshot) "iss (zarya)" false VNone))
    by (rewrite Hcands; left; reflexivity).
  assert (Hb : In (iss_primary, iss)
        (TleAccess.candidates (element_sets demo_snapshot) "iss (zarya)" false VNone))
    by (rewrite Hcands; right; left; reflexivity).
  assert (Htie : (Qabs (TLE.epoch iss_supplemental - 2460193)
      == Qabs (TLE.epoch iss_primary - 2460193))%Q) by reflexivity.
  split; [exact Htarget | ]. split; [exact Ha | ]. split; [exact Hb | ].
  split; [reflexivity | ]. split; [reflexivity | ]. split; [exact Htie | ].
  destruct (tie_break_prefers_primary (element_sets demo_snapshot) "iss (zarya)"
              false VNone 2460193%Q (iss_supplemental, iss) (iss_primary, iss)
              Htarget Ha Hb eq_refl eq_refl Htie)
    as (r & Hr & _ & _ & _ & Hpair).
  exists r. split; [exact Hr | ]. apply Hpair. left. exact Hcands.
Defined.

(** ** Element-set parsing (§4.3) *)

Lemma split_on_nonempty sep l : split_on sep l <> [].
Proof.
  destruct l as [|c l]; cbn [split_on]; [discriminate | ].
  destruct (Ascii.eqb c sep); [discriminate | ].
  destruct (split_on sep l); discriminate.
Qed.

Lemma split_on_clean sep l : ~ In sep l -> split_on sep l = [l].
Proof.
  induction l as [|c l IH]; intros Hsep; cbn [split_on]; [reflexivity | ].
  destruct (Ascii.eqb c sep) eqn:Hc.
  - apply Ascii.eqb_eq in Hc. subst c. exfalso. apply Hsep. left. reflexivity.
  - rewrite IH; [reflexivity | ]. intros Hin. apply Hsep. right. exact Hin.
Qed.

Lemma split_on_app sep a b :
  split_on sep (a ++ sep :: b) = split_on sep a ++ split_on sep b.
Proof.
  induction a as [|c a IH]; cbn [app split_on].
  - rewrite Ascii.eqb_refl. reflexivity.
  - destruct (Ascii.eqb c sep); [rewrite IH; reflexivity | ].
    rewrite IH.
    pose proof (split_on_nonempty sep a) as Hne.
    destruct (split_on sep a) as [|cur rest]; [contradiction | reflexivity].
Qed.

(** What the lines of a text say about the text. *)
Lemma split_on_two sep l l1 l2 :
  split_on sep l = [l1; l2] ->
  l = l1 ++ sep :: l2 /\ ~ In sep l1 /\ ~ In sep l2.
Proof.
  revert l1. induction l as [|c l IH]; intros l1 H; cbn [split_on] in H;
    [discriminate | ].
  destruct (Ascii.eqb c sep) eqn:Hc.
  - apply Ascii.eqb_eq in Hc. subst c. injection H as <- H.
    assert (Hclean : ~ In sep l).
    { intros Hin. apply in_split in Hin. destruct Hin as (x & y & ->).
      rewrite split_on_app in H.
      pose proof (split_on_nonempty sep x). pose proof (split_on_nonempty sep y).
      apply (f_equal length) in H. rewrite length_app in H.
      destruct (split_on sep x), (split_on sep y); try contradiction.
      cbn [length] in H. lia. }
    rewrite (split_on_clean sep l Hclean) in H. injection H as <-.
    split; [reflexivity | ]. split; [intros [] | exact Hclean].
  - destruct (split_on sep l) as [|cur rest] eqn:Hl; [discriminate | ].
    injection H as <- ->.
    destruct (IH cur eq_refl) as (-> & H1 & H2).
    split; [reflexivity | ]. split; [ | exact H2 ].
    intros [-> | Hin]; [ rewrite Ascii.eqb_refl in Hc; discriminate | auto ].
Qed.

Lemma split_on_three sep l l0 l1 l2 :
  split_on sep l = [l0; l1; l2] ->
  l = l0 ++ sep :: l1 ++ sep :: l2 /\ ~ In sep l0 /\ ~ In sep l1 /\ ~ In sep l2.
Proof.
  revert l0. induction l as [|c l IH]; intros l0 H; cbn [split_on] in H;
    [discriminate | ].
  destruct (Ascii.eqb c sep) eqn:Hc.
  - apply Ascii.eqb_eq in Hc. subst c. injection H as <- H.
    apply split_on_two in H. destruct H as (-> & H1 & H2).
    split; [reflexivity | ]. split; [intros [] | auto].
  - destruct (split_on sep l) as [|cur rest] eqn:Hl; [discriminate | ].
    injection H as <- ->.
    destruct (IH cur eq_refl) as (-> & H0 & H1 & H2).
    split; [reflexivity | ]. split; [ | auto ].
    intros [-> | Hin]; [ rewrite Ascii.eqb_refl in Hc; discriminate | auto ].
Qed.

Lemma digit_of_ascii_inj c d v :
  digit_of_ascii c = Some v -> digit_of_ascii d = Some v -> c = d.
Proof.
  unfold digit_of_ascii. intros Hc Hd.
  destruct ((48 <=? nat_of_ascii c)%nat && (nat_of_ascii c <=? 57)%nat) eqn:Ec;
    [ | discriminate ].
  destruct ((48 <=? nat_of_ascii d)%nat && (nat_of_ascii d <=? 57)%nat) eqn:Ed;
    [ | discriminate ].
  apply andb_true_iff in Ec, Ed. destruct Ec as [Ec _], Ed as [Ed _].
  apply Nat.leb_le in Ec, Ed.
  injection Hc as Hc. injection Hd as Hd.
  assert (Heq : nat_of_ascii c = nat_of_ascii d) by lia.
  rewrite <- (ascii_nat_embedding c), <- (ascii_nat_embedding d), Heq. reflexivity.
Qed.

Lemma parse_lines_rejects now name line1 line2 :
  length line1 <> 69%nat \/ length line2 <> 69%nat
  \/ TleAccess.checksum_ok line1 = false \/ TleAccess.checksum_ok line2 = false ->
  exists reason,
    TleAccess.parse_lines now name line1 line2 = Exc (MalformedElementSetError reason).
Proof.
  intros Hbad. unfold TleAccess.parse_lines, TleAccess.malformed.
  repeat match goal with
         | |- context [if negb ?b then _ else _] =>
             destruct b eqn:?; cbn [negb]; [ | eexists; reflexivity ]
         end.
  exfalso.
  repeat match goal with
         | H : _ && _ = true |- _ => apply andb_true_iff in H; destruct H
         | H : Nat.eqb _ _ = true |- _ => apply Nat.eqb_eq in H
         end.
  destruct Hbad as [Hbad | [Hbad | [Hbad | Hbad]]]; congruence.
Qed.

Lemma parse_lines_accepts now name line1 line2 tle :
  TleAccess.parse_lines now name line1 line2 = Ok tle ->
  length line1 = 69%nat /\ length line2 = 69%nat
  /\ TleAccess.checksum_ok line1 = true /\ TleAccess.checksum_ok line2 = true.
Proof.
  unfold TleAccess.parse_lines, TleAccess.malformed.
  repeat match goal with
         | |- context [if negb ?b then _ else _] =>
             destruct b eqn:?; cbn [negb]; [ | discriminate ]
         end.
  intros _.
  repeat match goal with
         | H : _ && _ = true |- _ => apply andb_true_iff in H; destruct H
         | H : Nat.eqb _ _ = true |- _ => apply Nat.eqb_eq in H
         end.
  auto.
Qed.

(** Replacing the check digit of an accepted line by another character
    leaves either one line whose checksum is wrong, or, when the character is
    a line break, a line of 68 columns followed by an empty one. *)
Lemma mutated_check_digit (line : list ascii) (c : ascii) :
  length line = 69%nat ->
  ~ In newline line ->
  TleAccess.checksum_ok line = true ->
  line !! 68%nat <> Some c ->
  (split_on newline (<[68%nat := c]> line) = [<[68%nat := c]> line]
   /\ length (<[68%nat := c]> line) = 69%nat
   /\ TleAccess.checksum_ok (<[68%nat := c]> line) = false)
  \/ (split_on newline (<[68%nat := c]> line) = [take 68 line; []]
      /\ length (take 68 line) = 68%nat).
Proof.
  intros Hlen Hclean Hsum Hc.
  assert (Hshape : <[68%nat := c]> line = take 68 line ++ [c]).
  { rewrite <- (take_drop 68 line) at 1.
    rewrite insert_app_r_alt by (rewrite length_take; lia).
    rewrite length_take, Hlen. cbn [Nat.min Nat.sub].
    replace (68 `min` 69 - 68 `min` 69)%nat with 0%nat by lia. 
    destruct (drop 68 line) as [|d [|d' rest]] eqn:Hdrop.
    - apply (f_equal length) in Hdrop. rewrite length_drop in Hdrop. cbn in Hdrop. lia.
    - reflexivity.
    - apply (f_equal length) in Hdrop. rewrite length_drop in Hdrop. cbn in Hdrop. lia. }
  assert (Hprefix : ~ In newline (take 68 line)).
  { intros Hin. apply Hclean. rewrite <- (take_drop 68 line).
    apply in_or_app. left. exact Hin. }
  destruct (Ascii.eqb c newline) eqn:Hnl.
  - right. apply Ascii.eqb_eq in Hnl. subst c. rewrite Hshape.
    rewrite split_on_app, (split_on_clean _ _ Hprefix). cbn [split_on app].
    split; [reflexivity | ]. rewrite length_take. lia.
  - left. split; [ | split ].
    + apply split_on_clean. rewrite Hshape. intros Hin.
      apply in_app_or in Hin. destruct Hin as [Hin | [Heq | []]]; [auto | ].
      rewrite Heq, Ascii.eqb_refl in Hnl. discriminate.
    + rewrite length_insert. exact Hlen.
    + unfold TleAccess.checksum_ok in *.
      rewrite list_lookup_insert_eq by lia.
      rewrite take_insert_ge by lia.
      destruct (line !! 68%nat) as [d|] eqn:Hd; [ | discriminate ].
      destruct (digit_of_ascii d) as [v|] eqn:Hv; [ | discriminate ].
      apply Z.eqb_eq in Hsum. subst v.
      destruct (digit_of_ascii c) as [v'|] eqn:Hv'; [ | reflexivity ].
      apply Z.eqb_neq. intros ->.
      apply Hc. f_equal. exact (digit_of_ascii_inj d c _ Hv Hv').
Qed.

Lemma lookup_check_digit (pre line post : list ascii) :
  length line = 69%nat ->
  (pre ++ newline :: line ++ post) !! (length pre + 1 + 68)%nat = line !! 68%nat.
Proof.
  intros Hlen.
  rewrite lookup_app_r by lia.
  replace (length pre + 1 + 68 - length pre)%nat with 69%nat by lia.
  cbn [lookup list_lookup]. apply lookup_app_l. lia.
Qed.

Lemma insert_check_digit (pre line post : list ascii) (c : ascii) :
  length line = 69%nat ->
  <[(length pre + 1 + 68)%nat := c]> (pre ++ newline :: line ++ post)
  = pre ++ newline :: <[68%nat := c]> line ++ post.
Proof.
  intros Hlen.
  rewrite insert_app_r_alt by lia.
  replace (length pre + 1 + 68 - length pre)%nat with 69%nat by lia.
  change (<[69%nat := c]> (newline :: line ++ post))
    with (newline :: <[68%nat := c]> (line ++ post)).
  rewrite insert_app_l by lia. reflexivity.
Qed.

(** C4.  For every element text the parser accepts, replacing the check
    digit of either element line by any other character makes parsing fail
    with [MalformedElementSetError]: the parser checks the mod-10 checksum
    of each line. *)
Theorem checksum_mutation_rejected (now : datetime) (text : string)
    (tle : UserTLE.t) (i : nat) (c : ascii) :
  TleAccess.parse_tle now (VStr text) = Ok tle ->
  In i (checksum_positions text) ->
  list_ascii_of_string text !! i <> Some c ->
  exists reason,
    TleAccess.parse_tle now (VStr (mutate i c text))
    = Exc (MalformedElementSetError reason).
Proof.
  unfold TleAccess.parse_tle, checksum_positions, mutate.
  rewrite list_ascii_of_string_of_list_ascii.
  set (chars := list_ascii_of_string text).
  destruct (split_on newline chars) as [|l0 [|l1 [|l2 [|l3 rest]]]] eqn:Hsplit;
    try discriminate.
  - (* two lines *)
    intros Hparse Hpos Hc.
    apply split_on_two in Hsplit. destruct Hsplit as (Htext & Hclean0 & Hclean1).
    apply parse_lines_accepts in Hparse.
    destruct Hparse as (Hlen0 & Hlen1 & Hsum0 & Hsum1).
    destruct Hpos as [<- | [<- | []]].
    + assert (Hc0 : l0 !! 68%nat <> Some c).
      { rewrite Htext, lookup_app_l in Hc by lia. exact Hc. }
      rewrite Htext, insert_app_l by lia.
      rewrite split_on_app, (split_on_clean _ _ Hclean1).
      destruct (mutated_check_digit l0 c Hlen0 Hclean0 Hsum0 Hc0)
        as [(-> & _ & Hbad) | (-> & Hshort)]; cbn [app].
      * apply parse_lines_rejects. auto.
      * apply parse_lines_rejects. left. cbn [length]. lia.
    + assert (Hc1 : l1 !! 68%nat <> Some c).
      { rewrite <- (lookup_check_digit l0 l1 [] Hlen1).
        rewrite app_nil_r, Hlen0, <- Htext. exact Hc. }
      rewrite Htext, <- (app_nil_r l1), <- Hlen0.
      rewrite (insert_check_digit l0 l1 [] c Hlen1), app_nil_r.
      rewrite split_on_app, (split_on_clean _ _ Hclean0).
      destruct (mutated_check_digit l1 c Hlen1 Hclean1 Hsum1 Hc1)
        as [(-> & _ & Hbad) | (-> & Hshort)]; cbn [app].
      * apply parse_lines_rejects. auto.
      * apply parse_lines_rejects. left. lia.
  - (* a name line and two lines *)
    intros Hparse Hpos Hc.
    apply split_on_three in Hsplit.
    destruct Hsplit as (Htext & Hclean0 & Hclean1 & Hclean2).
    apply parse_lines_accepts in Hparse.
    destruct Hparse as (Hlen1 & Hlen2 & Hsum1 & Hsum2).
    destruct Hpos as [<- | [<- | []]].
    + assert (Hc1 : l1 !! 68%nat <> Some c).
      { rewrite <- (lookup_check_digit l0 l1 (newline :: l2) Hlen1), <- Htext.
        exact Hc. }
      rewrite Htext, (insert_check_digit l0 l1 (newline :: l2) c Hlen1).
      rewrite split_on_app, (split_on_clean _ _ Hclean0).
      rewrite split_on_app, (split_on_clean _ _ Hclean2).
      destruct (mutated_check_digit l1 c Hlen1 Hclean1 Hsum1 Hc1)
        as [(-> & _ & Hbad) | (-> & Hshort)]; cbn [app].
      * apply parse_lines_rejects. auto.
      * eexists. reflexivity.
    + assert (Hpre : (length l0 + 1 + 69 + 1 + 68
                      = length (l0 ++ newline :: l1) + 1 + 68)%nat).
      { rewrite length_app. cbn [length]. lia. }
      assert (Htext' : chars = (l0 ++ newline :: l1) ++ newline :: l2 ++ []).
      { rewrite Htext, app_nil_r, <- app_assoc. reflexivity. }
      assert (Hc2 : l2 !! 68%nat <> Some c).
      { rewrite <- (lookup_check_digit (l0 ++ newline :: l1) l2 [] Hlen2).
        rewrite <- Htext', <- Hpre. exact Hc. }
      rewrite Hpre, Htext'.
      rewrite (insert_check_digit (l0 ++ newline :: l1) l2 [] c Hlen2), app_nil_r.
      rewrite <- app_assoc. cbn [app].
      rewrite split_on_app, (split_on_clean _ _ Hclean0).
      rewrite split_on_app, (split_on_clean _ _ Hclean1).
      destruct (mutated_check_digit l2 c Hlen2 Hclean2 Hsum2 Hc2)
        as [(-> & _ & Hbad) | (-> & Hshort)]; cbn [app].
      * apply parse_lines_rejects. auto.
      * eexists. reflexivity.
Qed.

Lemma checksum_mutation_rejected_witness :
  TleAccess.parse_tle 0%Q (VStr iss_two_lines)
  = Ok {| UserTLE.tle_line1 := iss_line1;
          UserTLE.tle_line2 := iss_line2;
          UserTLE.date_collected := 0%Q;
          UserTLE.name := VNone;
          UserTLE.catalog := "25544" |}
  /\ In 68%nat (checksum_positions iss_two_lines)
  /\ list_ascii_of_string iss_two_lines !! 68%nat <> Some "0"%char
  /\ exists reason,
       TleAccess.parse_tle 0%Q (VStr (mutate 68 "0" iss_two_lines))
       = Exc (MalformedElementSetError reason).
Proof.
  assert (Hparse : TleAccess.parse_tle 0%Q (VStr iss_two_lines)
    = Ok {| UserTLE.tle_line1 := iss_line1;
            UserTLE.tle_line2 := iss_line2;
            UserTLE.date_collected := 0%Q;
            UserTLE.name := VNone;
            UserTLE.catalog := "25544" |}) by (vm_compute; reflexivity).
  assert (Hpos : In 68%nat (checksum_positions iss_two_lines))
    by (vm_compute; left; reflexivity).
  assert (Hc : list_ascii_of_string iss_two_lines !! 68%nat <> Some "0"%char)
    by (vm_compute; discriminate).
  split; [exact Hparse | ]. split; [exact Hpos | ]. split; [exact Hc | ].
  exact (checksum_mutation_rejected 0%Q iss_two_lines _ 68 "0" Hparse Hpos Hc).
Defined.

(** ** Anatomy of the ephemeris routes *)

Lemma getitem_ok (p : gmap string pyval) key tr v tr' :
  getitem p key tr = (Ok v, tr') -> tr' = tr /\ p !! key = Some v.
Proof.
  unfold getitem, ret, raise. destruct (p !! key); intros H;
    [injection H as <- <- | discriminate].
  split; reflexivity.
Qed.

(** What a finished step did to the log, and what it returned. *)
Ltac info_step E :=
  first
    [ apply call_inv in E; destruct E as [E ?]; subst
    | apply getitem_ok in E; destruct E as [-> E]
    | apply first_item_ok in E; destruct E as [-> E]
    | apply to_datetime_of_inv in E; destruct E as [-> E]
    | apply julian_date_of_ok in E; destruct E as (-> & ? & ? & ?)
    | apply silent_inv in E; [subst | solve [auto with silent]] ].

Ltac bind_info H :=
  match type of H with
  | bind ?m ?k ?tr = _ =>
      let E := fresh "E" in
      let a := fresh "a" in
      let e := fresh "e" in
      let tr' := fresh "tr" in
      destruct (m tr) as [[a|e] tr'] eqn:E;
      [ rewrite (bind_ok m k tr a tr' E) in H
      | rewrite (bind_exc m k tr e tr' E) in H ];
      info_step E; cbn [app] in H
  end.

(** Walk a handler to each of its ends: [stop] closes the goal where the
    handler raised, [finish] where it made its last call. *)
Ltac walk H stop finish :=
  repeat first
    [ bind_info H; [ | solve [stop H] ]
    | match type of H with
      | (if ?c then _ else _) _ = _ =>
          destruct c eqn:?;
          [ unfold emit, abort, raise, bind in H; cbn [app] in H; solve [stop H] | ]
      end ];
  finish H.

Ltac pick_event := repeat first [ left; reflexivity | right ].

Ltac validated_here :=
  unfold validated; eexists _, _;
  split; [ right; left; reflexivity | symmetry; eassumption ].

Ltac each_event Hin :=
  cbn [In] in Hin;
  repeat (destruct Hin as [Hin | Hin]; [ try discriminate Hin | ]);
  try (exfalso; exact Hin).

Ltac lookup_facts :=
  let Hin := fresh "Hin" in
  intros ? ? ? ? Hin; each_event Hin;
  (injection Hin as <- <- <- <-;
   split; [ reflexivity | eexists; split; [ validated_here | split; eassumption ] ]).

Ltac propagate_facts :=
  let Hin := fresh "Hin" in
  intros ? Hin; each_event Hin;
  (injection Hin as <-;
   eexists _, _, _, _, _;
   split; [ pick_event | ];
   split; [ symmetry; eassumption | ];
   cbn [pa_jd pa_tle_line1 pa_tle_line2 pa_date_collected pa_catalog_id pa_name
        pa_data_source pa_location pa_min_altitude pa_max_altitude];
   split; [ eexists; split; [ first [ reflexivity | eassumption ] | eassumption ] | ];
   do 4 (split; [ reflexivity | ]);
   split; [ first [ reflexivity | congruence ] | ];
   split; [ first [ reflexivity | congruence ] | ];
   split; [ validated_here | ];
   repeat split; eassumption).

Ltac never_parsed :=
  let Hin := fresh "Hin" in
  intros ? Hin; each_event Hin.

Ltac anatomy_stop H :=
  injection H as <- <-;
  split; [ lookup_facts | split; [ propagate_facts | split; [ never_parsed | ] ] ];
  intros ? ?; discriminate.

Ltac anatomy_finish H :=
  apply call_inv in H; destruct H as [-> ->]; cbn [app];
  split; [ lookup_facts | split; [ propagate_facts | split; [ never_parsed | ] ] ];
  intros resp Hresp; eexists; split; [ reflexivity | exact Hresp ].

Lemma anatomy_name env request r tr :
  run (get_ephemeris_by_name env request) = (r, tr) ->
  repository_anatomy env false "name" r tr.
Proof.
  intros H. unfold get_ephemeris_by_name in H. unfold_calls H.
  walk H anatomy_stop anatomy_finish.
Qed.

Lemma anatomy_name_jdstep env request r tr :
  run (get_ephemeris_by_name_jdstep env request) = (r, tr) ->
  repository_anatomy env false "name" r tr.
Proof.
  intros H. unfold get_ephemeris_by_name_jdstep in H. unfold_calls H.
  walk H anatomy_stop anatomy_finish.
Qed.

Lemma anatomy_catalog env request r tr :
  run (get_ephemeris_by_catalog_number env request) = (r, tr) ->
  repository_anatomy env true "catalog" r tr.
Proof.
  intros H. unfold get_ephemeris_by_catalog_number in H. unfold_calls H.
  walk H anatomy_stop anatomy_finish.
Qed.

Lemma anatomy_catalog_jdstep env request r tr :
  run (get_ephemeris_by_catalog_number_jdstep env request) = (r, tr) ->
  repository_anatomy env true "catalog" r tr.
Proof.
  intros H. unfold get_ephemeris_by_catalog_number_jdstep in H. unfold_calls H.
  walk H anatomy_stop anatomy_finish.
Qed.

Lemma anatomy_routes env flag key h request r tr :
  In (flag, key, h) (repository_routes env) ->
  run (h request) = (r, tr) ->
  repository_anatomy env flag key r tr.
Proof.
  intros [E | [E | [E | [E | []]]]]; injection E as <- <- <-.
  - apply anatomy_name.
  - apply anatomy_name_jdstep.
  - apply anatomy_catalog.
  - apply anatomy_catalog_jdstep.
Qed.

Ltac grid_here :=
  unfold generated_grid; eexists _, _, _;
  split; [ pick_event | symmetry; eassumption ].

Ltac grid_facts :=
  split;
  [ let Hin := fresh "Hin" in
    intros ? ? ? ? Hin; each_event Hin;
    (injection Hin as <- <- <- <-; eexists _, _;
     split; [ grid_here | split; eassumption ])
  | let Hin := fresh "Hin" in
    intros ? Hin; each_event Hin;
    (injection Hin as <-; cbn [pa_jd]; grid_here) ].

Ltac grid_stop H := injection H as <- <-; grid_facts.

Ltac grid_finish H :=
  apply call_inv in H; destruct H as [-> ->]; cbn [app]; grid_facts.

Lemma grid_facts_name env request r tr :
  run (get_ephemeris_by_name_jdstep env request) = (r, tr) ->
  batch_grid_facts env tr.
Proof.
  intros H. unfold get_ephemeris_by_name_jdstep in H. unfold_calls H.
  walk H grid_stop grid_finish.
Qed.

Lemma grid_facts_catalog env request r tr :
  run (get_ephemeris_by_catalog_number_jdstep env request) = (r, tr) ->
  batch_grid_facts env tr.
Proof.
  intros H. unfold get_ephemeris_by_catalog_number_jdstep in H. unfold_calls H.
  walk H grid_stop grid_finish.
Qed.

Lemma grid_facts_tle env request r tr :
  run (get_ephemeris_by_tle_jdstep env request) = (r, tr) ->
  batch_grid_facts env tr.
Proof.
  intros H. unfold get_ephemeris_by_tle_jdstep in H. unfold_calls H.
  walk H grid_stop grid_finish.
Qed.

Lemma grid_facts_routes env h request r tr :
  In h (jdstep_routes env) ->
  run (h request) = (r, tr) ->
  batch_grid_facts env tr.
Proof.
  intros [<- | [<- | [<- | []]]].
  - apply grid_facts_name.
  - apply grid_facts_catalog.
  - apply grid_facts_tle.
Qed.

Ltac parsed_facts :=
  let Hin := fresh "Hin" in
  intros ? Hin; each_event Hin;
  (injection Hin as <-;
   eexists _, _, _;
   split; [ pick_event | ];
   split; [ symmetry; eassumption | ];
   split; [ validated_here | ];
   cbn [pa_jd pa_tle_line1 pa_tle_line2 pa_date_collected pa_catalog_id pa_name
        pa_data_source pa_location pa_min_altitude pa_max_altitude];
   split; [ eassumption | ];
   do 5 (split; [ reflexivity | ]);
   repeat split; eassumption).

Ltac no_repository :=
  let Hin := fresh "Hin" in
  intros ? Hin; cbn [In] in Hin;
  repeat (destruct Hin as [<- | Hin]; [ reflexivity | ]);
  exfalso; exact Hin.

Ltac tle_stop H :=
  injection H as <- <-;
  split; [ parsed_facts | split; [ no_repository | ] ];
  intros ? ?; discriminate.

Ltac tle_finish H :=
  apply call_inv in H; destruct H as [-> ->]; cbn [app];
  split; [ parsed_facts | split; [ no_repository | ] ];
  intros resp Hresp; eexists; split; [ reflexivity | exact Hresp ].

Lemma anatomy_tle env request r tr :
  run (get_ephemeris_by_tle env request) = (r, tr) -> tle_anatomy env r tr.
Proof.
  intros H. unfold get_ephemeris_by_tle in H. unfold_calls H.
  walk H tle_stop tle_finish.
Qed.

Lemma anatomy_tle_jdstep env request r tr :
  run (get_ephemeris_by_tle_jdstep env request) = (r, tr) -> tle_anatomy env r tr.
Proof.
  intros H. unfold get_ephemeris_by_tle_jdstep in H. unfold_calls H.
  walk H tle_stop tle_finish.
Qed.

Lemma anatomy_tle_routes env h request r tr :
  In h (tle_routes env) ->
  run (h request) = (r, tr) ->
  tle_anatomy env r tr.
Proof.
  intros [<- | [<- | []]].
  - apply anatomy_tle.
  - apply anatomy_tle_jdstep.
Qed.

(** ** What the ephemeris routes ask for, and what they pass on *)

(** X1.  The name routes look the element set up by name (flag [False])
    and the catalog routes by catalog number (flag [True]); the identifier
    and the data-source preference of the lookup are the validated request
    parameters, unchanged. *)
Theorem lookup_arguments env flag key h request
    identifier use_catalog_number data_source date :
  In (flag, key, h) (repository_routes env) ->
  In (EvGetTle identifier use_catalog_number data_source date)
     (snd (run (h request))) ->
  use_catalog_number = flag
  /\ exists p,
       validated env (snd (run (h request))) p
       /\ p !! key = Some identifier
       /\ p !! "data_source" = Some data_source.
Proof.
  intros Hh Hin.
  destruct (run (h request)) as [r tr] eqn:Hrun. cbn [snd] in *.
  destruct (anatomy_routes env flag key h request r tr Hh Hrun) as (Hlookup & _).
  exact (Hlookup _ _ _ _ Hin).
Qed.

Lemma lookup_arguments_witness :
  In (false, "name", get_ephemeris_by_name_jdstep demo_env) (repository_routes demo_env)
  /\ In (EvGetTle (VStr "ISS (ZARYA)") false (VStr "spacetrack") 2460193%Q)
        (snd (run (get_ephemeris_by_name_jdstep demo_env request_batch)))
  /\ exists p,
       validated demo_env
         (snd (run (get_ephemeris_by_name_jdstep demo_env request_batch))) p
       /\ p !! "name" = Some (VStr "ISS (ZARYA)")
       /\ p !! "data_source" = Some (VStr "spacetrack").
Proof.
  assert (Hh : In (false, "name", get_ephemeris_by_name_jdstep demo_env)
                  (repository_routes demo_env)) by (right; left; reflexivity).
  assert (Hin : In (EvGetTle (VStr "ISS (ZARYA)") false (VStr "spacetrack") 2460193%Q)
        (snd (run (get_ephemeris_by_name_jdstep demo_env request_batch)))).
  { vm_compute. do 3 right. left. reflexivity. }
  split; [exact Hh | ]. split; [exact Hin | ].
  exact (proj2 (lookup_arguments demo_env false "name" _ request_batch _ _ _ _ Hh Hin)).
Defined.

(** X2.  What a repository route hands to the engine is what the resolver
    returned for the [datetime] of the first sample of the grid: the two element lines, the
    collection date and the stored catalog number of that element set.  The
    name is the request's on a name route and the stored one on a catalog
    route; observer, altitude limits and data source are the validated
    parameters. *)
Theorem engine_gets_resolved_elements env flag key h request a :
  In (flag, key, h) (repository_routes env) ->
  In (EvPropagate a) (snd (run (h request))) ->
  exists identifier data_source date c p,
    In (EvGetTle identifier flag data_source date) (snd (run (h request)))
    /\ get_tle env identifier flag data_source date = Ok c
    /\ (exists jd_0,
          head (pa_jd a) = Some jd_0 /\ to_datetime env jd_0 = Ok date)
    /\ pa_tle_line1 a = TLE.tle_line1 (fst c)
    /\ pa_tle_line2 a = TLE.tle_line2 (fst c)
    /\ pa_date_collected a = TLE.date_collected (fst c)
    /\ pa_catalog_id a = VStr (Satellite.sat_number (snd c))
    /\ pa_name a = (if flag then VStr (Satellite.sat_name (snd c)) else identifier)
    /\ pa_data_source a = data_source
    /\ validated env (snd (run (h request))) p
    /\ p !! "location" = Some (pa_location a)
    /\ p !! "min_altitude" = Some (pa_min_altitude a)
    /\ p !! "max_altitude" = Some (pa_max_altitude a).
Proof.
  intros Hh Hin.
  destruct (run (h request)) as [r tr] eqn:Hrun. cbn [snd] in *.
  destruct (anatomy_routes env flag key h request r tr Hh Hrun) as (_ & Hprop & _).
  exact (Hprop a Hin).
Qed.

Lemma engine_gets_resolved_elements_witness :
  In (true, "catalog", get_ephemeris_by_catalog_number demo_env)
     (repository_routes demo_env)
  /\ In (EvPropagate (args_of (run (get_ephemeris_by_catalog_number demo_env
                                      request_catalog))))
        (snd (run (get_ephemeris_by_catalog_number demo_env request_catalog)))
  /\ exists identifier data_source date c,
       get_tle demo_env identifier true data_source date = Ok c
       /\ pa_catalog_id (args_of (run (get_ephemeris_by_catalog_number demo_env
                                         request_catalog)))
          = VStr (Satellite.sat_number (snd c))
       /\ pa_name (args_of (run (get_ephemeris_by_catalog_number demo_env
                                   request_catalog)))
          = VStr (Satellite.sat_name (snd c)).
Proof.
  assert (Hh : In (true, "catalog", get_ephemeris_by_catalog_number demo_env)
                  (repository_routes demo_env)) by (do 2 right; left; reflexivity).
  assert (Hin : In (EvPropagate (args_of (run (get_ephemeris_by_catalog_number demo_env
                                      request_catalog))))
        (snd (run (get_ephemeris_by_catalog_number demo_env request_catalog)))).
  { vm_compute. do 3 right. left. reflexivity. }
  split; [exact Hh | ]. split; [exact Hin | ].
  destruct (engine_gets_resolved_elements demo_env true "catalog" _ _ _ Hh Hin)
    as (identifier & data_source & date & c & p
        & _ & Hc & _ & _ & _ & _ & Hid & Hname & _).
  exists identifier, data_source, date, c.
  split; [exact Hc | ]. split; [exact Hid | exact Hname].
Defined.

(** X3.  In a batch route the element set is resolved for the [datetime]
    of the first sample of the generated time grid, and the grid handed to
    the engine is the generated grid itself. *)
Theorem batch_grid_is_propagated env h request :
  In h (jdstep_routes env) ->
  (forall identifier use_catalog_number data_source date,
     In (EvGetTle identifier use_catalog_number data_source date)
        (snd (run (h request))) ->
     exists jd jd_0,
       generated_grid env (snd (run (h request))) jd
       /\ head jd = Some jd_0
       /\ to_datetime env jd_0 = Ok date)
  /\ (forall a, In (EvPropagate a) (snd (run (h request))) ->
        generated_grid env (snd (run (h request))) (pa_jd a)).
Proof.
  intros Hh.
  destruct (run (h request)) as [r tr] eqn:Hrun. cbn [snd].
  exact (grid_facts_routes env h request r tr Hh Hrun).
Qed.

Lemma batch_grid_is_propagated_witness :
  In (get_ephemeris_by_name_jdstep demo_env) (jdstep_routes demo_env)
  /\ In (EvGetTle (VStr "ISS (ZARYA)") false (VStr "spacetrack") 2460193%Q)
        (snd (run (get_ephemeris_by_name_jdstep demo_env request_batch)))
  /\ exists jd jd_0,
       generated_grid demo_env
         (snd (run (get_ephemeris_by_name_jdstep demo_env request_batch))) jd
       /\ head jd = Some jd_0
       /\ to_datetime demo_env jd_0 = Ok 2460193%Q.
Proof.
  assert (Hh : In (get_ephemeris_by_name_jdstep demo_env) (jdstep_routes demo_env))
    by (left; reflexivity).
  assert (Hin : In (EvGetTle (VStr "ISS (ZARYA)") false (VStr "spacetrack") 2460193%Q)
        (snd (run (get_ephemeris_by_name_jdstep demo_env request_batch)))).
  { vm_compute. do 3 right. left. reflexivity. }
  split; [exact Hh | ]. split; [exact Hin | ].
  exact (proj1 (batch_grid_is_propagated demo_env _ request_batch Hh) _ _ _ _ Hin).
Defined.

Lemma generated_grid_unique env h request r tr jd jd' :
  In h (jdstep_routes env) ->
  run (h request) = (r, tr) ->
  generated_grid env tr jd ->
  generated_grid env tr jd' ->
  jd = jd'.
Proof.
  intros Hh Hrun (a & b & dr & Hin & Hgrid) (a' & b' & dr' & Hin' & Hgrid').
  apply (batch_shape_routes env h request r tr Hh) in Hrun.
  destruct Hrun as [(_ & Hnone & _) | Hrun]; [ exfalso; eapply Hnone; exact Hin | ].
  destruct Hrun as (keys & required & p0 & p & jd0 & jd1 & jds & _ & _ & _ & Hafter).
  destruct (after_grid_unique _ _ _ _ _ _ _ _ _ _ _ _ _ Hafter Hin) as (-> & -> & ->).
  destruct (after_grid_unique _ _ _ _ _ _ _ _ _ _ _ _ _ Hafter Hin') as (-> & -> & ->).
  congruence.
Qed.

(** X4.  When the time grid comes back empty, the name and the catalog
    batch routes fail on [jd[0]] (or on a parameter access before it): no
    response is returned, and nothing is looked up or propagated. *)
Theorem empty_grid_fails_before_lookup env flag key h request :
  In (flag, key, h) (repository_routes env) ->
  In h (jdstep_routes env) ->
  generated_grid env (snd (run (h request))) [] ->
  (fst (run (h request)) = Exc IndexError
   \/ exists k, fst (run (h request)) = Exc (KeyError k))
  /\ no_engine_call (snd (run (h request))).
Proof.
  intros Hrepo Hh Hempty.
  destruct (run (h request)) as [r tr] eqn:Hrun. cbn [fst snd] in *.
  assert (Hlookup : forall identifier f data_source date,
            ~ In (EvGetTle identifier f data_source date) tr).
  { intros identifier f data_source date Hin.
    destruct (proj1 (grid_facts_routes env h request r tr Hh Hrun) _ _ _ _ Hin)
      as (jd & jd_0 & Hjd & Hhead & _).
    rewrite (generated_grid_unique env h request r tr _ _ Hh Hrun Hjd Hempty) in Hhead.
    discriminate. }
  pose proof (anatomy_routes env flag key h request r tr Hrepo Hrun)
    as (_ & Hprop & Hparse & _).
  assert (Hquiet : no_engine_call tr).
  { intros ev Hev. destruct ev; try reflexivity; exfalso.
    - eapply Hlookup. exact Hev.
    - eapply Hparse. exact Hev.
    - destruct (Hprop _ Hev) as (i & d & t & c & p & Hin & _).
      eapply Hlookup. exact Hin. }
  split; [ | exact Hquiet ].
  destruct Hempty as (a & b & dr & Hin & Hgrid).
  apply (batch_shape_routes env h request r tr Hh) in Hrun.
  destruct Hrun as [(_ & Hnone & _) | Hrun]; [ exfalso; eapply Hnone; exact Hin | ].
  destruct Hrun as (keys & required & p0 & p & jd0 & jd1 & jds & _ & _ & _ & Hafter).
  destruct (after_grid_unique _ _ _ _ _ _ _ _ _ _ _ _ _ Hafter Hin) as (-> & -> & ->).
  destruct Hafter as (tail & -> & _ & Hend).
  rewrite Hgrid in Hend. cbn in Hend.
  destruct Hend as [(ev & Hev & Hengine) | [Hkey | [[_ ->] | Hdate]]].
  - exfalso. rewrite (Hquiet ev) in Hengine; [discriminate | ].
    apply in_or_app. right. exact Hev.
  - right. exact Hkey.
  - left. reflexivity.
  - destruct Hdate as (jd_0 & e & Hhead & _). discriminate.
Qed.

Lemma empty_grid_fails_before_lookup_witness :
  In (false, "name", get_ephemeris_by_name_jdstep empty_grid_env)
     (repository_routes empty_grid_env)
  /\ In (get_ephemeris_by_name_jdstep empty_grid_env) (jdstep_routes empty_grid_env)
  /\ generated_grid empty_grid_env
       (snd (run (get_ephemeris_by_name_jdstep empty_grid_env request_batch))) []
  /\ (fst (run (get_ephemeris_by_name_jdstep empty_grid_env request_batch))
      = Exc IndexError
      \/ exists k,
           fst (run (get_ephemeris_by_name_jdstep empty_grid_env request_batch))
           = Exc (KeyError k))
  /\ no_engine_call
       (snd (run (get_ephemeris_by_name_jdstep empty_grid_env request_batch))).
Proof.
  assert (Hrepo : In (false, "name", get_ephemeris_by_name_jdstep empty_grid_env)
     (repository_routes empty_grid_env)) by (right; left; reflexivity).
  assert (Hh : In (get_ephemeris_by_name_jdstep empty_grid_env)
                  (jdstep_routes empty_grid_env)) by (left; reflexivity).
  assert (Hgrid : generated_grid empty_grid_env
       (snd (run (get_ephemeris_by_name_jdstep empty_grid_env request_batch))) []).
  { exists 2460193%Q, (24601932 # 10)%Q, (1 # 10)%Q. split; [ | reflexivity ].
    vm_compute. do 2 right. left. reflexivity. }
  split; [exact Hrepo | ]. split; [exact Hh | ]. split; [exact Hgrid | ].
  exact (empty_grid_fails_before_lookup empty_grid_env false "name" _ request_batch
           Hrepo Hh Hgrid).
Defined.

(** X5.  The routes on user-supplied element text never ask the
    repository; what they hand to the engine is what the parser made of the
    validated [tle] parameter: its two lines, collection date, name and
    catalog number. *)
Theorem user_elements_bypass_repository env h request :
  In h (tle_routes env) ->
  no_repository_call (snd (run (h request)))
  /\ forall a, In (EvPropagate a) (snd (run (h request))) ->
       exists text u p,
         In (EvParseTle text) (snd (run (h request)))
         /\ parse_tle env text = Ok u
         /\ validated env (snd (run (h request))) p
         /\ p !! "tle" = Some text
         /\ pa_tle_line1 a = UserTLE.tle_line1 u
         /\ pa_tle_line2 a = UserTLE.tle_line2 u
         /\ pa_date_collected a = UserTLE.date_collected u
         /\ pa_name a = UserTLE.name u
         /\ pa_catalog_id a = VStr (UserTLE.catalog u)
         /\ p !! "location" = Some (pa_location a)
         /\ p !! "min_altitude" = Some (pa_min_altitude a)
         /\ p !! "max_altitude" = Some (pa_max_altitude a).
Proof.
  intros Hh.
  destruct (run (h request)) as [r tr] eqn:Hrun. cbn [snd].
  destruct (anatomy_tle_routes env h request r tr Hh Hrun) as (Hparsed & Hrepo & _).
  split; [exact Hrepo | exact Hparsed].
Qed.

Lemma user_elements_bypass_repository_witness :
  In (get_ephemeris_by_tle demo_env) (tle_routes demo_env)
  /\ no_repository_call (snd (run (get_ephemeris_by_tle demo_env request_tle)))
  /\ is_Ok (fst (run (get_ephemeris_by_tle demo_env request_tle))) = true.
Proof.
  assert (Hh : In (get_ephemeris_by_tle demo_env) (tle_routes demo_env))
    by (left; reflexivity).
  split; [exact Hh | ].
  split; [ | vm_compute; reflexivity ].
  exact (proj1 (user_elements_bypass_repository demo_env _ request_tle Hh)).
Defined.

(** X6.  An ephemeris route returns a response only as the result of its
    call to the engine, and that call is the last thing it does. *)
Theorem response_comes_from_engine env h request resp :
  In h (ephemeris_routes env) ->
  fst (run (h request)) = Ok resp ->
  exists a,
    last (snd (run (h request))) = Some (EvPropagate a)
    /\ propagate_and_create_json_results env a = Ok resp.
Proof.
  intros Hh Hresp.
  destruct (run (h request)) as [r tr] eqn:Hrun. cbn [fst snd] in *.
  assert (Hans : answered_by_engine env r tr).
  { destruct Hh as [<- | [<- | [<- | [<- | [<- | [<- | []]]]]]].
    - apply (anatomy_name env request r tr Hrun).
    - apply (anatomy_catalog env request r tr Hrun).
    - apply (anatomy_tle env request r tr Hrun).
    - apply (anatomy_name_jdstep env request r tr Hrun).
    - apply (anatomy_catalog_jdstep env request r tr Hrun).
    - apply (anatomy_tle_jdstep env request r tr Hrun). }
  exact (Hans resp Hresp).
Qed.

Lemma response_comes_from_engine_witness :
  In (get_ephemeris_by_name_jdstep demo_env) (ephemeris_routes demo_env)
  /\ fst (run (get_ephemeris_by_name_jdstep demo_env request_batch))
     = Ok (response_of (fst (run (get_ephemeris_by_name_jdstep demo_env request_batch))))
  /\ exists a,
       last (snd (run (get_ephemeris_by_name_jdstep demo_env request_batch)))
       = Some (EvPropagate a)
       /\ propagate_and_create_json_results demo_env a
          = Ok (response_of (fst (run (get_ephemeris_by_name_jdstep demo_env
                                         request_batch)))).
Proof.
  assert (Hh : In (get_ephemeris_by_name_jdstep demo_env) (ephemeris_routes demo_env))
    by (do 3 right; left; reflexivity).
  assert (Hok : fst (run (get_ephemeris_by_name_jdstep demo_env request_batch))
     = Ok (response_of (fst (run (get_ephemeris_by_name_jdstep demo_env
                                    request_batch))))).
  { apply response_of_ok. vm_compute. reflexivity. }
  split; [exact Hh | ]. split; [exact Hok | ].
  exact (response_comes_from_engine demo_env _ request_batch _ Hh Hok).
Defined.

(** ** Dates and bounds of a request *)

(** X7.  On a single-instant route a Julian date that [Time] does not
    accept, or that is not in the parameters at all, ends the request with a
    500 carrying [INVALID_JD], whatever the exception was; the log then
    holds the extraction and the validation only. *)
Theorem invalid_julian_date_is_500 env keys required h request
    (p0 p : gmap string pyval) :
  In (keys, required, h) (instant_table env) ->
  extract_parameters env request keys = Ok p0 ->
  validate_parameters env p0 required = Ok p ->
  p !! "julian_date" = None
  \/ (exists v e, p !! "julian_date" = Some v /\ Time_jd env v = Exc e) ->
  run (h request)
  = (Exc (HTTPException 500 (Some (INVALID_JD env))),
     [EvExtractParameters request keys; EvValidateParameters p0 required]).
Proof.
  intros Hh Hext Hval Hbad.
  assert (Hdate : forall tr,
            julian_date_of env p tr
            = (Exc (HTTPException 500 (Some (INVALID_JD env))), tr)).
  { intros tr. unfold julian_date_of, try_except, bind, getitem, abort, raise, ret.
    destruct Hbad as [-> | (v & e & -> & ->)]; reflexivity. }
  destruct Hh as [E | [E | [E | []]]]; injection E as <- <- <-;
    unfold run, get_ephemeris_by_name, get_ephemeris_by_catalog_number,
      get_ephemeris_by_tle, call_extract_parameters, call_validate_parameters;
    unfold bind at 1; unfold call at 1; rewrite Hext;
    unfold bind at 1; unfold call at 1; rewrite Hval;
    unfold bind at 1; rewrite Hdate; reflexivity.
Qed.

Lemma invalid_julian_date_is_500_witness :
  In (["name"; "latitude"; "longitude"; "elevation"; "julian_date";
       "min_altitude"; "max_altitude"; "data_source"],
      ["name"; "latitude"; "longitude"; "elevation"; "julian_date"],
      get_ephemeris_by_name demo_env) (instant_table demo_env)
  /\ fst (run (get_ephemeris_by_name demo_env request_bad_date))
     = Exc (HTTPException 500 (Some (INVALID_JD demo_env))).
Proof.
  assert (Hh : In (["name"; "latitude"; "longitude"; "elevation"; "julian_date";
       "min_altitude"; "max_altitude"; "data_source"],
      ["name"; "latitude"; "longitude"; "elevation"; "julian_date"],
      get_ephemeris_by_name demo_env) (instant_table demo_env))
    by (left; reflexivity).
  split; [exact Hh | ].
  rewrite (invalid_julian_date_is_500 demo_env _ _ _ request_bad_date
             (dict_of (extract_parameters demo_env request_bad_date
                ["name"; "latitude"; "longitude"; "elevation"; "julian_date";
                 "min_altitude"; "max_altitude"; "data_source"]))
             (dict_of (validate_parameters demo_env
                (dict_of (extract_parameters demo_env request_bad_date
                   ["name"; "latitude"; "longitude"; "elevation"; "julian_date";
                    "min_altitude"; "max_altitude"; "data_source"]))
                ["name"; "latitude"; "longitude"; "elevation"; "julian_date"]))
             Hh).
  - reflexivity.
  - apply dict_of_ok. vm_compute. reflexivity.
  - apply dict_of_ok. vm_compute. reflexivity.
  - right. exists (VStr "noon"), ValueError. split; vm_compute; reflexivity.
Defined.

Lemma float_run env v tr : float env v tr = (to_number env v, tr).
Proof.
  unfold to_number. destruct v as [ | s | x | ? ? ? ]; cbn [float]; try reflexivity.
  destruct (float_of_string env s); reflexivity.
Qed.

Lemma stepjd_of_run env (p : gmap string pyval) v tr :
  p !! "stepjd" = Some v ->
  stepjd_of env p tr = (step_number env v, tr).
Proof.
  intros Hv. unfold stepjd_of, step_number, bind, getitem, ret. rewrite Hv.
  destruct (is_None v); [reflexivity | ]. apply float_run.
Qed.

Lemma appends_silent {A} (m : M A) : silent m -> appends m.
Proof. intros Hs tr. exists []. rewrite app_nil_r. apply Hs. Qed.

Lemma appends_call {A} ev (r : result A) : appends (call ev r).
Proof. intros tr. exists [ev]. reflexivity. Qed.

Lemma appends_emit ev : appends (emit ev).
Proof. intros tr. exists [ev]. reflexivity. Qed.

Lemma appends_bind {A B} (m : M A) (k : A -> M B) :
  appends m -> (forall a, appends (k a)) -> appends (bind m k).
Proof.
  intros Hm Hk tr. unfold bind. destruct (Hm tr) as [tail Htail].
  destruct (m tr) as [[a|e] tr']; cbn [snd] in *; subst tr'.
  - destruct (Hk a (tr ++ tail)) as [tail' Htail'].
    exists (tail ++ tail'). rewrite Htail', app_assoc. reflexivity.
  - exists tail. reflexivity.
Qed.

(** Every step of an ephemeris route only adds to the log. *)
Ltac appends_route :=
  repeat first
    [ apply appends_bind; [ | intros ? ]
    | apply appends_call
    | apply appends_emit
    | apply appends_silent; solve [ auto with silent | apply silent_raise ]
    | match goal with
      | |- appends (if ?c then _ else _) => destruct c
      end ].

(** X8.  A batch route converts start, stop and step with [float], in that
    order, without guarding the conversion: the first that fails ends the
    request with its own exception, before any time grid is asked for;
    when all three convert, [jd_arange] is called with exactly these
    numbers (the default standing in for a missing step). *)
Theorem bounds_are_converted_unguarded env keys required h request
    (p0 p : gmap string pyval) (startjd stopjd stepjd : pyval) :
  In (keys, required, h) (batch_table env) ->
  extract_parameters env request keys = Ok p0 ->
  validate_parameters env p0 required = Ok p ->
  p !! "startjd" = Some startjd ->
  p !! "stopjd" = Some stopjd ->
  p !! "stepjd" = Some stepjd ->
  match to_number env startjd, to_number env stopjd, step_number env stepjd with
  | Exc e, _, _ | Ok _, Exc e, _ | Ok _, Ok _, Exc e =>
      run (h request)
      = (Exc e, [EvExtractParameters request keys; EvValidateParameters p0 required])
  | Ok jd0, Ok jd1, Ok jds =>
      exists tail,
        snd (run (h request))
        = [EvExtractParameters request keys; EvValidateParameters p0 required;
           EvJdArange jd0 jd1 jds] ++ tail
  end.
Proof.
  intros Hh Hext Hval Hstart Hstop Hstep.
  assert (Hprologue : forall k,
    jdstep_prologue env request keys required k []
    = match to_number env startjd, to_number env stopjd, step_number env stepjd with
      | Exc e, _, _ | Ok _, Exc e, _ | Ok _, Ok _, Exc e =>
          (Exc e, [EvExtractParameters request keys;
                   EvValidateParameters p0 required])
      | Ok jd0, Ok jd1, Ok jds =>
          bind (call_jd_arange env jd0 jd1 jds) (k p)
            [EvExtractParameters request keys; EvValidateParameters p0 required]
      end).
  { intros k. unfold jdstep_prologue, call_extract_parameters,
      call_validate_parameters.
    unfold bind at 1; unfold call at 1; rewrite Hext.
    unfold bind at 1; unfold call at 1; rewrite Hval.
    unfold bind at 1; unfold getitem at 1; rewrite Hstart; unfold ret at 1.
    unfold bind at 1; rewrite float_run.
    destruct (to_number env startjd) as [jd0|e]; [ | reflexivity ].
    unfold bind at 1; unfold getitem at 1; rewrite Hstop; unfold ret at 1.
    unfold bind at 1; rewrite float_run.
    destruct (to_number env stopjd) as [jd1|e]; [ | reflexivity ].
    unfold bind at 1; rewrite (stepjd_of_run env p stepjd _ Hstep).
    destruct (step_number env stepjd) as [jds|e]; reflexivity. }
  assert (Hrun : exists k,
            run (h request) = jdstep_prologue env request keys required k []
            /\ forall jd, appends (k p jd)).
  { destruct Hh as [E | [E | [E | []]]]; injection E as <- <- <-;
      (eexists; split; [ reflexivity | ]);
      intros jd; cbn beta;
      unfold call_get_tle, call_parse_tle, call_propagate, abort;
      appends_route. }
  destruct Hrun as (k & Hrun & Hk).
  rewrite Hrun, Hprologue.
  destruct (to_number env startjd) as [jd0|e]; [ | reflexivity ].
  destruct (to_number env stopjd) as [jd1|e]; [ | reflexivity ].
  destruct (step_number env stepjd) as [jds|e]; [ | reflexivity ].
  unfold bind, call_jd_arange, call. cbn [app].
  destruct (jd_arange env jd0 jd1 jds) as [jd|e].
  - destruct (Hk jd [EvExtractParameters request keys;
                     EvValidateParameters p0 required;
                     EvJdArange jd0 jd1 jds]) as [tail Htail].
    exists tail. exact Htail.
  - exists []. reflexivity.
Qed.

Lemma bounds_are_converted_unguarded_witness :
  In (["name"; "latitude"; "longitude"; "elevation"; "startjd"; "stopjd";
       "stepjd"; "min_altitude"; "max_altitude"; "data_source"],
      ["name"; "latitude"; "longitude"; "elevation"; "startjd"; "stopjd"],
      get_ephemeris_by_name_jdstep demo_env) (batch_table demo_env)
  /\ to_number demo_env (VStr "2460193") = Ok 2460193%Q
  /\ to_number demo_env (VStr "later") = Exc ValueError
  /\ fst (run (get_ephemeris_by_name_jdstep demo_env request_bad_stop))
     = Exc ValueError.
Proof.
  assert (Hh : In (["name"; "latitude"; "longitude"; "elevation"; "startjd"; "stopjd";
       "stepjd"; "min_altitude"; "max_altitude"; "data_source"],
      ["name"; "latitude"; "longitude"; "elevation"; "startjd"; "stopjd"],
      get_ephemeris_by_name_jdstep demo_env) (batch_table demo_env))
    by (left; reflexivity).
  split; [exact Hh | ].
  split; [vm_compute; reflexivity | ]. split; [vm_compute; reflexivity | ].
  pose proof (bounds_are_converted_unguarded demo_env _ _ _ request_bad_stop
             (dict_of (extract_parameters demo_env request_bad_stop batch_keys))
             (dict_of (validate_parameters demo_env
                (dict_of (extract_parameters demo_env request_bad_stop batch_keys))
                batch_required))
             (VStr "2460193") (VStr "later") VNone Hh) as Hrun.
  rewrite Hrun.
  - reflexivity.
  - apply dict_of_ok. vm_compute. reflexivity.
  - apply dict_of_ok. vm_compute. reflexivity.
  - vm_compute. reflexivity.
  - vm_compute. reflexivity.
  - vm_compute. reflexivity.
Defined.

(** ** The lookup tools *)

(** A loop over rows whose body logs nothing and fails with [e] exactly on
    the rows that are not [ok]. *)
Lemma mapM_rows {A B} (f : A -> M B) (g : A -> B) (ok : A -> bool) (e : exn)
    (l : list A) :
  (forall x tr, f x tr = if ok x then (Ok (g x), tr) else (Exc e, tr)) ->
  forall tr,
    mapM f l tr = if forallb ok l then (Ok (map g l), tr) else (Exc e, tr).
Proof.
  intros Hf. induction l as [|x l IH]; intros tr; cbn [mapM forallb map].
  - reflexivity.
  - unfold bind at 1. rewrite Hf. destruct (ok x); cbn [andb]; [ | reflexivity ].
    unfold bind at 1. rewrite IH. destruct (forallb ok l); reflexivity.
Qed.

Lemma mapM_print (rows : list (string * option datetime)) :
  forallb dated rows = true ->
  forall tr,
    mapM (fun name_date : string * option datetime =>
            match snd name_date with
            | Some date_added => emit (EvPrint (fst name_date) date_added)
            | None => raise (AttributeError "astimezone")
            end) rows tr
    = (Ok (map (fun _ => tt) rows), tr ++ map printed rows).
Proof.
  induction rows as [|[name [d|]] rows IH]; intros Hall tr;
    cbn [mapM forallb map] in *.
  - rewrite app_nil_r. reflexivity.
  - unfold bind at 1. cbn [snd fst emit]. unfold emit at 1.
    unfold bind at 1. rewrite IH by exact Hall.
    rewrite <- app_assoc. reflexivity.
  - discriminate.
Qed.

Lemma ids_tool_run env request name :
  args request !! "name" = Some name ->
  run (get_norad_ids_from_name env request)
  = match get_ids_for_satelltite_name env (upper env name) with
    | Exc e => (Ok ReturnNone, [EvGetIdsForName (upper env name); EvLogError e])
    | Ok rows =>
        if forallb dated rows
        then (Ok (Jsonify (map (id_row env (upper env name)) rows)),
              [EvGetIdsForName (upper env name)])
        else (Ok ReturnNone,
              [EvGetIdsForName (upper env name);
               EvLogError (AttributeError "strftime")])
    end.
Proof.
  intros Hname. unfold run, get_norad_ids_from_name. rewrite Hname. cbn [is_None].
  unfold try_except. unfold bind at 1. unfold call at 1.
  destruct (get_ids_for_satelltite_name env (upper env name)) as [rows|e];
    [ | reflexivity ].
  unfold bind at 1.
  rewrite (mapM_rows _ (id_row env (upper env name)) dated (AttributeError "strftime")).
  - destruct (forallb dated rows); reflexivity.
  - intros [id [d|]] tr; reflexivity.
Qed.

Lemma names_tool_run env request satellite_id :
  args request !! "id" = Some satellite_id ->
  run (get_names_from_norad_id env request)
  = match get_names_for_satellite_id env satellite_id with
    | Exc e => (Ok ReturnNone, [EvGetNamesForId satellite_id; EvLogError e])
    | Ok rows =>
        if forallb dated rows
        then (Ok (Jsonify (map (name_row env satellite_id) rows)),
              EvGetNamesForId satellite_id :: map printed rows)
        else (Ok ReturnNone,
              [EvGetNamesForId satellite_id;
               EvLogError (AttributeError "strftime")])
    end.
Proof.
  intros Hid. unfold run, get_names_from_norad_id. rewrite Hid.
  unfold try_except. unfold bind at 1. unfold call at 1.
  destruct (get_names_for_satellite_id env satellite_id) as [rows|e];
    [ | reflexivity ].
  unfold bind at 1.
  rewrite (mapM_rows _ (name_row env satellite_id) dated (AttributeError "strftime")).
  - destruct (forallb dated rows) eqn:Hall; [ | reflexivity ].
    unfold bind at 1. rewrite (mapM_print rows Hall). reflexivity.
  - intros [name [d|]] tr; reflexivity.
Qed.

Lemma optional_date_run env d tr :
  optional_date env d tr = (date_value env d, tr).
Proof.
  unfold optional_date, date_value, date_argument.
  destruct d as [[|c s]|]; try reflexivity.
  destruct (Time_jd env (VStr (String c s))) as [jd|e]; [ | reflexivity ].
  destruct (to_datetime env jd); reflexivity.
Qed.

Lemma tle_data_run env request :
  run (get_tle_data env request) = tle_data_outcome env request.
Proof.
  unfold run, get_tle_data, tle_data_outcome, known_id_type.
  destruct (args request !! "id") as [satellite_id|]; [ | reflexivity ].
  destruct (args request !! "id_type") as [id_type|]; [ | reflexivity ].
  cbn [default from_option id].
  rewrite negb_orb.
  destruct (negb (String.eqb id_type "catalog") && negb (String.eqb id_type "name"));
    [reflexivity | ].
  unfold bind at 1. rewrite optional_date_run.
  destruct (date_value env (args request !! "start_date_jd")) as [start_date|e];
    [ | reflexivity ].
  unfold bind at 1. rewrite optional_date_run.
  destruct (date_value env (args request !! "end_date_jd")) as [end_date|e];
    [ | reflexivity ].
  unfold try_except. unfold bind at 1. unfold call at 1.
  destruct (get_tles env satellite_id id_type start_date end_date) as [rows|e].
  - unfold bind at 1.
    rewrite (mapM_rows _ (tle_row env) has_satellite (AttributeError "sat_name")).
    + destruct (forallb has_satellite rows); reflexivity.
    + intros tle tr. unfold has_satellite, tle_row.
      destruct (TLE.tle_satellite tle); reflexivity.
  - destruct e; reflexivity.
Qed.

(** X9.  The names tool raises in one case only: the request carries no
    [id].  It is then refused with a 400 before anything is asked or
    logged; every other failure is caught. *)
Theorem names_tool_raises_only_400 env request e :
  fst (run (get_names_from_norad_id env request)) = Exc e ->
  e = HTTPException 400 None
  /\ args request !! "id" = None
  /\ snd (run (get_names_from_norad_id env request)) = [].
Proof.
  destruct (args request !! "id") as [satellite_id|] eqn:Hid.
  - rewrite (names_tool_run env request satellite_id Hid).
    destruct (get_names_for_satellite_id env satellite_id) as [rows|e'];
      [ destruct (forallb dated rows) | ]; discriminate.
  - unfold run, get_names_from_norad_id. rewrite Hid.
    intros H. injection H as <-. repeat split.
Qed.

Lemma names_tool_raises_only_400_witness :
  fst (run (get_names_from_norad_id demo_env request_nothing))
  = Exc (HTTPException 400 None)
  /\ args request_nothing !! "id" = None
  /\ snd (run (get_names_from_norad_id demo_env request_nothing)) = [].
Proof.
  assert (H : fst (run (get_names_from_norad_id demo_env request_nothing))
              = Exc (HTTPException 400 None)) by reflexivity.
  split; [exact H | ].
  exact (proj2 (names_tool_raises_only_400 demo_env request_nothing _ H)).
Defined.

(** X10.  The ids tool answers all or nothing: when every row the
    repository returns has a date, the answer lists each row with the
    upper-cased name of the request, in the repository's order (an empty
    list included); one row without a date makes the whole answer [None],
    with the [AttributeError] in the error log. *)
Theorem ids_tool_all_or_nothing env request name rows :
  args request !! "name" = Some name ->
  get_ids_for_satelltite_name env (upper env name) = Ok rows ->
  run (get_norad_ids_from_name env request)
  = if forallb dated rows
    then (Ok (Jsonify (map (id_row env (upper env name)) rows)),
          [EvGetIdsForName (upper env name)])
    else (Ok ReturnNone,
          [EvGetIdsForName (upper env name);
           EvLogError (AttributeError "strftime")]).
Proof.
  intros Hname Hrows. rewrite (ids_tool_run env request name Hname), Hrows.
  reflexivity.
Qed.

Lemma ids_tool_all_or_nothing_witness :
  args request_ids !! "name" = Some "iss (zarya)"
  /\ get_ids_for_satelltite_name demo_env (upper demo_env "iss (zarya)")
     = Ok [("25544", Some (2460000 # 1))]
  /\ run (get_norad_ids_from_name demo_env request_ids)
     = (Ok (Jsonify [[("name", "ISS (ZARYA)"); ("norad_id", "25544");
                      ("date_added", "2460000")]]),
        [EvGetIdsForName "ISS (ZARYA)"]).
Proof.
  split; [reflexivity | ]. split; [reflexivity | ].
  rewrite (ids_tool_all_or_nothing demo_env request_ids "iss (zarya)"
             [("25544", Some (2460000 # 1))] eq_refl eq_refl).
  reflexivity.
Defined.

(** X11.  The names tool formats every row before it prints any: when all
    rows have a date it prints one line per row, in order, after the query,
    and answers with the rows under the requested id; one row without a
    date makes the answer [None] and nothing is printed. *)
Theorem names_tool_prints_each_row env request satellite_id rows :
  args request !! "id" = Some satellite_id ->
  get_names_for_satellite_id env satellite_id = Ok rows ->
  run (get_names_from_norad_id env request)
  = if forallb dated rows
    then (Ok (Jsonify (map (name_row env satellite_id) rows)),
          EvGetNamesForId satellite_id :: map printed rows)
    else (Ok ReturnNone,
          [EvGetNamesForId satellite_id;
           EvLogError (AttributeError "strftime")]).
Proof.
  intros Hid Hrows. rewrite (names_tool_run env request satellite_id Hid), Hrows.
  reflexivity.
Qed.

Lemma names_tool_prints_each_row_witness :
  args request_names !! "id" = Some "25544"
  /\ get_names_for_satellite_id demo_env "25544"
     = Ok [("ISS (ZARYA)", Some (2460000 # 1))]
  /\ run (get_names_from_norad_id demo_env request_names)
     = (Ok (Jsonify [[("name", "ISS (ZARYA)"); ("norad_id", "25544");
                      ("date_added", "2460000")]]),
        [EvGetNamesForId "25544"; EvPrint "ISS (ZARYA)" (2460000 # 1)]).
Proof.
  split; [reflexivity | ]. split; [reflexivity | ].
  rewrite (names_tool_prints_each_row demo_env request_names "25544"
             [("ISS (ZARYA)", Some (2460000 # 1))] eq_refl eq_refl).
  reflexivity.
Defined.

(** X12.  [get_tle_data] asks the repository at most once and as the first
    thing it logs, and only with a validated request: the identifier and
    the kind are the request's [id] and [id_type], the kind is "catalog" or
    "name", and the two dates are what the date parameters convert to. *)
Theorem tle_data_query_is_validated env request
    satellite_id id_type start_date end_date :
  In (EvGetTles satellite_id id_type start_date end_date)
     (snd (run (get_tle_data env request))) ->
  args request !! "id" = Some satellite_id
  /\ args request !! "id_type" = Some id_type
  /\ (id_type = "catalog" \/ id_type = "name")
  /\ date_value env (args request !! "start_date_jd") = Ok start_date
  /\ date_value env (args request !! "end_date_jd") = Ok end_date
  /\ head (snd (run (get_tle_data env request)))
     = Some (EvGetTles satellite_id id_type start_date end_date).
Proof.
  rewrite tle_data_run. unfold tle_data_outcome, known_id_type.
  destruct (args request !! "id") as [sid|]; [ | intros [] ].
  destruct (args request !! "id_type") as [ty|]; [ | intros [] ].
  cbn [default from_option id].
  destruct (String.eqb ty "catalog") eqn:Hcat;
    [ | destruct (String.eqb ty "name") eqn:Hname; [ | intros [] ] ];
    cbn [orb negb];
    (destruct (date_value env (args request !! "start_date_jd")) as [sd|e];
       [ | intros [] ]);
    (destruct (date_value env (args request !! "end_date_jd")) as [ed|e];
       [ | intros [] ]);
    (assert (Hkind : ty = "catalog" \/ ty = "name")
       by (first [ left; apply String.eqb_eq; assumption
                 | right; apply String.eqb_eq; assumption ]));
    (destruct (get_tles env sid ty sd ed) as [rows|e];
       [ destruct (forallb has_satellite rows) | destruct e ]);
    cbn [snd In head]; intros Hin;
    repeat (destruct Hin as [Hin | Hin]; try discriminate Hin);
    try (exfalso; exact Hin);
    injection Hin as <- <- <- <-; repeat split; assumption.
Qed.

Lemma tle_data_query_is_validated_witness :
  In (EvGetTles "25544" "catalog" None None)
     (snd (run (get_tle_data demo_env request_tle_data)))
  /\ args request_tle_data !! "id" = Some "25544"
  /\ args request_tle_data !! "id_type" = Some "catalog"
  /\ ("catalog" = "catalog" \/ "catalog" = "name")
  /\ date_value demo_env (args request_tle_data !! "start_date_jd") = Ok None
  /\ date_value demo_env (args request_tle_data !! "end_date_jd") = Ok None
  /\ head (snd (run (get_tle_data demo_env request_tle_data)))
     = Some (EvGetTles "25544" "catalog" None None).
Proof.
  assert (Hin : In (EvGetTles "25544" "catalog" None None)
                   (snd (run (get_tle_data demo_env request_tle_data)))).
  { vm_compute. left. reflexivity. }
  split; [exact Hin | ].
  exact (tle_data_query_is_validated demo_env request_tle_data _ _ _ _ Hin).
Defined.

(** X13.  What [get_tle_data] can raise, and when: a 400 for a request
    without [id] or with an [id_type] other than "catalog" and "name"; the
    exception of a date parameter that does not convert, which is raised
    outside the [try]; and a 500 carrying [NO_TLE_FOUND] when the repository
    query raises [DataError].  In the first two cases nothing was asked or
    logged; in the last the query is all the log holds. *)
Theorem tle_data_raises env request e :
  fst (run (get_tle_data env request)) = Exc e ->
  (e = HTTPException 400 None
   /\ (args request !! "id" = None
       \/ known_id_type (args request !! "id_type") = false)
   /\ snd (run (get_tle_data env request)) = [])
  \/ ((date_value env (args request !! "start_date_jd") = Exc e
       \/ date_value env (args request !! "end_date_jd") = Exc e)
      /\ snd (run (get_tle_data env request)) = [])
  \/ (e = HTTPException 500 (Some (NO_TLE_FOUND env))
      /\ exists satellite_id id_type start_date end_date,
           get_tles env satellite_id id_type start_date end_date = Exc DataError
           /\ snd (run (get_tle_data env request))
              = [EvGetTles satellite_id id_type start_date end_date]).
Proof.
  rewrite tle_data_run. unfold tle_data_outcome.
  destruct (args request !! "id") as [sid|].
  2: { intros H. injection H as <-. left. repeat split. left. reflexivity. }
  destruct (known_id_type (args request !! "id_type")) eqn:Hkind; cbn [negb].
  2: { intros H. injection H as <-. left. repeat split. right. reflexivity. }
  destruct (date_value env (args request !! "start_date_jd")) as [sd|e1].
  2: { intros H. injection H as <-. right. left. split; [left | ]; reflexivity. }
  destruct (date_value env (args request !! "end_date_jd")) as [ed|e2].
  2: { intros H. injection H as <-. right. left. split; [right | ]; reflexivity. }
  cbv zeta.
  destruct (get_tles env sid (default "" (args request !! "id_type")) sd ed)
    as [rows|e'] eqn:Hquery.
  { destruct (forallb has_satellite rows); discriminate. }
  destruct e'; try discriminate.
  intros H. injection H as <-. right. right. split; [reflexivity | ].
  eexists _, _, _, _. split; [exact Hquery | reflexivity].
Qed.

Lemma tle_data_raises_witness :
  fst (run (get_tle_data demo_env request_tle_data_bad_date)) = Exc ValueError
  /\ date_value demo_env (args request_tle_data_bad_date !! "start_date_jd")
     = Exc ValueError
  /\ snd (run (get_tle_data demo_env request_tle_data_bad_date)) = [].
Proof.
  assert (H : fst (run (get_tle_data demo_env request_tle_data_bad_date))
              = Exc ValueError) by (vm_compute; reflexivity).
  split; [exact H | ].
  destruct (tle_data_raises demo_env request_tle_data_bad_date _ H)
    as [(Hcode & _) | [(_ & Hlog) | (Hcode & _)]];
    [ discriminate Hcode | | discriminate Hcode ].
  split; [vm_compute; reflexivity | exact Hlog].
Defined.

(** X14.  [get_tle_data] reads four parameters and nothing else of the
    request: two requests that agree on [id] and [id_type], and on
    [start_date_jd] and [end_date_jd] up to an empty string counting as
    absent, are answered alike, call log included. *)
Theorem tle_data_reads_four_parameters env request request' :
  args request !! "id" = args request' !! "id" ->
  args request !! "id_type" = args request' !! "id_type" ->
  date_argument (args request !! "start_date_jd")
  = date_argument (args request' !! "start_date_jd") ->
  date_argument (args request !! "end_date_jd")
  = date_argument (args request' !! "end_date_jd") ->
  run (get_tle_data env request) = run (get_tle_data env request').
Proof.
  intros Hid Htype Hstart Hend.
  rewrite !tle_data_run. unfold tle_data_outcome, date_value.
  rewrite Hid, Htype, Hstart, Hend. reflexivity.
Qed.

Lemma tle_data_reads_four_parameters_witness :
  run (get_tle_data demo_env request_tle_data)
  = run (get_tle_data demo_env request_tle_data_blank).
Proof.
  apply (tle_data_reads_four_parameters demo_env request_tle_data
           request_tle_data_blank); reflexivity.
Defined.



(** X16.  When the first sample of the grid is an instant that
    [to_datetime] cannot convert, a batch route on the repository ends with
    the exception of the conversion (or with the [KeyError] of a parameter
    access before it): the conversion is an argument of the lookup, so
    nothing is looked up or propagated. *)
Theorem unconvertible_first_sample_stops env flag key h request
    (jd : list Q) (jd_0 : Q) e :
  In (flag, key, h) (repository_routes env) ->
  In h (jdstep_routes env) ->
  generated_grid env (snd (run (h request))) jd ->
  (length jd <= 1000)%nat ->
  head jd = Some jd_0 ->
  to_datetime env jd_0 = Exc e ->
  (fst (run (h request)) = Exc e
   \/ exists k, fst (run (h request)) = Exc (KeyError k))
  /\ no_engine_call (snd (run (h request))).
Proof.
  intros Hrepo Hh Hjd Hlen Hhead Hdate.
  destruct (run (h request)) as [r tr] eqn:Hrun. cbn [fst snd] in *.
  assert (Hlookup : forall identifier f data_source date,
            ~ In (EvGetTle identifier f data_source date) tr).
  { intros identifier f data_source date Hin.
    destruct (proj1 (grid_facts_routes env h request r tr Hh Hrun) _ _ _ _ Hin)
      as (jd' & jd_0' & Hjd' & Hhead' & Hdate').
    rewrite (generated_grid_unique env h request r tr _ _ Hh Hrun Hjd' Hjd) in Hhead'.
    congruence. }
  pose proof (anatomy_routes env flag key h request r tr Hrepo Hrun)
    as (_ & Hprop & Hparse & _).
  assert (Hquiet : no_engine_call tr).
  { intros ev Hev. destruct ev; try reflexivity; exfalso.
    - eapply Hlookup. exact Hev.
    - eapply Hparse. exact Hev.
    - destruct (Hprop _ Hev) as (i & d & t & c & p & Hin & _).
      eapply Hlookup. exact Hin. }
  split; [ | exact Hquiet ].
  destruct Hjd as (a & b & dr & Hin & Hgrid).
  apply (batch_shape_routes env h request r tr Hh) in Hrun.
  destruct Hrun as [(_ & Hnone & _) | Hrun]; [ exfalso; eapply Hnone; exact Hin | ].
  destruct Hrun as (keys & required & p0 & p & jd0 & jd1 & jds & _ & _ & _ & Hafter).
  destruct (after_grid_unique _ _ _ _ _ _ _ _ _ _ _ _ _ Hafter Hin) as (-> & -> & ->).
  destruct Hafter as (tail & -> & _ & Hend).
  rewrite Hgrid in Hend.
  assert (Hfew : (Z.of_nat (length jd) >? 1000)%Z = false) by lia.
  rewrite Hfew in Hend.
  destruct Hend as [(ev & Hev & Hengine) | [Hkey | [[-> _] | Hbad]]].
  - exfalso. rewrite (Hquiet ev) in Hengine; [discriminate | ].
    apply in_or_app. right. exact Hev.
  - right. exact Hkey.
  - discriminate.
  - destruct Hbad as (jd_0' & e' & Hhead' & Hdate' & ->). left. congruence.
Qed.

Lemma unconvertible_first_sample_stops_witness :
  generated_grid demo_env
    (snd (run (get_ephemeris_by_name_jdstep demo_env request_year_zero)))
    (grid_of (Utils.jd_arange 0 (999 # 1000) (1 # 1000)))
  /\ length (grid_of (Utils.jd_arange 0 (999 # 1000) (1 # 1000))) = 1000%nat
  /\ to_datetime demo_env 0 = Exc ValueError
  /\ (fst (run (get_ephemeris_by_name_jdstep demo_env request_year_zero))
      = Exc ValueError
      \/ exists k,
           fst (run (get_ephemeris_by_name_jdstep demo_env request_year_zero))
           = Exc (KeyError k))
  /\ no_engine_call
       (snd (run (get_ephemeris_by_name_jdstep demo_env request_year_zero))).
Proof.
  assert (Hgrid : generated_grid demo_env
            (snd (run (get_ephemeris_by_name_jdstep demo_env request_year_zero)))
            (grid_of (Utils.jd_arange 0 (999 # 1000) (1 # 1000)))).
  { exists 0%Q, (999 # 1000)%Q, (1 # 1000)%Q. split.
    - vm_compute. right. right. left. reflexivity.
    - apply (grid_of_ok (Utils.jd_arange 0 (999 # 1000) (1 # 1000))).
      vm_compute. reflexivity. }
  assert (Hlen : length (grid_of (Utils.jd_arange 0 (999 # 1000) (1 # 1000)))
                 = 1000%nat) by (vm_compute; reflexivity).
  split; [exact Hgrid | ]. split; [exact Hlen | ]. split; [reflexivity | ].
  apply (unconvertible_first_sample_stops demo_env false "name"
           (get_ephemeris_by_name_jdstep demo_env) request_year_zero
           (grid_of (Utils.jd_arange 0 (999 # 1000) (1 # 1000))) 0%Q ValueError).
  - right. left. reflexivity.
  - left. reflexivity.
  - exact Hgrid.
  - rewrite Hlen. lia.
  - vm_compute. reflexivity.
  - reflexivity.
Defined.

(** ** The refusal line of the info log *)

Ltac refusal_facts :=
  let Hin := fresh "Hin" in
  intros ? Hin; each_event Hin;
  (injection Hin as <-;
   split; [ reflexivity | ];
   split; [ reflexivity | ];
   split; [ reflexivity | ];
   eexists; split; [ grid_here | lia ]).

Ltac refusal_stop H := injection H as <- <-; refusal_facts.

Ltac refusal_finish H :=
  apply call_inv in H; destruct H as [-> ->]; cbn [app]; refusal_facts.

Lemma refusal_logged_name env request r tr :
  run (get_ephemeris_by_name_jdstep env request) = (r, tr) ->
  forall msg, ~ In (EvLogInfo msg) tr.
Proof.
  intros H. unfold get_ephemeris_by_name_jdstep in H. unfold_calls H.
  walk H ltac:(fun H => injection H as <- <-; never_parsed)
         ltac:(fun H => apply call_inv in H; destruct H as [-> ->]; cbn [app];
                        never_parsed).
Qed.

Lemma refusal_logged_catalog env request r tr :
  run (get_ephemeris_by_catalog_number_jdstep env request) = (r, tr) ->
  logs_refusal_only env r tr.
Proof.
  intros H. unfold get_ephemeris_by_catalog_number_jdstep in H. unfold_calls H.
  walk H refusal_stop refusal_finish.
Qed.

Lemma refusal_logged_tle env request r tr :
  run (get_ephemeris_by_tle_jdstep env request) = (r, tr) ->
  logs_refusal_only env r tr.
Proof.
  intros H. unfold get_ephemeris_by_tle_jdstep in H. unfold_calls H.
  walk H refusal_stop refusal_finish.
Qed.

(** X17.  The refusal of a grid of more than 1000 samples is written to the
    info log by the catalog and the element-text batch routes, never by the
    name batch route.  Where it is written it is the only info line and the
    last entry of the log, and the request ended with the 400. *)
Theorem refusal_line_of_batch_routes env request :
  (forall msg,
     ~ In (EvLogInfo msg) (snd (run (get_ephemeris_by_name_jdstep env request))))
  /\ logs_refusal_only env
       (fst (run (get_ephemeris_by_catalog_number_jdstep env request)))
       (snd (run (get_ephemeris_by_catalog_number_jdstep env request)))
  /\ logs_refusal_only env
       (fst (run (get_ephemeris_by_tle_jdstep env request)))
       (snd (run (get_ephemeris_by_tle_jdstep env request))).
Proof.
  split; [ | split ].
  - apply (refusal_logged_name env request _ _ (surjective_pairing _)).
  - apply (refusal_logged_catalog env request _ _ (surjective_pairing _)).
  - apply (refusal_logged_tle env request _ _ (surjective_pairing _)).
Qed.
